(** * Monthly fleet report job: model and properties

    A shallow embedding of [cars_monthly.py] (file selection, record
    cleaning, sheet synchronisation, aggregation) and of the part of
    [s3_api.py] the job relies on, followed by the properties proved about
    them.

    Conventions of the embedding:
    - a Python [str] is the list of its code points ([pystr]);
    - a function that can raise returns a [result]; code that has already
      written to the file system or to the spreadsheet when it raises
      returns the state reached together with the exception;
    - the libraries the job calls (pandas, datetime, os, gspread, boto3) are
      modelled by the behaviour the job depends on, described at each
      definition. *)

From Stdlib Require Import List NArith ZArith Lia Bool String Ascii.
From Stdlib Require Import Sorting.Sorted Sorting.Permutation.
Import ListNotations.

Set Implicit Arguments.

(* ================================================================= *)
(** ** Python values: strings, exceptions *)

Definition pystr := list N.

(** Literal of an ASCII text. *)
Fixpoint py (s : string) : pystr :=
  match s with
  | EmptyString => []
  | String c s' => N_of_ascii c :: py s'
  end.

Fixpoint str_eqb (a b : pystr) : bool :=
  match a, b with
  | [], [] => true
  | x :: a', y :: b' => N.eqb x y && str_eqb a' b'
  | _, _ => false
  end.

(** [x in xs] for a list of strings. *)
Definition str_in (x : pystr) (xs : list pystr) : bool :=
  existsb (str_eqb x) xs.

Fixpoint startswith (p s : pystr) : bool :=
  match p, s with
  | [], _ => true
  | x :: p', y :: s' => N.eqb x y && startswith p' s'
  | _ :: _, [] => false
  end.

(** [needle in s] for two strings. *)
Fixpoint contains (needle s : pystr) : bool :=
  startswith needle s ||
  match s with
  | [] => false
  | _ :: s' => contains needle s'
  end.

(** [s.split(sep)] for a one-character separator: never empty. *)
Fixpoint split (sep : N) (s : pystr) : list pystr :=
  match s with
  | [] => [[]]
  | c :: s' =>
      if N.eqb c sep then [] :: split sep s'
      else match split sep s' with
           | w :: ws => (c :: w) :: ws
           | [] => [[c]]
           end
  end.

(** Slices [s[a:b]] with non-negative bounds. *)
Definition slice (a b : nat) (s : pystr) : pystr := firstn (b - a) (skipn a s).

Inductive exn : Set :=
| IndexError | ValueError | KeyError | AttributeError | UnboundLocalError
| EmptyDataError | FileNotFoundError | IsADirectoryError | NotADirectoryError
| ClientError | ParamValidationError
| APIError
| WorksheetNotFound.

Inductive result (A : Type) : Type :=
| Ok (a : A)
| Raise (e : exn).
Arguments Ok {A} a.
Arguments Raise {A} e.

Definition bind {A B} (r : result A) (k : A -> result B) : result B :=
  match r with
  | Ok a => k a
  | Raise e => Raise e
  end.

Declare Scope py_scope.
Delimit Scope py_scope with pyr.
Notation "x <- r ;; k" := (bind r (fun x => k))
  (at level 61, r at next level, right associativity) : py_scope.
Open Scope py_scope.

(** [xs[i]]. *)
Definition index {A} (xs : list A) (i : nat) : result A :=
  match nth_error xs i with
  | Some x => Ok x
  | None => Raise IndexError
  end.

Definition chr (c : ascii) : N := N_of_ascii c.

Definition is_digit (c : N) : bool := (48 <=? c)%N && (c <=? 57)%N.
Definition digit_val (c : N) : Z := Z.of_N c - 48.

(** The decimal digits of Unicode 14 (category Nd) come in runs of ten,
    from the digit zero to the digit nine; these are the first code points
    of the runs. *)
Definition decimal_runs : list N :=
  [0x30; 0x660; 0x6f0; 0x7c0; 0x966; 0x9e6; 0xa66; 0xae6; 0xb66; 0xbe6;
   0xc66; 0xce6; 0xd66; 0xde6; 0xe50; 0xed0; 0xf20; 0x1040; 0x1090;
   0x17e0; 0x1810; 0x1946; 0x19d0; 0x1a80; 0x1a90; 0x1b50; 0x1bb0;
   0x1c40; 0x1c50; 0xa620; 0xa8d0; 0xa900; 0xa9d0; 0xa9f0; 0xaa50;
   0xabf0; 0xff10; 0x104a0; 0x10d30; 0x11066; 0x110f0; 0x11136; 0x111d0;
   0x112f0; 0x11450; 0x114d0; 0x11650; 0x116c0; 0x11730; 0x118e0;
   0x11950; 0x11c50; 0x11d50; 0x11da0; 0x16a60; 0x16ac0; 0x16b50;
   0x1d7ce; 0x1d7d8; 0x1d7e2; 0x1d7ec; 0x1d7f6; 0x1e140; 0x1e2f0;
   0x1e950; 0x1fbf0]%N.

(** The value of a decimal digit, of any script. *)
Definition decimal (c : N) : option Z :=
  match find (fun s => (s <=? c) && (c <? s + 10))%N decimal_runs with
  | Some s => Some (Z.of_N (c - s))
  | None => None
  end.

(** What [\d] matches in a regular expression on a [str]. *)
Definition is_decimal (c : N) : bool :=
  match decimal c with Some _ => true | None => false end.

(** The white space [int()] skips around the digits: of ASCII, the
    characters of C's [isspace] (U+001C to U+001F, which [str.strip]
    removes, are not among them); beyond ASCII, the characters
    [str.isspace] holds of. *)
Definition is_space (c : N) : bool :=
  ((9 <=? c) && (c <=? 13) || (c =? 32)
   || (c =? 0x85) || (c =? 0xA0) || (c =? 0x1680)
   || (0x2000 <=? c) && (c <=? 0x200A)
   || (c =? 0x2028) || (c =? 0x2029) || (c =? 0x202F) || (c =? 0x205F)
   || (c =? 0x3000))%N.

Fixpoint lstrip (s : pystr) : pystr :=
  match s with
  | c :: s' => if is_space c then lstrip s' else s
  | [] => []
  end.

Definition strip (s : pystr) : pystr := rev (lstrip (rev (lstrip s))).

(** The digits of an integer literal: decimal digits of any script,
    single underscores allowed between two digits.  [prev] tells whether
    the previous character was an underscore. *)
Fixpoint int_digits (acc : Z) (prev : bool) (s : pystr) : option Z :=
  match s with
  | [] => if prev then None else Some acc
  | c :: s' =>
      match decimal c with
      | Some d => int_digits (10 * acc + d) false s'
      | None =>
          if N.eqb c (chr "_") && negb prev then int_digits acc true s'
          else None
      end
  end.

Definition int_unsigned (s : pystr) : option Z :=
  match s with
  | c :: _ => if is_decimal c then int_digits 0 false s else None
  | [] => None
  end.

(** [int(s)] in base 10. *)
Definition py_int (s : pystr) : result Z :=
  let body :=
    match strip s with
    | c :: s' =>
        if N.eqb c (chr "+") then int_unsigned s'
        else if N.eqb c (chr "-") then option_map Z.opp (int_unsigned s')
        else int_unsigned (c :: s')
    | [] => None
    end in
  match body with
  | Some z => Ok z
  | None => Raise ValueError
  end.

(* ================================================================= *)
(** ** datetime: [strptime] and [strftime] for the formats of the job *)

Inductive directive : Set := dY | dm | dd | dH | dM | dS.

Definition is_chr (a : ascii) (c : N) : bool := N.eqb c (chr a).
Definition in_range (a b : ascii) (c : N) : bool :=
  (chr a <=? c)%N && (c <=? chr b)%N.

(** The regular expression [strptime] compiles each directive to: a list
    of alternatives, tried in this order, each a sequence of character
    classes.  The classes written as ranges hold ASCII digits; [\d] holds
    the decimal digits of every script. *)
Definition directive_regex (d : directive) : list (list (N -> bool)) :=
  match d with
  | dY => [[is_decimal; is_decimal; is_decimal; is_decimal]]
  | dm => [[is_chr "1"; in_range "0" "2"]; [is_chr "0"; in_range "1" "9"];
           [in_range "1" "9"]]
  | dd => [[is_chr "3"; in_range "0" "1"]; [in_range "1" "2"; is_decimal];
           [is_chr "0"; in_range "1" "9"]; [in_range "1" "9"];
           [is_chr " "; in_range "1" "9"]]
  | dH => [[is_chr "2"; in_range "0" "3"]; [in_range "0" "1"; is_decimal];
           [is_decimal]]
  | dM => [[in_range "0" "5"; is_decimal]; [is_decimal]]
  | dS => [[is_chr "6"; in_range "0" "1"]; [in_range "0" "5"; is_decimal];
           [is_decimal]]
  end.

(** Match one alternative at the head of [s]: the matched text and the
    rest. *)
Fixpoint match_alt (a : list (N -> bool)) (s : pystr) : option (pystr * pystr) :=
  match a with
  | [] => Some ([], s)
  | p :: a' =>
      match s with
      | c :: s' =>
          if p c then
            match match_alt a' s' with
            | Some (g, r) => Some (c :: g, r)
            | None => None
            end
          else None
      | [] => None
      end
  end.

Fixpoint first_some {A B} (f : A -> option B) (xs : list A) : option B :=
  match xs with
  | [] => None
  | x :: xs' => match f x with Some b => Some b | None => first_some f xs' end
  end.

(** [re.match] of the compiled format: leftmost alternative first, with
    backtracking; the groups and the text left unmatched. *)
Fixpoint re_match (fmt : list directive) (s : pystr)
  : option (list pystr * pystr) :=
  match fmt with
  | [] => Some ([], s)
  | d :: fmt' =>
      first_some
        (fun a =>
           match match_alt a s with
           | Some (g, r) =>
               match re_match fmt' r with
               | Some (gs, r') => Some (g :: gs, r')
               | None => None
               end
           | None => None
           end)
        (directive_regex d)
  end.

(** The value of a matched group ([int] of its text). *)
Definition group_val (g : pystr) : Z :=
  match py_int g with Ok z => z | Raise _ => 0 end.

Record datetime : Set := mkdt
  { year : Z; month : Z; day : Z; hour : Z; minute : Z; second : Z }.

Definition is_leap (y : Z) : bool :=
  (y mod 4 =? 0)%Z && (negb (y mod 100 =? 0)%Z || (y mod 400 =? 0)%Z).

Definition days_in_month (y m : Z) : Z :=
  if (m =? 2)%Z then (if is_leap y then 29 else 28)
  else if (m =? 4)%Z || (m =? 6)%Z || (m =? 9)%Z || (m =? 11)%Z then 30
  else 31.

(** The range checks of the [datetime] constructor. *)
Definition valid_datetime (t : datetime) : bool :=
  ((1 <=? year t) && (year t <=? 9999)
   && (1 <=? month t) && (month t <=? 12)
   && (1 <=? day t) && (day t <=? days_in_month (year t) (month t))
   && (0 <=? hour t) && (hour t <=? 23)
   && (0 <=? minute t) && (minute t <=? 59)
   && (0 <=? second t) && (second t <=? 59))%Z.

Definition set_field (d : directive) (v : Z) (t : datetime) : datetime :=
  match d with
  | dY => mkdt v (month t) (day t) (hour t) (minute t) (second t)
  | dm => mkdt (year t) v (day t) (hour t) (minute t) (second t)
  | dd => mkdt (year t) (month t) v (hour t) (minute t) (second t)
  | dH => mkdt (year t) (month t) (day t) v (minute t) (second t)
  | dM => mkdt (year t) (month t) (day t) (hour t) v (second t)
  | dS => mkdt (year t) (month t) (day t) (hour t) (minute t) v
  end.

Fixpoint set_fields (fmt : list directive) (gs : list pystr) (t : datetime)
  : datetime :=
  match fmt, gs with
  | d :: fmt', g :: gs' => set_fields fmt' gs' (set_field d (group_val g) t)
  | _, _ => t
  end.

(** [datetime.strptime(s, fmt)] for a format made of directives only:
    no match, text left over and out-of-range fields are all
    [ValueError]. *)
Definition strptime (fmt : list directive) (s : pystr) : result datetime :=
  match re_match fmt s with
  | Some (gs, []) =>
      let t := set_fields fmt gs (mkdt 1900 1 1 0 0 0) in
      if valid_datetime t then Ok t else Raise ValueError
  | Some (_, _ :: _) => Raise ValueError
  | None => Raise ValueError
  end.

Definition dec_digit (n : Z) : N := (48 + Z.to_N (n mod 10))%N.

(** Decimal text of a natural number, most significant digit first. *)
Fixpoint dec_fuel (fuel : nat) (n : Z) (acc : pystr) : pystr :=
  match fuel with
  | O => acc
  | S f =>
      if (n <? 10)%Z then dec_digit n :: acc
      else dec_fuel f (n / 10)%Z (dec_digit n :: acc)
  end.

Definition dec (n : Z) : pystr := dec_fuel (S (Z.to_nat (Z.log2 n))) n [].

Definition zfill (w : nat) (s : pystr) : pystr :=
  repeat (chr "0") (w - List.length s) ++ s.

(** The number a text of decimal digits writes. *)
Definition digits_num (ds : pystr) : Z :=
  fold_left (fun acc c => 10 * acc + digit_val c)%Z ds 0%Z.

Definition digits : list N := [48; 49; 50; 51; 52; 53; 54; 55; 56; 57]%N.

(** For a text [ds] of eight digits [YYYYMMDD]: the date it writes, and
    the text [YYYY-MM-DD]. *)
Definition ymd (ds : pystr) : datetime :=
  mkdt (digits_num (slice 0 4 ds)) (digits_num (slice 4 6 ds))
    (digits_num (slice 6 8 ds)) 0 0 0.

Definition dashed (ds : pystr) : pystr :=
  slice 0 4 ds ++ chr "-" :: slice 4 6 ds ++ chr "-" :: slice 6 8 ds.

(** For a text [ds] of fourteen digits [YYYYMMDDhhmmss]: the date and
    time it writes. *)
Definition ymdhms (ds : pystr) : datetime :=
  mkdt (digits_num (slice 0 4 ds)) (digits_num (slice 4 6 ds))
    (digits_num (slice 6 8 ds)) (digits_num (slice 8 10 ds))
    (digits_num (slice 10 12 ds)) (digits_num (slice 12 14 ds)).

(** The two-digit texts a directive other than [%Y] matches: the range
    of the number they write. *)
Definition two_ok (d : directive) (a b : N) : bool :=
  let v := digits_num [a; b] in
  match d with
  | dY => false
  | dm => (1 <=? v)%Z && (v <=? 12)%Z
  | dd => (1 <=? v)%Z && (v <=? 31)%Z
  | dH => (0 <=? v)%Z && (v <=? 23)%Z
  | dM => (0 <=? v)%Z && (v <=? 59)%Z
  | dS => (0 <=? v)%Z && (v <=? 61)%Z
  end.

(** A text read two characters for each directive. *)
Fixpoint all_ok (fmt : list directive) (s : pystr) : bool :=
  match fmt, s with
  | [], [] => true
  | d :: fmt', a :: b :: s' => two_ok d a b && all_ok fmt' s'
  | _, _ => false
  end.

Fixpoint pairs (s : pystr) : list pystr :=
  match s with
  | a :: b :: s' => [a; b] :: pairs s'
  | _ => []
  end.

(** The characters the directives of the job can match. *)
Definition stamp_char (c : N) : bool := is_decimal c || (c =? 32)%N.

(** A format without the year. *)
Definition no_year (fmt : list directive) : Prop := ~ In dY fmt.

(** Only a two-digit text in the range of the directive is matched by an
    alternative of two characters. *)
Definition check_two (d : directive) (a b : N) : bool :=
  forallb (fun alt =>
             match alt with
             | [p; q] => negb (p a && q b) || two_ok d a b
             | _ => true
             end) (directive_regex d).

Section Platform.

(** [strftime] hands the format to the C library.  For [%Y] some C
    libraries pad the year to four digits and others print a year below
    1000 with the digits it has; the flag tells which. *)
Variable libc_pads_year : bool.

Definition strftime_Y (y : Z) : pystr :=
  if libc_pads_year then zfill 4 (dec y) else dec y.

(** [t.strftime("%Y-%m-%d")]. *)
Definition strftime_Y_m_d (t : datetime) : pystr :=
  strftime_Y (year t) ++ chr "-" :: zfill 2 (dec (month t))
    ++ chr "-" :: zfill 2 (dec (day t)).

(* ================================================================= *)
(** ** File names *)

(** [is_file_name_on_1st]:
    [int(file_name.split("_")[1].split(".")[0][6:8]) == 1]. *)
Definition is_file_name_on_1st (file_name : pystr) : result bool :=
  seg <- index (split (chr "_") file_name) 1 ;;
  stem <- index (split (chr ".") seg) 0 ;;
  date_part <- py_int (slice 6 8 stem) ;;
  Ok (date_part =? 1)%Z.

(** [get_sheet_name]: [strptime(file_name.split("_")[1][:8], "%Y%m%d")]
    printed as [%Y-%m-%d]. *)
Definition get_sheet_name (file_name : pystr) : result pystr :=
  seg <- index (split (chr "_") file_name) 1 ;;
  date <- strptime [dY; dm; dd] (slice 0 8 seg) ;;
  Ok (strftime_Y_m_d date).

(* ================================================================= *)
(** ** Record Cleaner *)

(** A cell of a frame: missing ([NaN]) or a value, given by the text
    [str] gives for it: a string by its characters, an integer by its
    decimal digits ("178"), a float by its repr ("178.0"), a boolean by
    "True" or "False". *)
Inductive cell : Set :=
| NaN
| Val (text : pystr).

Record RawRecord : Set := mkRaw
  { VIN : cell; Number : cell; Status : cell; Region : cell;
    Department : cell; Model : cell; YearCar : cell; timestamp : cell }.

Definition DataFrame := list RawRecord.

(** The canonical row: the eight columns after the renaming. *)
Record CanonicalRecord : Set := mkCanon
  { date : cell; model : cell; year_ : cell; number : cell; vin : cell;
    department : cell; region : cell; status : cell }.

Definition isna (c : cell) : bool :=
  match c with NaN => true | Val _ => false end.

(** [str(x)]. *)
Definition py_str (c : cell) : pystr :=
  match c with NaN => py "nan" | Val t => t end.

(** [x in values] as [Series.isin] computes it for a list of texts. *)
Definition isin (values : list pystr) (c : cell) : bool :=
  match c with NaN => false | Val t => str_in t values end.

Definition fillna (c : cell) : cell :=
  match c with NaN => Val [] | Val t => Val t end.

(** The literals of the exclusion rules, by code point: "АРХИВ",
    "ЛИЧНАЯ", "БЭТМОБИЛЬ" and the zero date. *)
Definition ARCHIVE : pystr := [0x410; 0x420; 0x425; 0x418; 0x412]%N.
Definition PERSONAL : pystr := [0x41b; 0x418; 0x427; 0x41d; 0x410; 0x42f]%N.
Definition BATMOBILE : pystr :=
  [0x411; 0x42d; 0x422; 0x41c; 0x41e; 0x411; 0x418; 0x41b; 0x42c]%N.
Definition ZERO_DATE : pystr := py "0001-01-01T00:00:00".

(** [df.dropna(subset=["VIN", "Number", "Status", "Region", "Department"])] *)
Definition dropna (df : DataFrame) : DataFrame :=
  filter (fun r => negb (isna (VIN r) || isna (Number r) || isna (Status r)
                         || isna (Region r) || isna (Department r))) df.

(** The boolean mask of the second filter. *)
Definition keep_row (r : RawRecord) : bool :=
  negb (isin [ARCHIVE; PERSONAL] (Status r))
  && negb (isin [PERSONAL] (Department r))
  && negb (isin [BATMOBILE] (Model r))
  && negb (isin [ZERO_DATE] (YearCar r)).

(** [str(x)[:4]] *)
Definition clean_year (x : cell) : cell := Val (slice 0 4 (py_str x)).

(** [datetime.strptime(str(x), "%Y%m%d%H%M%S").strftime("%Y-%m-%d")] *)
Definition clean_timestamp (x : cell) : result cell :=
  t <- strptime [dY; dm; dd; dH; dM; dS] (py_str x) ;;
  Ok (Val (strftime_Y_m_d t)).

(** The two [apply] calls, the projection with [fillna('')] and the
    renaming of the columns, for one row. *)
Definition canonical (r : RawRecord) : result CanonicalRecord :=
  let y := clean_year (YearCar r) in
  d <- clean_timestamp (timestamp r) ;;
  Ok (mkCanon (fillna d) (fillna (Model r)) (fillna y) (fillna (Number r))
        (fillna (VIN r)) (fillna (Department r)) (fillna (Region r))
        (fillna (Status r))).

(** [apply] over the rows: the first row that raises ends the call. *)
Fixpoint map_result {A B} (f : A -> result B) (xs : list A) : result (list B) :=
  match xs with
  | [] => Ok []
  | x :: xs' => y <- f x ;; ys <- map_result f xs' ;; Ok (y :: ys)
  end.

(** Order of Python sequences (strings, tuples): the first difference
    decides, a prefix comes first. *)
Fixpoint lex_compare {A} (cmp : A -> A -> comparison) (a b : list A)
  : comparison :=
  match a, b with
  | [], [] => Eq
  | [], _ :: _ => Lt
  | _ :: _, [] => Gt
  | x :: a', y :: b' =>
      match cmp x y with
      | Eq => lex_compare cmp a' b'
      | c => c
      end
  end.

(** Strings are compared by code point. *)
Definition str_compare : pystr -> pystr -> comparison := lex_compare N.compare.

(** Order of the cells of a sort key with [na_position="first"]. *)
Definition cell_compare (a b : cell) : comparison :=
  match a, b with
  | NaN, NaN => Eq
  | NaN, Val _ => Lt
  | Val _, NaN => Gt
  | Val s, Val t => str_compare s t
  end.

(** The text [str] gives for an integer: "0", "17", "-4". *)
Definition nat_text (ds : pystr) : bool :=
  match ds with
  | [] => false
  | [c] => is_digit c
  | c :: _ => in_range "1" "9" c && forallb is_digit ds
  end.

Definition is_int_text (t : pystr) : bool :=
  match t with
  | c :: ds =>
      if N.eqb c (chr "-") then nat_text ds && negb (str_eqb ds (py "0"))
      else nat_text t
  | [] => false
  end.

Definition int_text_value (t : pystr) : Z :=
  match t with
  | c :: ds => if N.eqb c (chr "-") then (- digits_num ds)%Z else digits_num t
  | [] => 0%Z
  end.

(** A cell that holds an integer of 64 bits. *)
Definition is_int_cell (c : cell) : bool :=
  match c with
  | Val t =>
      is_int_text t
      && (-9223372036854775808 <=? int_text_value t)%Z
      && (int_text_value t <=? 9223372036854775807)%Z
  | NaN => false
  end.

(** The columns [read_csv] gives the dtype [int64]: those with an integer
    in every cell. *)
Definition int_column (col : list cell) : bool :=
  match col with
  | [] => false
  | _ :: _ => forallb is_int_cell col
  end.

(** Whether the key columns read from the file are columns of integers;
    the year is a column of texts, as [str] made it. *)
Record dtypes : Set := mkDtypes
  { int_Model : bool; int_Department : bool; int_Region : bool }.

Definition column_dtypes (df : DataFrame) : dtypes :=
  mkDtypes (int_column (map Model df)) (int_column (map Department df))
    (int_column (map Region df)).

Definition cell_int (c : cell) : Z :=
  match c with
  | Val t => int_text_value t
  | NaN => 0%Z
  end.

(** What [sort_values] compares: the number in a column of integers, the
    text (after [fillna]) in the other columns. *)
Inductive sort_val : Set :=
| IntVal (z : Z)
| CellVal (c : cell).

Definition column_val (numeric : bool) (c : cell) : sort_val :=
  if numeric then IntVal (cell_int c) else CellVal c.

Definition sort_val_compare (a b : sort_val) : comparison :=
  match a, b with
  | IntVal x, IntVal y => Z.compare x y
  | IntVal _, CellVal _ => Lt
  | CellVal _, IntVal _ => Gt
  | CellVal x, CellVal y => cell_compare x y
  end.

(** [by=["model", "year", "department", "region"]] *)
Definition sort_key (dt : dtypes) (r : CanonicalRecord) : list sort_val :=
  [column_val (int_Model dt) (model r); CellVal (year_ r);
   column_val (int_Department dt) (department r);
   column_val (int_Region dt) (region r)].

Definition key_compare : list sort_val -> list sort_val -> comparison :=
  lex_compare sort_val_compare.

Definition key_leb (dt : dtypes) (a b : CanonicalRecord) : bool :=
  match key_compare (sort_key dt a) (sort_key dt b) with
  | Gt => false
  | _ => true
  end.


(** [sort_values] with several keys is a stable sort; a stable sort of a
    list has one result, computed here by insertion. *)
Fixpoint insert_row (dt : dtypes) (x : CanonicalRecord)
    (l : list CanonicalRecord) : list CanonicalRecord :=
  match l with
  | [] => [x]
  | y :: l' => if key_leb dt x y then x :: l else y :: insert_row dt x l'
  end.

Fixpoint sort_values (dt : dtypes) (l : list CanonicalRecord)
  : list CanonicalRecord :=
  match l with
  | [] => []
  | x :: l' => insert_row dt x (sort_values dt l')
  end.


Definition nonempty (c : cell) : bool :=
  match c with
  | Val (_ :: _) => true
  | _ => false
  end.

(** The body of [clean_dataframe] after [read_csv]; the columns keep
    the dtypes they were read with. *)
Definition clean_frame (df : DataFrame) : result (list CanonicalRecord) :=
  let df1 := dropna df in
  let df2 := filter keep_row df1 in
  rows <- map_result canonical df2 ;;
  Ok (sort_values (column_dtypes df) rows).

End Platform.

(* ================================================================= *)
(** ** The local file system *)

(** What a file holds: a CSV text with the columns of the export, given
    by the rows pandas reads from it (the eight columns the cleaner
    names, each cell as the value read), or another text, which is not a
    table of the export. *)
Inductive blob : Set :=
| Table (df : DataFrame)
| Bytes (text : pystr).

(** Absolute, normalised paths; [cwd] is [BASE_DIR]. *)
Record FS : Set := mkFS
  { cwd : pystr; dirs : list pystr; files : list (pystr * blob) }.

Definition SEP : N := chr "/".

(** [os.path.join(a, b)] *)
Definition path_join (a b : pystr) : pystr :=
  if startswith [SEP] b then b
  else match rev a with
       | [] => b
       | c :: _ => if N.eqb c SEP then a ++ b else a ++ SEP :: b
       end.

(** The text before the first separator, and the rest from it on. *)
Fixpoint until_sep (s : pystr) : pystr * pystr :=
  match s with
  | [] => ([], [])
  | c :: s' =>
      if N.eqb c SEP then ([], s)
      else let (a, b) := until_sep s' in (c :: a, b)
  end.

Fixpoint drop_seps (s : pystr) : pystr :=
  match s with
  | c :: s' => if N.eqb c SEP then drop_seps s' else s
  | [] => []
  end.

(** [os.path.basename] and [os.path.dirname] *)
Definition basename (p : pystr) : pystr := rev (fst (until_sep (rev p))).

Definition dirname (p : pystr) : pystr :=
  let head := snd (until_sep (rev p)) in
  if forallb (N.eqb SEP) head then rev head else rev (drop_seps head).

Fixpoint lookup {A} (k : pystr) (m : list (pystr * A)) : option A :=
  match m with
  | [] => None
  | (k', v) :: m' => if str_eqb k k' then Some v else lookup k m'
  end.

Fixpoint store {A} (k : pystr) (v : A) (m : list (pystr * A))
  : list (pystr * A) :=
  match m with
  | [] => [(k, v)]
  | (k', v') :: m' =>
      if str_eqb k k' then (k, v) :: m' else (k', v') :: store k v m'
  end.

(** [os.listdir(d)]: the names of the entries of [d]. *)
Definition listdir (d : pystr) (f : FS) : result (list pystr) :=
  if str_in d (dirs f) then
    Ok (map basename
          (filter (fun p => str_eqb (dirname p) d && negb (str_eqb p d))
             (dirs f ++ map fst (files f))))
  else Raise FileNotFoundError.

(** The paths above a path, nearest first. *)
Fixpoint parents (fuel : nat) (p : pystr) : list pystr :=
  match fuel with
  | O => []
  | S n =>
      let d := dirname p in
      if str_eqb d p then [] else d :: parents n d
  end.

(** A regular file stands where the path needs a directory. *)
Definition below_file (path : pystr) (f : FS) : bool :=
  existsb (fun d => str_in d (map fst (files f)))
    (parents (List.length path) path).

(** The error of opening a path that cannot be reached. *)
Definition unreachable (path : pystr) (f : FS) : exn :=
  if below_file path f then NotADirectoryError else FileNotFoundError.

(** [open(path, "wb")]: creates the file or empties it. *)
Definition open_wb (path : pystr) (f : FS) : result FS :=
  if str_in path (dirs f) then Raise IsADirectoryError
  else if str_in (dirname path) (dirs f)
       then Ok (mkFS (cwd f) (dirs f) (store path (Bytes []) (files f)))
       else Raise (unreachable path f).

Definition write_file (path : pystr) (b : blob) (f : FS) : FS :=
  mkFS (cwd f) (dirs f) (store path b (files f)).

(** The texts [read_csv] reads as a missing value: no cell of a frame it
    returns holds one of them. *)
Definition na_values : list pystr :=
  [] :: map py ["#N/A"; "#N/A N/A"; "#NA"; "-1.#IND"; "-1.#QNAN"; "-NaN";
                "-nan"; "1.#IND"; "1.#QNAN"; "<NA>"; "N/A"; "NA"; "NULL";
                "NaN"; "None"; "n/a"; "nan"; "null"]%string.

Definition read_cell (c : cell) : cell :=
  match c with
  | NaN => NaN
  | Val t => if str_in t na_values then NaN else Val t
  end.

Definition read_row (r : RawRecord) : RawRecord :=
  mkRaw (read_cell (VIN r)) (read_cell (Number r)) (read_cell (Status r))
    (read_cell (Region r)) (read_cell (Department r)) (read_cell (Model r))
    (read_cell (YearCar r)) (read_cell (timestamp r)).

(** A text with nothing but blanks and line ends: [read_csv] finds no
    column in it. *)
Definition blank_text (t : pystr) : bool :=
  forallb (fun c => (c =? 9) || (c =? 10) || (c =? 13) || (c =? 32))%N t.

(** [pd.read_csv(path)], with the look-up of the columns the cleaner
    names.  A text that is not a table of the export is read as a frame
    without these columns, and the first statement of the cleaner after
    [read_csv], [dropna(subset=...)], raises [KeyError] on it; that error
    is raised here. *)
Definition read_csv (path : pystr) (f : FS) : result DataFrame :=
  if str_in path (dirs f) then Raise IsADirectoryError
  else match lookup path (files f) with
       | Some (Table df) => Ok (map read_row df)
       | Some (Bytes t) =>
           if blank_text t then Raise EmptyDataError else Raise KeyError
       | None => Raise (unreachable path f)
       end.

(** [open(path, "rb")]: what the file holds. *)
Definition open_rb (path : pystr) (f : FS) : result blob :=
  if str_in path (dirs f) then Raise IsADirectoryError
  else match lookup path (files f) with
       | Some b => Ok b
       | None => Raise (unreachable path f)
       end.


(* ================================================================= *)
(** ** The object store and [S3Client] *)

Record S3 : Set := mkS3
  { buckets : list pystr; objects : list (pystr * list (pystr * blob)) }.

Definition bucket_objects (b : pystr) (s : S3) : list (pystr * blob) :=
  match lookup b (objects s) with
  | Some os => os
  | None => []
  end.

(** The check botocore makes of the [Bucket] parameter before a request
    is sent: the name matches [^[a-zA-Z0-9.\-_]{1,255}$], where [$] also
    matches before a last line feed.  (botocore lets the ARN of an access
    point through as well; such names are not modelled.)  The check is
    modelled at [list_objects], the first request of the job, and at
    [copy_object]; the other requests are modelled for a bucket name and a
    key that pass it. *)
Definition bucket_char (c : N) : bool :=
  in_range "a" "z" c || in_range "A" "Z" c || is_digit c
  || is_chr "." c || is_chr "-" c || is_chr "_" c.

Definition valid_bucket_name (b : pystr) : bool :=
  let core :=
    match rev b with
    | c :: r => if N.eqb c 10 then rev r else b
    | [] => b
    end in
  forallb bucket_char core
  && (1 <=? List.length core) && (List.length core <=? 255).

(** The order of a listing: the keys by code point, which is the order
    of their UTF-8 bytes. *)
Fixpoint insert_key (k : pystr) (l : list pystr) : list pystr :=
  match l with
  | [] => [k]
  | k' :: l' =>
      match str_compare k k' with
      | Gt => k' :: insert_key k l'
      | _ => k :: l
      end
  end.

Definition sorted_keys (l : list pystr) : list pystr :=
  fold_right insert_key [] l.

(** The part of the answer to [list_objects] the wrapper reads:
    ["Contents"], absent when no key is listed, and ["IsTruncated"]. *)
Record ListObjectsOutput : Set := mkListing
  { Contents : option (list pystr); IsTruncated : bool }.

(** The objects a method of [S3Client] can hold in [client]: the client
    [boto3.client] returns, or the context manager a function decorated
    with [@contextmanager] returns when it is called. *)
Inductive pyobj : Set :=
| BotoClient
| GeneratorContextManager.

Module S3Client.

(** [self.get_s3_client()]: calling the decorated generator function
    builds the context manager and runs none of its body. *)
Definition get_s3_client : pyobj := GeneratorContextManager.

(** [with cm as client]: [__enter__] runs the body to its [yield]. *)
Definition enter (cm : pyobj) : result pyobj :=
  match cm with
  | GeneratorContextManager => Ok BotoClient
  | BotoClient => Raise AttributeError
  end.

(** [client.put_object(Bucket=, Key=, Body=)]: the attribute is looked up
    before the arguments are evaluated, and only the boto client has it. *)
Definition put_object (client : pyobj) (Bucket Key : pystr) (Body : pystr)
    (s : S3) : result unit * S3 :=
  match client with
  | GeneratorContextManager => (Raise AttributeError, s)
  | BotoClient =>
      if str_in Bucket (buckets s)
      then (Ok tt,
            mkS3 (buckets s)
              (store Bucket (store Key (Bytes Body) (bucket_objects Bucket s))
                 (objects s)))
      else (Raise ClientError, s)
  end.

(** [create_object]: [True] unless the [try] block raises. *)
Definition create_object (bucket_name object_name content : pystr) (s : S3)
  : bool * S3 :=
  let client := get_s3_client in
  match put_object client bucket_name object_name content s with
  | (Ok _, s') => (true, s')
  | (Raise _, s') => (false, s')
  end.

(** [client.list_objects(Bucket=)]: a name botocore refuses raises
    [ParamValidationError] before anything is sent; the service answers
    with one page, the first 1000 keys in key order. *)
Definition client_list_objects (client : pyobj) (Bucket : pystr) (s : S3)
  : result ListObjectsOutput :=
  match client with
  | GeneratorContextManager => Raise AttributeError
  | BotoClient =>
      if negb (valid_bucket_name Bucket) then Raise ParamValidationError
      else if str_in Bucket (buckets s) then
        let keys := sorted_keys (map fst (bucket_objects Bucket s)) in
        Ok (mkListing
              (match keys with
               | [] => None
               | _ :: _ => Some (firstn 1000 keys)
               end)
              (1000 <? List.length keys))
      else Raise ClientError
  end.

(** [list_objects]: the keys of [response.get("Contents", [])]; a
    [ClientError] is logged and the list stays empty, any other exception
    leaves the method. *)
Definition list_objects (bucket_name : pystr) (s : S3) : result (list pystr) :=
  client <- enter get_s3_client ;;
  match client_list_objects client bucket_name s with
  | Ok response =>
      Ok (match Contents response with
          | Some objs => objs
          | None => []
          end)
  | Raise ClientError => Ok []
  | Raise e => Raise e
  end.

(** [client.download_fileobj(bucket, key, file)] *)
Definition download_fileobj (client : pyobj) (bucket key : pystr) (s : S3)
  : result blob :=
  match client with
  | GeneratorContextManager => Raise AttributeError
  | BotoClient =>
      match lookup key (bucket_objects bucket s) with
      | Some b => Ok b
      | None => Raise ClientError
      end
  end.

(** [download_object]: the file is opened for writing before the object
    is fetched; only a [ClientError] is turned into [False]. *)
Definition download_object (bucket_name object_key target_path : pystr)
    (s : S3) (f : FS) : result bool * FS :=
  match enter get_s3_client with
  | Raise e => (Raise e, f)
  | Ok client =>
      match open_wb target_path f with
      | Raise e => (Raise e, f)
      | Ok f1 =>
          match download_fileobj client bucket_name object_key s with
          | Ok b => (Ok true, write_file target_path b f1)
          | Raise ClientError => (Ok false, f1)
          | Raise e => (Raise e, f1)
          end
      end
  end.

(** [client.upload_fileobj(file, bucket, key)] *)
Definition upload_fileobj (client : pyobj) (body : blob) (Bucket Key : pystr)
    (s : S3) : result unit * S3 :=
  match client with
  | GeneratorContextManager => (Raise AttributeError, s)
  | BotoClient =>
      if str_in Bucket (buckets s)
      then (Ok tt,
            mkS3 (buckets s)
              (store Bucket (store Key body (bucket_objects Bucket s))
                 (objects s)))
      else (Raise ClientError, s)
  end.

(** [upload_file]: the object is named after the last component of the
    path, behind the prefix when there is one; whatever the [try] block
    raises is turned into [False]. *)
Definition upload_file (bucket_name file_path prefix : pystr) (s : S3) (f : FS)
  : bool * S3 :=
  let object_name := basename file_path in
  let object_name :=
    match prefix with
    | [] => object_name
    | _ :: _ => prefix ++ object_name
    end in
  match enter get_s3_client with
  | Raise _ => (false, s)
  | Ok client =>
      match open_rb file_path f with
      | Raise _ => (false, s)
      | Ok body =>
          match upload_fileobj client body bucket_name object_name s with
          | (Ok _, s') => (true, s')
          | (Raise _, s') => (false, s')
          end
      end
  end.

(** [client.copy_object(Bucket=, Key=, CopySource=)]: botocore checks
    the name of the destination bucket and that the destination key is
    not empty; the service refuses a source that is not there, a
    destination bucket that is not there, and the copy of an object onto
    itself (the wrapper changes none of its attributes). *)
Definition client_copy_object (client : pyobj) (Bucket Key : pystr)
    (CopySource : pystr * pystr) (s : S3) : result unit * S3 :=
  match client with
  | GeneratorContextManager => (Raise AttributeError, s)
  | BotoClient =>
      if negb (valid_bucket_name Bucket) || str_eqb Key []
      then (Raise ParamValidationError, s)
      else
        match lookup (snd CopySource) (bucket_objects (fst CopySource) s) with
        | Some body =>
            if str_in Bucket (buckets s)
               && negb (str_eqb (fst CopySource) Bucket
                        && str_eqb (snd CopySource) Key)
            then (Ok tt,
                  mkS3 (buckets s)
                    (store Bucket (store Key body (bucket_objects Bucket s))
                       (objects s)))
            else (Raise ClientError, s)
        | None => (Raise ClientError, s)
        end
  end.

(** [copy_object]: only a [ClientError] is turned into [False]. *)
Definition copy_object (source_bucket_name dest_bucket_name
    source_object_name dest_object_name : pystr) (s : S3) : result bool * S3 :=
  let copy_source := (source_bucket_name, source_object_name) in
  match enter get_s3_client with
  | Raise e => (Raise e, s)
  | Ok client =>
      match client_copy_object client dest_bucket_name dest_object_name
              copy_source s with
      | (Ok _, s') => (Ok true, s')
      | (Raise ClientError, s') => (Ok false, s')
      | (Raise e, s') => (Raise e, s')
      end
  end.



Section Presign.

(** The URL the boto client signs for a bucket, a key and a life time. *)
Variable sign : pystr -> pystr -> Z -> pystr.

(** [client.generate_presigned_url("get_object", Params=, ExpiresIn=)] *)
Definition generate_presigned_url (client : pyobj) (Bucket Key : pystr)
    (ExpiresIn : Z) : result pystr :=
  match client with
  | GeneratorContextManager => Raise AttributeError
  | BotoClient => Ok (sign Bucket Key ExpiresIn)
  end.

(** [create_presigned_url]: [None] when the [try] block raises. *)
Definition create_presigned_url (bucket_name object_name : pystr)
    (expiration_seconds : Z) : option pystr :=
  let client := get_s3_client in
  match generate_presigned_url client bucket_name object_name
          expiration_seconds with
  | Ok presigned_url => Some presigned_url
  | Raise _ => None
  end.

End Presign.

End S3Client.

(* ================================================================= *)
(** ** The destination spreadsheet *)

(** A tab: its title, the size of its grid, the rows of values it holds
    (none for an empty tab) and the number of frozen rows.  Titles are
    unique in a spreadsheet, and a worksheet object is identified by its
    title. *)
Record Worksheet : Set := mkWs
  { title : pystr; row_count : nat; col_count : nat;
    cells : list (list pystr); frozen : nat }.

Definition Spreadsheet := list Worksheet.

Fixpoint find_sheet (t : pystr) (b : Spreadsheet) : option Worksheet :=
  match b with
  | [] => None
  | w :: b' => if str_eqb t (title w) then Some w else find_sheet t b'
  end.

Fixpoint alter_sheet (t : pystr) (f : Worksheet -> Worksheet)
    (b : Spreadsheet) : Spreadsheet :=
  match b with
  | [] => []
  | w :: b' =>
      if str_eqb t (title w) then f w :: b' else w :: alter_sheet t f b'
  end.

(** Writing [new] over [old] from the first cell on. *)
Fixpoint overlay_row (new old : list pystr) : list pystr :=
  match new, old with
  | [], _ => old
  | x :: n', _ :: o' => x :: overlay_row n' o'
  | _ :: _, [] => new
  end.

Fixpoint overlay (new old : list (list pystr)) : list (list pystr) :=
  match new, old with
  | [], _ => old
  | r :: n', o :: o' => overlay_row r o :: overlay n' o'
  | _ :: _, [] => new
  end.

Definition width (rows : list (list pystr)) : nat :=
  fold_right (fun r m => Nat.max (List.length r) m) 0 rows.

Module Sheets.

(** [spreadsheet.worksheets()]: the tabs, in order. *)
Definition worksheets (b : Spreadsheet) : list pystr := map title b.

(** [spreadsheet.add_worksheet(title, rows, cols)]: a new tab at the end;
    refused when the title is taken. *)
Definition add_worksheet (t : pystr) (rows cols : nat) (b : Spreadsheet)
  : result pystr * Spreadsheet :=
  match find_sheet t b with
  | Some _ => (Raise APIError, b)
  | None => (Ok t, b ++ [mkWs t rows cols [] 0])
  end.

(** [spreadsheet.worksheet(title)] *)
Definition worksheet (t : pystr) (b : Spreadsheet) : result Worksheet :=
  match find_sheet t b with
  | Some w => Ok w
  | None => Raise WorksheetNotFound
  end.

Definition on_sheet (t : pystr) (f : Worksheet -> Worksheet)
    (b : Spreadsheet) : result unit * Spreadsheet :=
  match find_sheet t b with
  | Some _ => (Ok tt, alter_sheet t f b)
  | None => (Raise APIError, b)
  end.

(** [ws.resize(rows, cols)]: cells outside the new grid are lost; the
    service refuses a grid with no column. *)
Definition resized (rows cols : nat) (w : Worksheet) : Worksheet :=
  mkWs (title w) rows cols (map (firstn cols) (firstn rows (cells w)))
    (frozen w).

Definition resize (t : pystr) (rows cols : nat) (b : Spreadsheet)
  : result unit * Spreadsheet :=
  match cols with
  | O => (Raise APIError, b)
  | S _ => on_sheet t (resized rows cols) b
  end.

(** [ws.update(values)]: written from the first cell on, over what is
    there; the grid grows to hold the values. *)
Definition updated (values : list (list pystr)) (w : Worksheet) : Worksheet :=
  mkWs (title w) (Nat.max (row_count w) (List.length values))
    (Nat.max (col_count w) (width values)) (overlay values (cells w))
    (frozen w).

Definition update (t : pystr) (values : list (list pystr)) :=
  on_sheet t (updated values).

(** [ws.clear()] *)
Definition cleared (w : Worksheet) : Worksheet :=
  mkWs (title w) (row_count w) (col_count w) [] (frozen w).

Definition clear (t : pystr) := on_sheet t cleared.

(** [set_frozen(ws, rows=n)] *)
Definition frozen_at (n : nat) (w : Worksheet) : Worksheet :=
  mkWs (title w) (row_count w) (col_count w) (cells w) n.

Definition set_frozen (t : pystr) (n : nat) := on_sheet t (frozen_at n).

(** [ws.get_all_values()]: the rows of values; a tab with no value
    reads as one empty row (gspread 6). *)
Definition get_all_values (t : pystr) (b : Spreadsheet)
  : result (list (list pystr)) :=
  match find_sheet t b with
  | Some w =>
      Ok (match cells w with
          | [] => [[]]
          | _ :: _ => cells w
          end)
  | None => Raise APIError
  end.

End Sheets.

(* ================================================================= *)
(** ** The job *)

(** What the job reads and writes: the bucket, the local disk and the
    spreadsheet. *)
Record World : Set := mkWorld { remote : S3; disk : FS; book : Spreadsheet }.

(** A computation of the job: its outcome and the world it leaves, also
    when it raises. *)
Definition M (A : Type) : Type := World -> result A * World.

Definition ret {A} (a : A) : M A := fun w => (Ok a, w).
Definition raise {A} (e : exn) : M A := fun w => (Raise e, w).
Definition lift {A} (r : result A) : M A := fun w => (r, w).

Definition bindM {A B} (m : M A) (k : A -> M B) : M B :=
  fun w =>
    match m w with
    | (Ok a, w') => k a w'
    | (Raise e, w') => (Raise e, w')
    end.

Notation "x <~ m ;; k" := (bindM m (fun x => k))
  (at level 61, m at next level, right associativity) : py_scope.

Definition on_book {A} (op : Spreadsheet -> result A * Spreadsheet) : M A :=
  fun w => let (r, b) := op (book w) in (r, mkWorld (remote w) (disk w) b).

Definition read_book {A} (op : Spreadsheet -> result A) : M A :=
  fun w => (op (book w), w).

Definition read_disk {A} (op : FS -> result A) : M A :=
  fun w => (op (disk w), w).

(** A [for] loop whose body returns nothing. *)
Fixpoint for_each {A} (xs : list A) (body : A -> M unit) : M unit :=
  match xs with
  | [] => ret tt
  | x :: xs' => _ <~ body x ;; for_each xs' body
  end.

(** The tabs the aggregation leaves out: "all_data" and
    "сводная таблица". *)
Definition ALL_DATA : pystr := py "all_data".
Definition SUMMARY : pystr :=
  [0x441; 0x432; 0x43e; 0x434; 0x43d; 0x430; 0x44f; 0x20; 0x442; 0x430;
   0x431; 0x43b; 0x438; 0x446; 0x430]%N.

(** [dataframe.columns.values.tolist()] *)
Definition columns : list pystr :=
  [py "date"; py "model"; py "year"; py "number"; py "vin";
   py "department"; py "region"; py "status"].

(** A row of [dataframe.values.tolist()] *)
Definition row_values (r : CanonicalRecord) : list pystr :=
  map py_str [date r; model r; year_ r; number r; vin r; department r;
              region r; status r].

Section Job.

Variable libc_pads_year : bool.
Variable S3_BUCKET : pystr.

(** [clean_dataframe(file_path)] *)
Definition clean_dataframe (file_path : pystr) (f : FS)
  : result (list CanonicalRecord) :=
  df <- read_csv file_path f ;;
  clean_frame libc_pads_year df.

Definition data_dir (w : World) : pystr := path_join (cwd (disk w)) (py "data").

(** The condition of the download loop, with the short circuit of [and]. *)
Definition selected (s3_object : pystr) : M bool :=
  if contains (py "cars") s3_object then
    on_1st <~ lift (is_file_name_on_1st s3_object) ;;
    if on_1st then
      fun w =>
        (names <~ read_disk (listdir (data_dir w)) ;;
         ret (negb (str_in s3_object names))) w
    else ret false
  else ret false.

(** [s3_client.download_object(S3_BUCKET, s3_object,
    os.path.join(BASE_DIR, s3_object))]; the boolean it returns is
    dropped. *)
Definition download (s3_object : pystr) : M unit :=
  fun w =>
    let (r, f) :=
      S3Client.download_object S3_BUCKET s3_object
        (path_join (cwd (disk w)) s3_object) (remote w) (disk w) in
    (match r with Ok _ => Ok tt | Raise e => Raise e end,
     mkWorld (remote w) f (book w)).

Definition download_step (s3_object : pystr) : M unit :=
  sel <~ selected s3_object ;;
  if sel then download s3_object else ret tt.

(** The body of the loop over the data files.  [worksheets] is the list
    made at the start of [main]. *)
Definition process_file (worksheets : list pystr) (data_file : pystr)
  : M nat :=
  dataframe <~ (fun w =>
                  read_disk (clean_dataframe
                               (path_join (data_dir w) data_file)) w) ;;
  sheet_title <~ lift (get_sheet_name libc_pads_year data_file) ;;
  let dataframe_rows := List.length dataframe in
  let dataframe_cols := List.length columns in
  worksheet <~
    (if negb (str_in sheet_title worksheets) then
       on_book (Sheets.add_worksheet sheet_title dataframe_rows dataframe_cols)
     else
       ws <~ read_book (Sheets.worksheet sheet_title) ;;
       _ <~ on_book (Sheets.resize (title ws)
                       (row_count ws + dataframe_rows) dataframe_cols) ;;
       ret (title ws)) ;;
  _ <~ on_book (Sheets.update worksheet
                  (columns :: map row_values dataframe)) ;;
  _ <~ on_book (Sheets.set_frozen worksheet 1) ;;
  ret dataframe_cols.

(** The loop over the data files; the result is [dataframe_cols], bound
    only when the loop has run at least once. *)
Fixpoint process_files (worksheets : list pystr) (data_files : list pystr)
    (dataframe_cols : option nat) : M (option nat) :=
  match data_files with
  | [] => ret dataframe_cols
  | data_file :: rest =>
      c <~ process_file worksheets data_file ;;
      process_files worksheets rest (Some c)
  end.

(** The loop that gathers the rows of the tabs of [worksheets]. *)
Fixpoint consolidate (worksheets : list pystr)
    (consolidated_data : list (list pystr)) : M (list (list pystr)) :=
  match worksheets with
  | [] => ret consolidated_data
  | ws :: rest =>
      if negb (str_in ws [ALL_DATA; SUMMARY]) then
        values <~ read_book (Sheets.get_all_values ws) ;;
        consolidate rest (consolidated_data ++ tl values)
      else consolidate rest consolidated_data
  end.

(** The end of the aggregation step: the header row is read from the
    second worksheet of the list, then the aggregate tab is resized,
    cleared, written and frozen. *)
Definition write_aggregate (all_data_sheet : pystr) (worksheets : list pystr)
    (consolidated_data : list (list pystr)) : M unit :=
  ws1 <~ lift (index worksheets 1) ;;
  values <~ read_book (Sheets.get_all_values ws1) ;;
  header_row <~ lift (index values 0) ;;
  _ <~ on_book (Sheets.resize all_data_sheet
                  (List.length consolidated_data + 1) (List.length header_row)) ;;
  _ <~ on_book (Sheets.clear all_data_sheet) ;;
  _ <~ on_book (Sheets.update all_data_sheet (header_row :: consolidated_data)) ;;
  on_book (Sheets.set_frozen all_data_sheet 1).

(** The aggregation step of [main].  [worksheets] is still the list made
    at the start of [main]; a new aggregate tab is appended to it. *)
Definition aggregate (worksheets : list pystr) (dataframe_cols : option nat)
  : M unit :=
  consolidated_data <~ consolidate worksheets [] ;;
  if negb (str_in ALL_DATA worksheets) then
    cols <~ (match dataframe_cols with
             | Some c => ret c
             | None => raise UnboundLocalError
             end) ;;
    all_data_sheet <~ on_book (Sheets.add_worksheet ALL_DATA 1 cols) ;;
    write_aggregate all_data_sheet (worksheets ++ [all_data_sheet])
      consolidated_data
  else
    ws <~ read_book (Sheets.worksheet ALL_DATA) ;;
    write_aggregate (title ws) worksheets consolidated_data.

Definition main : M unit :=
  worksheets <~ read_book (fun b => Ok (Sheets.worksheets b)) ;;
  s3_objects <~ (fun w => lift (S3Client.list_objects S3_BUCKET (remote w)) w) ;;
  _ <~ for_each s3_objects download_step ;;
  data_files <~ (fun w => read_disk (listdir (data_dir w)) w) ;;
  dataframe_cols <~ process_files worksheets data_files None ;;
  aggregate worksheets dataframe_cols.

End Job.

(* ================================================================= *)
(** ** Notions used in the statements *)

(** The list [worksheets] when the header row is read. *)
Definition appended (worksheets : list pystr) : list pystr :=
  if str_in ALL_DATA worksheets then worksheets else worksheets ++ [ALL_DATA].

(** The tab [t] has no values (or there is no such tab). *)
Definition tab_empty (t : pystr) (b : Spreadsheet) : bool :=
  match find_sheet t b with
  | Some s => match cells s with [] => true | _ :: _ => false end
  | None => true
  end.

(** Nothing was published: the spreadsheet is as before, or has one more
    tab, an empty aggregate tab. *)
Definition unpublished (w w' : World) : Prop :=
  remote w' = remote w /\ disk w' = disk w
  /\ (book w' = book w
      \/ exists c, book w' = book w ++ [mkWs ALL_DATA 1 c [] 0]).




(** A text that holds a character no number and no boolean is printed
    with: the value it stands for is a string. *)
Definition is_text (t : pystr) : bool :=
  existsb (fun c => negb (existsb (N.eqb c) (py "0123456789+-.einfTruFals"))) t.

(** The columns whose order the model gives: a column of integers, a
    column with a string in it (its values are then all strings), or a
    column with no value at all.  A column of floats or of booleans is
    not among them. *)
Definition plain_column (col : list cell) : bool :=
  int_column col
  || existsb (fun c => match c with Val t => is_text t | NaN => false end) col
  || forallb isna col.

(** An absolute path with no component that is empty, "." or "..": the
    paths of the file system are given in this form. *)
Definition normalised (p : pystr) : bool :=
  match split SEP p with
  | [] :: c :: cs =>
      forallb (fun x => negb (str_in x [[]; py "."; py ".."])) (c :: cs)
  | _ => false
  end.


(** The object of key [k] in the bucket [b]. *)
Definition object_at (b k : pystr) (s : S3) : option blob :=
  lookup k (bucket_objects b s).

(** Two stores hold the same objects everywhere but at [(b, k)]. *)
Definition same_but_at (b k : pystr) (s s' : S3) : Prop :=
  buckets s' = buckets s
  /\ forall b' k', b' <> b \/ k' <> k -> object_at b' k' s' = object_at b' k' s.

(** [l'] is [l] with more at its end. *)
Definition extends {A} (l l' : list A) : Prop := exists extra, l' = l ++ extra.

(** Nothing is lost between two worlds: the bucket is the same, the
    directories are the same, the files of the first are files of the
    second, and the tabs of the first are the first tabs of the second,
    under the same titles. *)
Definition kept (w w' : World) : Prop :=
  remote w' = remote w
  /\ cwd (disk w') = cwd (disk w)
  /\ dirs (disk w') = dirs (disk w)
  /\ extends (map fst (files (disk w))) (map fst (files (disk w')))
  /\ extends (map title (book w)) (map title (book w')).

(** A computation of the job loses nothing. *)
Definition keeps {A} (m : M A) : Prop := forall w, kept w (snd (m w)).

(** The values of the tab [t]. *)
Definition tab_values (t : pystr) (b : Spreadsheet) : list (list pystr) :=
  match find_sheet t b with
  | Some s => cells s
  | None => []
  end.

(** Rows of a tab below its header row. *)
Definition data_rows (s : Worksheet) : nat := List.length (cells s) - 1.

Definition tab_data_rows (t : pystr) (b : Spreadsheet) : nat :=
  match find_sheet t b with
  | Some s => data_rows s
  | None => 0
  end.

(** The data rows of all the tabs but the aggregate and the summary. *)
Definition source_data_rows (b : Spreadsheet) : nat :=
  list_sum (map data_rows
              (filter (fun s => negb (str_in (title s) [ALL_DATA; SUMMARY])) b)).

(* ================================================================= *)
(** ** Sample data *)

Module Sample.

Definition bucket : pystr := py "fleet".
Definition base : pystr := py "/srv/reports".
Definition data : pystr := py "/srv/reports/data".

Definition raw (vin_ num st reg dep mo yc ts : string) : RawRecord :=
  let c s := Val (py s) in
  mkRaw (c vin_) (c num) (c st) (c reg) (c dep) (c mo) (c yc) (c ts).

Definition car1 : RawRecord :=
  raw "XTA21099043576182" "A001AA77" "ACTIVE" "Moscow" "Taxi" "Kia Rio"
    "2019-01-01T00:00:00" "20240101030000".

(** A two-digit year. *)
Definition car2 : RawRecord :=
  raw "XTA21099043576183" "A002AA77" "ACTIVE" "Moscow" "Taxi" "Kia Rio"
    "99" "20240101030000".

(** A time stamp that is not [YYYYMMDDhhmmss]. *)
Definition car3 : RawRecord :=
  raw "XTA21099043576184" "A003AA77" "ACTIVE" "Moscow" "Taxi" "Kia Rio"
    "2019-01-01T00:00:00" "2024-01-01 03:00".

Definition jan : pystr := py "cars_20240101030000.csv".
Definition feb : pystr := py "cars_20240201030000.csv".
Definition export : pystr := py "export_202401010300.csv".

Definition dec_tab : Worksheet :=
  mkWs (py "2023-12-01") 3 8
    [columns;
     map py ["2023-12-01"; "Kia Rio"; "2019"; "A001AA77"; "XTA21099043576182";
             "Taxi"; "Moscow"; "ACTIVE"]%string;
     map py ["2023-12-01"; "Kia Rio"; "2020"; "A004AA77"; "XTA21099043576185";
             "Taxi"; "Moscow"; "ACTIVE"]%string] 1.

Definition summary_tab : Worksheet := mkWs SUMMARY 100 26 [] 0.
Definition all_data_tab : Worksheet := mkWs ALL_DATA 1 8 [columns] 1.

Definition no_objects : S3 := mkS3 [bucket] [].
Definition empty_disk : FS := mkFS base [py "/srv"; base; data] [].

(** The data directory holds one file of the 1st of January; the
    spreadsheet has the summary tab and one month. *)
Definition month_on_disk : World :=
  mkWorld no_objects
    (mkFS base [py "/srv"; base; data]
       [(path_join data jan, Table [car1])])
    [summary_tab; dec_tab].

(** The bucket holds one file of the 1st of January, not yet fetched. *)
Definition month_in_bucket : World :=
  mkWorld (mkS3 [bucket] [(bucket, [(jan, Table [car1])])]) empty_disk
    [all_data_tab; dec_tab].

(** The bucket holds a file whose name has no "cars" in it. *)
Definition export_in_bucket : World :=
  mkWorld (mkS3 [bucket] [(bucket, [(export, Table [car1])])]) empty_disk
    [all_data_tab; dec_tab].

(** The bucket holds a key with no date segment. *)
Definition odd_key_in_bucket : World :=
  mkWorld (mkS3 [bucket] [(bucket, [(py "cars.csv", Table [car1]);
                                     (jan, Table [car1])])])
    empty_disk [all_data_tab; dec_tab].

(** The data directory holds a file that cannot be cleaned, then a good
    one. *)
Definition bad_then_good : World :=
  mkWorld no_objects
    (mkFS base [py "/srv"; base; data]
       [(path_join data jan, Table [car3]);
        (path_join data feb, Table [car1])])
    [all_data_tab; dec_tab].

Definition short_year_disk : FS :=
  mkFS base [py "/srv"; base; data] [(path_join data jan, Table [car2])].

Definition two_years_disk : FS :=
  mkFS base [py "/srv"; base; data] [(path_join data jan, Table [car1; car2])].

(** The canonical rows of [car1] and [car2]. *)
Definition jan_row : CanonicalRecord :=
  mkCanon (Val (py "2024-01-01")) (Val (py "Kia Rio")) (Val (py "2019"))
    (Val (py "A001AA77")) (Val (py "XTA21099043576182")) (Val (py "Taxi"))
    (Val (py "Moscow")) (Val (py "ACTIVE")).

Definition short_year_row : CanonicalRecord :=
  mkCanon (Val (py "2024-01-01")) (Val (py "Kia Rio")) (Val (py "99"))
    (Val (py "A002AA77")) (Val (py "XTA21099043576183")) (Val (py "Taxi"))
    (Val (py "Moscow")) (Val (py "ACTIVE")).

(** [month_on_disk] when the tab of January has been written and the
    aggregation step starts. *)
Definition january_written : World :=
  mkWorld (remote month_on_disk) (disk month_on_disk)
    [summary_tab; dec_tab;
     mkWs (py "2024-01-01") 2 8 [columns; row_values jan_row] 1].

(** A spreadsheet with the aggregate tab only. *)
Definition only_aggregate : World :=
  mkWorld no_objects empty_disk [all_data_tab].

End Sample.

(** More sample data, for the methods of [S3Client] and the Sheet
    Synchronizer. *)
Module Cases.

Definition jan_path : pystr := path_join Sample.data Sample.jan.
Definition month_disk : FS := disk Sample.month_on_disk.
Definition prefix_2024 : pystr := py "2024/".

(** The bucket after the file of January was uploaded under a prefix. *)
Definition uploaded : S3 :=
  snd (S3Client.upload_file Sample.bucket jan_path prefix_2024
         Sample.no_objects month_disk).

(** A second file of the 1st of January. *)
Definition jan_later : pystr := py "cars_20240101040000.csv".

Definition same_day : World :=
  mkWorld Sample.no_objects
    (mkFS Sample.base [py "/srv"; Sample.base; Sample.data]
       [(path_join Sample.data Sample.jan, Table [Sample.car1]);
        (path_join Sample.data jan_later, Table [Sample.car1])])
    [Sample.summary_tab; Sample.dec_tab].

(** Nothing in the bucket, nothing in the data directory, no aggregate
    tab. *)
Definition nothing_to_do : World :=
  mkWorld Sample.no_objects Sample.empty_disk
    [Sample.summary_tab; Sample.dec_tab].













Definition january_tab : Worksheet :=
  mkWs (py "2024-01-01") 2 8 [columns; row_values Sample.jan_row] 1.

End Cases.

Unset Implicit Arguments.

(* ================================================================= *)
(** ** Strings and lists *)

Lemma str_eqb_eq (a b : pystr) : str_eqb a b = true <-> a = b.
Proof.
  revert b; induction a as [|x a IH]; intros [|y b]; simpl;
    try (split; [discriminate | discriminate]); try tauto.
  rewrite andb_true_iff, N.eqb_eq, IH.
  split; [intros [-> ->]; reflexivity | intros H; injection H; auto].
Qed.

Lemma str_eqb_refl (a : pystr) : str_eqb a a = true.
Proof. apply str_eqb_eq; reflexivity. Qed.

Lemma str_eqb_neq (a b : pystr) : str_eqb a b = false <-> a <> b.
Proof.
  rewrite <- str_eqb_eq. destruct (str_eqb a b); split; congruence.
Qed.

Lemma str_in_In (x : pystr) (xs : list pystr) : str_in x xs = true <-> In x xs.
Proof.
  unfold str_in. rewrite existsb_exists. split.
  - intros [y [Hy He]]. apply str_eqb_eq in He. subst; assumption.
  - intros H. exists x. split; [assumption | apply str_eqb_refl].
Qed.

Lemma is_digit_In (c : N) : is_digit c = true -> In c digits.
Proof.
  unfold is_digit. rewrite andb_true_iff, !N.leb_le. intros [H1 H2].
  assert (c = 48 \/ c = 49 \/ c = 50 \/ c = 51 \/ c = 52 \/ c = 53 \/ c = 54
          \/ c = 55 \/ c = 56 \/ c = 57)%N by lia.
  unfold digits. simpl. intuition auto.
Qed.

Lemma bindM_ok {A B} (m : M A) (k : A -> M B) (w w' : World) (a : A) :
  m w = (Ok a, w') -> bindM m k w = k a w'.
Proof. intros H. unfold bindM. rewrite H. reflexivity. Qed.

Lemma bindM_raise {A B} (m : M A) (k : A -> M B) (w w' : World) (e : exn) :
  m w = (Raise e, w') -> bindM m k w = (Raise e, w').
Proof. intros H. unfold bindM. rewrite H. reflexivity. Qed.

Lemma map_result_In {A B} (f : A -> result B) (xs : list A) (ys : list B) (y : B) :
  map_result f xs = Ok ys -> In y ys -> exists x, In x xs /\ f x = Ok y.
Proof.
  revert ys; induction xs as [|x xs IH]; simpl; intros ys H Hy.
  - injection H as <-. destruct Hy.
  - destruct (f x) as [b|e] eqn:Ef; simpl in H; [|discriminate].
    destruct (map_result f xs) as [bs|e] eqn:Em; simpl in H; [|discriminate].
    injection H as <-. destruct Hy as [<- | Hy].
    + exists x; auto.
    + destruct (IH bs eq_refl Hy) as [x' [Hx' Hf]]. exists x'; auto.
Qed.

(* ================================================================= *)
(** ** The sort *)

Lemma insert_row_perm (dt : dtypes) (x : CanonicalRecord)
    (l : list CanonicalRecord) :
  Permutation (x :: l) (insert_row dt x l).
Proof.
  induction l as [|y l IH]; simpl.
  - apply Permutation_refl.
  - destruct (key_leb dt x y).
    + apply Permutation_refl.
    + eapply perm_trans; [apply perm_swap | apply perm_skip, IH].
Qed.

Lemma sort_values_perm (dt : dtypes) (l : list CanonicalRecord) :
  Permutation l (sort_values dt l).
Proof.
  induction l as [|x l IH]; simpl.
  - constructor.
  - eapply perm_trans; [apply perm_skip, IH | apply insert_row_perm].
Qed.

(* ================================================================= *)
(** ** Record Cleaner *)

Lemma read_cell_nonempty (c : cell) : isna (read_cell c) = false -> nonempty (read_cell c) = true.
Proof.
  destruct c as [|t]; [discriminate|].
  unfold read_cell.
  destruct (str_in t na_values) eqn:E; [discriminate|].
  intros _. destruct t; [|reflexivity].
  vm_compute in E. discriminate.
Qed.

Lemma fillna_nonempty (c : cell) : nonempty c = true -> fillna c = c.
Proof. destruct c; simpl; [discriminate | reflexivity]. Qed.

Lemma isin_false_neq (vs : list pystr) (c : cell) (v : pystr) :
  isin vs c = false -> In v vs -> c <> Val v.
Proof.
  intros H Hv E. subst c. simpl in H.
  apply str_in_In in Hv. congruence.
Qed.

Lemma slice_0_length (n : nat) (s : pystr) :
  List.length (slice 0 n s) = Nat.min n (List.length s).
Proof. unfold slice. simpl. rewrite Nat.sub_0_r. apply length_firstn. Qed.

Lemma clean_frame_rows (pads : bool) (df : DataFrame) (out : list CanonicalRecord) :
  clean_frame pads df = Ok out ->
  exists rows, map_result (canonical pads) (filter keep_row (dropna df)) = Ok rows
               /\ out = sort_values (column_dtypes df) rows.
Proof.
  unfold clean_frame.
  destruct (map_result (canonical pads) (filter keep_row (dropna df))) as [rows|e];
    simpl; intros H; [|discriminate].
  injection H as <-. exists rows; auto.
Qed.

Lemma clean_dataframe_frame (pads : bool) (path : pystr) (f : FS) (out : list CanonicalRecord) :
  clean_dataframe pads path f = Ok out ->
  exists df, read_csv path f = Ok df /\ clean_frame pads df = Ok out.
Proof.
  unfold clean_dataframe.
  destruct (read_csv path f) as [df|e]; simpl; intros H; [|discriminate].
  exists df; auto.
Qed.

Lemma read_csv_rows (path : pystr) (f : FS) (df : DataFrame) (s : RawRecord) :
  read_csv path f = Ok df -> In s df -> exists s0, s = read_row s0.
Proof.
  unfold read_csv.
  destruct (str_in path (dirs f)); [discriminate|].
  destruct (lookup path (files f)) as [[df0|t]|]; try discriminate.
  2:{ destruct (blank_text t); discriminate. }
  intros H; injection H as <-. intros Hs.
  apply in_map_iff in Hs. destruct Hs as [s0 [<- _]]. exists s0; reflexivity.
Qed.

(** The source row of every row of the output. *)
Lemma clean_dataframe_source (pads : bool) (path : pystr) (f : FS)
    (out : list CanonicalRecord) (r : CanonicalRecord) :
  clean_dataframe pads path f = Ok out -> In r out ->
  exists df s s0, read_csv path f = Ok df /\ In s df /\ s = read_row s0
    /\ In s (dropna df) /\ keep_row s = true /\ canonical pads s = Ok r.
Proof.
  intros Hc Hr.
  destruct (clean_dataframe_frame _ _ _ _ Hc) as [df [Hread Hf]].
  destruct (clean_frame_rows _ _ _ Hf) as [rows [Hrows ->]].
  apply (Permutation_in _ (Permutation_sym (sort_values_perm _ rows))) in Hr.
  destruct (map_result_In _ _ _ _ Hrows Hr) as [s [Hs Hcan]].
  apply filter_In in Hs. destruct Hs as [Hs Hkeep].
  assert (Hin : In s df) by (unfold dropna in Hs; apply filter_In in Hs; tauto).
  destruct (read_csv_rows _ _ _ _ Hread Hin) as [s0 Hs0].
  exists df, s, s0. auto 10.
Qed.

(** C1, as amended: every row the Record Cleaner returns has non-empty
    VIN, Number, Status, Region and Department; its status is not one of
    the two excluded statuses, its department is not the excluded one, its
    model is not the placeholder, the YearCar of its source row is not the
    zero-date sentinel, and its year is the first four characters of the
    text of that YearCar: four characters long when the text has at least
    four, the whole text when it is shorter. *)
Theorem C1_canonical_rows (pads : bool) (path : pystr) (f : FS)
    (out : list CanonicalRecord) (r : CanonicalRecord) :
  clean_dataframe pads path f = Ok out -> In r out ->
  nonempty (vin r) = true /\ nonempty (number r) = true
  /\ nonempty (status r) = true /\ nonempty (region r) = true
  /\ nonempty (department r) = true
  /\ status r <> Val ARCHIVE /\ status r <> Val PERSONAL
  /\ department r <> Val PERSONAL
  /\ model r <> Val BATMOBILE
  /\ exists df s, read_csv path f = Ok df /\ In s df
       /\ canonical pads s = Ok r
       /\ YearCar s <> Val ZERO_DATE
       /\ forall t, YearCar s = Val t ->
            year_ r = Val (firstn 4 t)
            /\ List.length (py_str (year_ r)) = Nat.min 4 (List.length t).
Proof.
  intros Hc Hr.
  destruct (clean_dataframe_source _ _ _ _ _ Hc Hr)
    as [df [s [s0 [Hread [Hin [Hs0 [Hdrop [Hkeep Hcan]]]]]]]].
  unfold dropna in Hdrop. apply filter_In in Hdrop. destruct Hdrop as [_ Hna].
  rewrite negb_true_iff in Hna. repeat rewrite orb_false_iff in Hna.
  destruct Hna as [[[[Hv Hn] Hst] Hrg] Hdp].
  unfold keep_row in Hkeep. repeat rewrite andb_true_iff in Hkeep.
  repeat rewrite negb_true_iff in Hkeep.
  destruct Hkeep as [[[Kst Kdp] Kmo] Kyc].
  assert (Nv : nonempty (VIN s) = true)
    by (rewrite Hs0 in Hv |- *; apply read_cell_nonempty; exact Hv).
  assert (Nn : nonempty (Number s) = true)
    by (rewrite Hs0 in Hn |- *; apply read_cell_nonempty; exact Hn).
  assert (Nst : nonempty (Status s) = true)
    by (rewrite Hs0 in Hst |- *; apply read_cell_nonempty; exact Hst).
  assert (Nrg : nonempty (Region s) = true)
    by (rewrite Hs0 in Hrg |- *; apply read_cell_nonempty; exact Hrg).
  assert (Ndp : nonempty (Department s) = true)
    by (rewrite Hs0 in Hdp |- *; apply read_cell_nonempty; exact Hdp).
  unfold canonical in Hcan.
  destruct (clean_timestamp pads (timestamp s)) as [d|e] eqn:Ed; simpl in Hcan;
    [|discriminate].
  injection Hcan as Er. subst r. simpl.
  rewrite (fillna_nonempty _ Nv), (fillna_nonempty _ Nn), (fillna_nonempty _ Nst),
    (fillna_nonempty _ Nrg), (fillna_nonempty _ Ndp).
  repeat split; try assumption.
  - apply (isin_false_neq _ _ _ Kst). simpl; auto.
  - apply (isin_false_neq _ _ _ Kst). simpl; auto.
  - apply (isin_false_neq _ _ _ Kdp). simpl; auto.
  - destruct (Model s) as [|m] eqn:Em; simpl; [discriminate|].
    apply (isin_false_neq _ _ _ Kmo). simpl; auto.
  - exists df, s. repeat split; try assumption.
    + unfold canonical. rewrite Ed. simpl.
      rewrite (fillna_nonempty _ Nv), (fillna_nonempty _ Nn), (fillna_nonempty _ Nst),
        (fillna_nonempty _ Nrg), (fillna_nonempty _ Ndp).
      reflexivity.
    + apply (isin_false_neq _ _ _ Kyc). simpl; auto.
    + rewrite H. reflexivity.
    + rewrite H. simpl. apply slice_0_length.
Qed.
(* ================================================================= *)
(** ** The order of the sort keys *)

Section LexOrder.

Variable A : Type.
Variable cmp : A -> A -> comparison.
Hypothesis cmp_eq : forall x y, cmp x y = Eq <-> x = y.
Hypothesis cmp_opp : forall x y, cmp y x = CompOpp (cmp x y).
Hypothesis cmp_lt_trans : forall x y z, cmp x y = Lt -> cmp y z = Lt -> cmp x z = Lt.




End LexOrder.






























(* ================================================================= *)
(** ** File names *)

Lemma split_nonempty (sep : N) (s : pystr) : exists w ws, split sep s = w :: ws.
Proof.
  induction s as [|c s [w [ws IH]]]; simpl.
  - eauto.
  - destruct (N.eqb c sep); [eauto|]. rewrite IH. eauto.
Qed.

Lemma split_app_sep (sep : N) (pre s : pystr) :
  ~ In sep pre -> split sep (pre ++ sep :: s) = pre :: split sep s.
Proof.
  induction pre as [|c pre IH]; simpl; intros Hn.
  - rewrite N.eqb_refl. reflexivity.
  - assert (Hc : N.eqb c sep = false) by (apply N.eqb_neq; intros ->; tauto).
    rewrite Hc, IH by tauto. reflexivity.
Qed.

Lemma split_app_hd (sep : N) (pre s w : pystr) (ws : list pystr) :
  ~ In sep pre -> split sep s = w :: ws ->
  split sep (pre ++ s) = (pre ++ w) :: ws.
Proof.
  intros Hn Hs. induction pre as [|c pre IH]; simpl; [assumption|].
  assert (Hc : N.eqb c sep = false)
    by (apply N.eqb_neq; intros ->; simpl in Hn; tauto).
  rewrite Hc, IH by (simpl in Hn; tauto). reflexivity.
Qed.

Lemma digits_not_sep (sep : N) (ds : pystr) :
  is_digit sep = false -> forallb is_digit ds = true -> ~ In sep ds.
Proof.
  intros Hs Hd Hin. rewrite forallb_forall in Hd. rewrite (Hd _ Hin) in Hs.
  discriminate.
Qed.

Lemma firstn_app_exact {A} (n : nat) (a b : list A) :
  List.length a = n -> firstn n (a ++ b) = a.
Proof.
  intros <-. rewrite firstn_app, Nat.sub_diag, firstn_all. simpl.
  apply app_nil_r.
Qed.

(** The date segment of a name [pre_ds...]: the text between the first
    underscore and the next. *)
Lemma date_segment (pre ds tail : pystr) :
  ~ In (chr "_") pre -> forallb is_digit ds = true ->
  exists w, index (split (chr "_") (pre ++ chr "_" :: ds ++ tail)) 1 = Ok (ds ++ w)
            /\ exists ws, split (chr "_") tail = w :: ws.
Proof.
  intros Hp Hd. rewrite split_app_sep by assumption.
  destruct (split_nonempty (chr "_") tail) as [w [ws Hw]].
  rewrite (split_app_hd _ _ _ _ _ (digits_not_sep (chr "_") _ eq_refl Hd) Hw).
  exists w. split; [reflexivity | eauto].
Qed.

(** *** Two-digit and four-digit fields, by enumeration *)

Definition check2 (a b : N) : bool :=
  let v := digits_num [a; b] in
  match py_int [a; b] with
  | Ok z => (z =? v)%Z
  | Raise _ => false
  end
  && (group_val [a; b] =? v)%Z
  && str_eqb (zfill 2 (dec v)) [a; b]
  && Bool.eqb (v =? 1)%Z (str_eqb [a; b] (py "01")).

Definition check4 (a b c d : N) : bool :=
  let v := digits_num [a; b; c; d] in
  (group_val [a; b; c; d] =? v)%Z
  && str_eqb (zfill 4 (dec v)) [a; b; c; d]
  && (negb (1000 <=? v)%Z || str_eqb (dec v) [a; b; c; d])
  && (0 <=? v)%Z && (v <=? 9999)%Z.

(** What the month and day part of the expression does on four digits:
    it matches them all exactly when they are a month 01-12 and a day
    01-31, as the groups [m1 m2] and [d1 d2]. *)
Definition check_md (m1 m2 d1 d2 : N) : bool :=
  let mo := digits_num [m1; m2] in
  let da := digits_num [d1; d2] in
  let in_range := ((1 <=? mo) && (mo <=? 12) && (1 <=? da) && (da <=? 31))%Z in
  match re_match [dm; dd] [m1; m2; d1; d2] with
  | Some ([gm; gd], []) =>
      in_range && str_eqb gm [m1; m2] && str_eqb gd [d1; d2]
  | Some (_, []) => false
  | Some (_, _ :: _) => negb in_range
  | None => negb in_range
  end.

Lemma check2_all :
  forallb (fun a => forallb (fun b => check2 a b) digits) digits = true.
Proof. vm_compute. reflexivity. Qed.

Lemma check4_all :
  forallb (fun a => forallb (fun b => forallb (fun c => forallb (fun d =>
    check4 a b c d) digits) digits) digits) digits = true.
Proof. vm_compute. reflexivity. Qed.

Lemma check_md_all :
  forallb (fun a => forallb (fun b => forallb (fun c => forallb (fun d =>
    check_md a b c d) digits) digits) digits) digits = true.
Proof. vm_compute. reflexivity. Qed.

Lemma check2_digits (a b : N) :
  is_digit a = true -> is_digit b = true -> check2 a b = true.
Proof.
  intros Ha Hb. pose proof check2_all as H.
  rewrite forallb_forall in H. specialize (H a (is_digit_In _ Ha)).
  rewrite forallb_forall in H. exact (H b (is_digit_In _ Hb)).
Qed.

Lemma check4_digits (a b c d : N) :
  is_digit a = true -> is_digit b = true -> is_digit c = true ->
  is_digit d = true -> check4 a b c d = true.
Proof.
  intros Ha Hb Hc Hd. pose proof check4_all as H.
  rewrite forallb_forall in H. specialize (H a (is_digit_In _ Ha)).
  rewrite forallb_forall in H. specialize (H b (is_digit_In _ Hb)).
  rewrite forallb_forall in H. specialize (H c (is_digit_In _ Hc)).
  rewrite forallb_forall in H. exact (H d (is_digit_In _ Hd)).
Qed.

Lemma check_md_digits (a b c d : N) :
  is_digit a = true -> is_digit b = true -> is_digit c = true ->
  is_digit d = true -> check_md a b c d = true.
Proof.
  intros Ha Hb Hc Hd. pose proof check_md_all as H.
  rewrite forallb_forall in H. specialize (H a (is_digit_In _ Ha)).
  rewrite forallb_forall in H. specialize (H b (is_digit_In _ Hb)).
  rewrite forallb_forall in H. specialize (H c (is_digit_In _ Hc)).
  rewrite forallb_forall in H. exact (H d (is_digit_In _ Hd)).
Qed.

Lemma is_digit_decimal (c : N) : is_digit c = true -> is_decimal c = true.
Proof.
  intros H. apply is_digit_In in H.
  repeat (destruct H as [<- | H]; [reflexivity|]). destruct H.
Qed.

Lemma re_match_year (fmt : list directive) (y1 y2 y3 y4 : N) (s : pystr) :
  is_digit y1 = true -> is_digit y2 = true -> is_digit y3 = true ->
  is_digit y4 = true ->
  re_match (dY :: fmt) (y1 :: y2 :: y3 :: y4 :: s) =
  match re_match fmt s with
  | Some (gs, r) => Some ([y1; y2; y3; y4] :: gs, r)
  | None => None
  end.
Proof.
  intros H1 H2 H3 H4. apply is_digit_decimal in H1, H2, H3, H4.
  cbn [re_match directive_regex first_some match_alt].
  rewrite H1, H2, H3, H4.
  destruct (re_match fmt s) as [[gs r]|]; reflexivity.
Qed.

Lemma days_in_month_le (y m : Z) : (days_in_month y m <= 31)%Z.
Proof.
  unfold days_in_month.
  destruct (m =? 2)%Z; [destruct (is_leap y); lia|].
  destruct ((m =? 4)%Z || (m =? 6)%Z || (m =? 9)%Z || (m =? 11)%Z); lia.
Qed.

Lemma valid_month_day (y m d : Z) :
  valid_datetime (mkdt y m d 0 0 0) = true ->
  ((1 <=? m) && (m <=? 12) && (1 <=? d) && (d <=? 31))%Z = true.
Proof.
  unfold valid_datetime; simpl. rewrite !andb_true_iff, !Z.leb_le.
  pose proof (days_in_month_le y m). intuition lia.
Qed.

(** [strptime] with [%Y%m%d] on eight digits. *)
Lemma strptime_ymd (ds : pystr) :
  List.length ds = 8 -> forallb is_digit ds = true ->
  strptime [dY; dm; dd] ds =
  if valid_datetime (ymd ds) then Ok (ymd ds) else Raise ValueError.
Proof.
  intros Hl Hd.
  destruct ds as [|y1 [|y2 [|y3 [|y4 [|m1 [|m2 [|d1 [|d2 [|x ds]]]]]]]]];
    try discriminate Hl.
  simpl in Hd. repeat rewrite andb_true_iff in Hd.
  destruct Hd as (Hy1 & Hy2 & Hy3 & Hy4 & Hm1 & Hm2 & Hd1 & Hd2 & _).
  pose proof (check4_digits _ _ _ _ Hy1 Hy2 Hy3 Hy4) as C4.
  pose proof (check2_digits _ _ Hm1 Hm2) as Cm.
  pose proof (check2_digits _ _ Hd1 Hd2) as Cd.
  pose proof (check_md_digits _ _ _ _ Hm1 Hm2 Hd1 Hd2) as Cmd.
  unfold check4 in C4. unfold check2 in Cm, Cd. unfold check_md in Cmd.
  repeat rewrite andb_true_iff in C4. repeat rewrite andb_true_iff in Cm.
  repeat rewrite andb_true_iff in Cd.
  destruct C4 as ((((Gy & _) & _) & _) & _).
  destruct Cm as (((_ & Gm) & _) & _). destruct Cd as (((_ & Gd) & _) & _).
  apply Z.eqb_eq in Gy. apply Z.eqb_eq in Gm. apply Z.eqb_eq in Gd.
  unfold strptime. rewrite re_match_year by assumption.
  unfold ymd, slice. cbn [firstn skipn Nat.sub].
  set (Y := digits_num [y1; y2; y3; y4]) in *.
  set (Mo := digits_num [m1; m2]) in *.
  set (Da := digits_num [d1; d2]) in *.
  destruct (re_match [dm; dd] [m1; m2; d1; d2]) as [[gs r]|].
  - destruct r as [|c r].
    + destruct gs as [|gm [|gd [|g gs]]]; try discriminate Cmd.
      repeat rewrite andb_true_iff in Cmd. destruct Cmd as [[_ Em] Ed].
      apply str_eqb_eq in Em. apply str_eqb_eq in Ed. subst gm gd.
      cbn [set_fields set_field year month day hour minute second].
      rewrite Gy, Gm, Gd. reflexivity.
    + destruct (valid_datetime (mkdt Y Mo Da 0 0 0)) eqn:V; [|reflexivity].
      apply valid_month_day in V. rewrite V in Cmd.
      destruct gs as [|? [|? [|? ?]]]; discriminate Cmd.
  - destruct (valid_datetime (mkdt Y Mo Da 0 0 0)) eqn:V; [|reflexivity].
    apply valid_month_day in V. rewrite V in Cmd. discriminate Cmd.
Qed.

Lemma strftime_ymd (pads : bool) (ds : pystr) :
  List.length ds = 8 -> forallb is_digit ds = true ->
  pads = true \/ (1000 <= year (ymd ds))%Z ->
  strftime_Y_m_d pads (ymd ds) = dashed ds.
Proof.
  intros Hl Hd Hp.
  destruct ds as [|y1 [|y2 [|y3 [|y4 [|m1 [|m2 [|d1 [|d2 [|x ds]]]]]]]]];
    try discriminate Hl.
  simpl in Hd. repeat rewrite andb_true_iff in Hd.
  destruct Hd as (Hy1 & Hy2 & Hy3 & Hy4 & Hm1 & Hm2 & Hd1 & Hd2 & _).
  pose proof (check4_digits _ _ _ _ Hy1 Hy2 Hy3 Hy4) as C4.
  pose proof (check2_digits _ _ Hm1 Hm2) as Cm.
  pose proof (check2_digits _ _ Hd1 Hd2) as Cd.
  unfold check4 in C4. unfold check2 in Cm, Cd.
  repeat rewrite andb_true_iff in C4. repeat rewrite andb_true_iff in Cm.
  repeat rewrite andb_true_iff in Cd.
  destruct C4 as ((((_ & Zy) & Py) & _) & _).
  destruct Cm as ((_ & Zm) & _). destruct Cd as ((_ & Zd) & _).
  apply str_eqb_eq in Zy. apply str_eqb_eq in Zm. apply str_eqb_eq in Zd.
  unfold strftime_Y_m_d, strftime_Y, dashed, ymd, slice in *.
  cbn [firstn skipn Nat.sub year month day] in *.
  rewrite Zm, Zd.
  destruct pads.
  - rewrite Zy. reflexivity.
  - destruct Hp as [Hp | Hp]; [discriminate|].
    apply Z.leb_le in Hp. rewrite Hp in Py. simpl in Py.
    apply str_eqb_eq in Py. rewrite Py. reflexivity.
Qed.

(** A year below 1000, printed without padding, has fewer than four
    digits. *)
Definition check4_short (a b c d : N) : bool :=
  let v := digits_num [a; b; c; d] in
  (1000 <=? v)%Z || (List.length (dec v) <? 4).

Lemma check4_short_all :
  forallb (fun a => forallb (fun b => forallb (fun c => forallb (fun d =>
    check4_short a b c d) digits) digits) digits) digits = true.
Proof. vm_compute. reflexivity. Qed.

Lemma check4_short_digits (a b c d : N) :
  is_digit a = true -> is_digit b = true -> is_digit c = true ->
  is_digit d = true -> check4_short a b c d = true.
Proof.
  intros Ha Hb Hc Hd. pose proof check4_short_all as H.
  rewrite forallb_forall in H. specialize (H a (is_digit_In _ Ha)).
  rewrite forallb_forall in H. specialize (H b (is_digit_In _ Hb)).
  rewrite forallb_forall in H. specialize (H c (is_digit_In _ Hc)).
  rewrite forallb_forall in H. exact (H d (is_digit_In _ Hd)).
Qed.

(** [strftime] where the C library does not pad the year. *)
Lemma strftime_unpadded (ds : pystr) :
  List.length ds = 8 -> forallb is_digit ds = true ->
  strftime_Y_m_d false (ymd ds) = dec (year (ymd ds)) ++ skipn 4 (dashed ds)
  /\ ((year (ymd ds) < 1000)%Z -> List.length (dec (year (ymd ds))) < 4).
Proof.
  intros Hl Hd.
  destruct ds as [|y1 [|y2 [|y3 [|y4 [|m1 [|m2 [|d1 [|d2 [|x ds]]]]]]]]];
    try discriminate Hl.
  simpl in Hd. repeat rewrite andb_true_iff in Hd.
  destruct Hd as (Hy1 & Hy2 & Hy3 & Hy4 & Hm1 & Hm2 & Hd1 & Hd2 & _).
  pose proof (check4_short_digits _ _ _ _ Hy1 Hy2 Hy3 Hy4) as C4.
  pose proof (check2_digits _ _ Hm1 Hm2) as Cm.
  pose proof (check2_digits _ _ Hd1 Hd2) as Cd.
  unfold check4_short in C4. unfold check2 in Cm, Cd.
  repeat rewrite andb_true_iff in Cm. repeat rewrite andb_true_iff in Cd.
  destruct Cm as ((_ & Zm) & _). destruct Cd as ((_ & Zd) & _).
  apply str_eqb_eq in Zm. apply str_eqb_eq in Zd.
  unfold strftime_Y_m_d, strftime_Y, dashed, ymd, slice in *.
  cbn [firstn skipn Nat.sub year month day app] in *.
  rewrite Zm, Zd. split; [reflexivity|].
  intros Hy. apply orb_true_iff in C4. destruct C4 as [C4 | C4].
  - apply Z.leb_le in C4. lia.
  - apply Nat.ltb_lt in C4. exact C4.
Qed.

(** C8, as amended: when the date segment of a file name (the text after
    its first underscore) starts with eight digits YYYYMMDD that are a
    calendar date, the tab name is YYYY-MM-DD for a year from 1000 on; for
    a year below 1000 it is YYYY-MM-DD only where the C library pads the
    year, and elsewhere the year is printed with the digits it has, fewer
    than four.  When the eight digits are not a calendar date,
    [get_sheet_name] raises [ValueError], and the processing of the file
    raises it with nothing written. *)
Theorem C8_sheet_name (pads : bool) (pre ds tail : pystr) :
  ~ In (chr "_") pre -> List.length ds = 8 -> forallb is_digit ds = true ->
  let name := pre ++ chr "_" :: ds ++ tail in
  (valid_datetime (ymd ds) = true -> (1000 <= year (ymd ds))%Z ->
   get_sheet_name pads name = Ok (dashed ds))
  /\ (valid_datetime (ymd ds) = true -> (year (ymd ds) < 1000)%Z ->
      get_sheet_name true name = Ok (dashed ds)
      /\ get_sheet_name false name
         = Ok (dec (year (ymd ds)) ++ skipn 4 (dashed ds))
      /\ List.length (dec (year (ymd ds))) < 4)
  /\ (valid_datetime (ymd ds) = false ->
      get_sheet_name pads name = Raise ValueError
      /\ forall ws w rows,
           clean_dataframe pads (path_join (data_dir w) name) (disk w) = Ok rows ->
           process_file pads ws name w = (Raise ValueError, w)).
Proof.
  intros Hp Hl Hd name.
  destruct (date_segment pre ds tail Hp Hd) as [w [Hseg _]].
  assert (Hs : slice 0 8 (ds ++ w) = ds)
    by (unfold slice; simpl skipn; apply firstn_app_exact; assumption).
  assert (Hg : forall p, get_sheet_name p name =
               if valid_datetime (ymd ds)
               then Ok (strftime_Y_m_d p (ymd ds)) else Raise ValueError).
  { intros p. unfold get_sheet_name, name. rewrite Hseg. cbn [bind]. rewrite Hs.
    rewrite (strptime_ymd ds Hl Hd).
    destruct (valid_datetime (ymd ds)); reflexivity. }
  split; [|split].
  - intros V P. rewrite Hg, V, (strftime_ymd pads ds Hl Hd (or_intror P)).
    reflexivity.
  - intros V P. destruct (strftime_unpadded ds Hl Hd) as [Hu Hlen].
    split; [|split].
    + rewrite Hg, V, (strftime_ymd true ds Hl Hd (or_introl eq_refl)).
      reflexivity.
    + rewrite Hg, V, Hu. reflexivity.
    + apply Hlen, P.
  - intros V.
    assert (Hr : get_sheet_name pads name = Raise ValueError)
      by (rewrite Hg, V; reflexivity).
    split; [exact Hr|].
    intros ws w0 rows Hc. unfold process_file.
    rewrite (bindM_ok _ _ w0 w0 rows) by (unfold read_disk; rewrite Hc; reflexivity).
    apply bindM_raise. unfold lift. rewrite Hr. reflexivity.
Qed.

Lemma split_no_sep (sep : N) (s : pystr) : ~ In sep s -> split sep s = [s].
Proof.
  induction s as [|c s IH]; simpl; intros Hn; [reflexivity|].
  assert (Hc : N.eqb c sep = false) by (apply N.eqb_neq; intros ->; tauto).
  rewrite Hc, IH by tauto. reflexivity.
Qed.

(** [is_file_name_on_1st] on a name [pre_YYYYMMDDhhmmss.ext]. *)
Lemma is_file_name_on_1st_form (pre ts ext : pystr) :
  ~ In (chr "_") pre -> List.length ts = 14 -> forallb is_digit ts = true ->
  is_file_name_on_1st (pre ++ chr "_" :: ts ++ chr "." :: ext) =
  Ok (str_eqb (slice 6 8 ts) (py "01")).
Proof.
  intros Hp Hl Hd.
  destruct (date_segment pre ts (chr "." :: ext) Hp Hd) as [w [Hseg [ws Hw]]].
  assert (Hdot : exists w', w = chr "." :: w').
  { simpl in Hw.
    destruct (split _ ext) as [|x xs]; injection Hw as <- _; eauto. }
  destruct Hdot as [w' ->].
  unfold is_file_name_on_1st. rewrite Hseg. cbn [bind].
  rewrite (split_app_sep (chr ".") ts w' (digits_not_sep (chr ".") ts eq_refl Hd)).
  unfold index. cbn [nth_error bind].
  destruct ts as [|t1 [|t2 [|t3 [|t4 [|t5 [|t6 [|a [|b [|t9 [|t10 [|t11 [|t12
    [|t13 [|t14 [|x ts]]]]]]]]]]]]]]]; try discriminate Hl.
  simpl in Hd. repeat rewrite andb_true_iff in Hd.
  destruct Hd as (_ & _ & _ & _ & _ & _ & Ha & Hb & _).
  pose proof (check2_digits a b Ha Hb) as C. unfold check2 in C.
  repeat rewrite andb_true_iff in C. destruct C as [[[Ci _] _] Ce].
  unfold slice. cbn [firstn skipn Nat.sub].
  destruct (py_int [a; b]) as [z|e]; [|discriminate Ci].
  apply Z.eqb_eq in Ci. subst z. cbn [bind].
  apply eqb_prop in Ce. rewrite Ce. reflexivity.
Qed.

Lemma for_each_raise {A} (body : A -> M unit) (pre : list A) (x : A)
    (rest : list A) (w w1 w2 : World) (e : exn) :
  for_each pre body w = (Ok tt, w1) -> body x w1 = (Raise e, w2) ->
  for_each (pre ++ x :: rest) body w = (Raise e, w2).
Proof.
  revert w. induction pre as [|y pre IH]; simpl; intros w Hpre Hx.
  - injection Hpre as <-. unfold bindM. rewrite Hx. reflexivity.
  - unfold bindM in *. destruct (body y w) as [[[]|e'] w'];
      [apply IH; assumption | discriminate].
Qed.

(** The steps of [main], one after the other. *)
Lemma main_steps (pads : bool) (bucket : pystr) (w : World) :
  main pads bucket w =
  match S3Client.list_objects bucket (remote w) with
  | Raise e => (Raise e, w)
  | Ok s3_objects =>
      match for_each s3_objects (download_step bucket) w with
      | (Raise e, w1) => (Raise e, w1)
      | (Ok _, w1) =>
          match listdir (data_dir w1) (disk w1) with
          | Raise e => (Raise e, w1)
          | Ok data_files =>
              match process_files pads (Sheets.worksheets (book w))
                      data_files None w1 with
              | (Raise e, w2) => (Raise e, w2)
              | (Ok cols, w2) => aggregate (Sheets.worksheets (book w)) cols w2
              end
          end
      end
  end.
Proof.
  unfold main, bindM, read_book, read_disk, lift.
  destruct (S3Client.list_objects bucket (remote w)) as [objs|e]; [|reflexivity].
  destruct (for_each objs (download_step bucket) w) as [[u|e] w1]; [|reflexivity].
  destruct (listdir (data_dir w1) (disk w1)) as [fl|e]; reflexivity.
Qed.

(** C2, as amended: a remote name [pre_YYYYMMDDhhmmss.ext] (no underscore
    in [pre]) is selected, and then downloaded, exactly when it contains
    "cars", its day-of-month digits are "01" and it is not among the names
    of the local data directory. *)
Theorem C2_selection (bucket pre ts ext : pystr) (w : World) (names : list pystr) :
  ~ In (chr "_") pre -> List.length ts = 14 -> forallb is_digit ts = true ->
  listdir (data_dir w) (disk w) = Ok names ->
  let name := pre ++ chr "_" :: ts ++ chr "." :: ext in
  let sel := contains (py "cars") name && str_eqb (slice 6 8 ts) (py "01")
             && negb (str_in name names) in
  selected name w = (Ok sel, w)
  /\ download_step bucket name w =
     (if sel then download bucket name w else (Ok tt, w)).
Proof.
  intros Hp Hl Hd Hls name sel.
  assert (Hsel : selected name w = (Ok sel, w)).
  { unfold selected, sel. destruct (contains (py "cars") name); [|reflexivity].
    unfold bindM, lift. unfold name at 1.
    rewrite (is_file_name_on_1st_form pre ts ext Hp Hl Hd).
    destruct (str_eqb (slice 6 8 ts) (py "01")); [|reflexivity].
    unfold read_disk. rewrite Hls. reflexivity. }
  split; [assumption|].
  unfold download_step, bindM. rewrite Hsel. destruct sel; reflexivity.
Qed.

(** C5, as amended: a remote key that does not contain "cars" is skipped
    without being parsed and nothing changes; a key that contains "cars"
    and has no underscore raises [IndexError], and one whose date segment,
    up to its first dot, has fewer than seven characters raises
    [ValueError]; nothing catches the exception, so the loop over the keys
    ends there and [main] raises it. *)
Theorem C5_malformed_keys (pads : bool) (bucket : pystr) :
  (forall k w, contains (py "cars") k = false ->
     download_step bucket k w = (Ok tt, w))
  /\ (forall k w, contains (py "cars") k = true -> ~ In (chr "_") k ->
        download_step bucket k w = (Raise IndexError, w))
  /\ (forall k seg w, contains (py "cars") k = true ->
        index (split (chr "_") k) 1 = Ok seg ->
        List.length (hd [] (split (chr ".") seg)) <= 6 ->
        download_step bucket k w = (Raise ValueError, w))
  /\ (forall w s3_objects before k rest w1 w2 e,
        S3Client.list_objects bucket (remote w) = Ok s3_objects ->
        s3_objects = before ++ k :: rest ->
        for_each before (download_step bucket) w = (Ok tt, w1) ->
        download_step bucket k w1 = (Raise e, w2) ->
        main pads bucket w = (Raise e, w2)).
Proof.
  split; [|split; [|split]].
  - intros k w Hc. unfold download_step, bindM, selected. rewrite Hc. reflexivity.
  - intros k w Hc Hn. unfold download_step, bindM, selected. rewrite Hc.
    unfold lift, is_file_name_on_1st. rewrite (split_no_sep _ _ Hn). reflexivity.
  - intros k seg w Hc Hseg Hlen. unfold download_step, bindM, selected.
    rewrite Hc. unfold lift, is_file_name_on_1st. rewrite Hseg. cbn [bind].
    destruct (split_nonempty (chr ".") seg) as [stem [ws Hs]].
    rewrite Hs in *. simpl in Hlen. unfold index. cbn [nth_error bind].
    assert (Hsl : slice 6 8 stem = []).
    { unfold slice. rewrite skipn_all2 by assumption. reflexivity. }
    rewrite Hsl. reflexivity.
  - intros w objs before k rest w1 w2 e Hl -> Hb Hk.
    rewrite main_steps, Hl.
    rewrite (for_each_raise _ before k rest w w1 w2 e Hb Hk). reflexivity.
Qed.

(* ================================================================= *)
(** ** The spreadsheet *)

Lemma find_sheet_title (t : pystr) (b : Spreadsheet) (s : Worksheet) :
  find_sheet t b = Some s -> title s = t.
Proof.
  induction b as [|x b IH]; simpl; [discriminate|].
  destruct (str_eqb t (title x)) eqn:E; [|assumption].
  intros H; injection H as <-. apply str_eqb_eq in E. auto.
Qed.

Lemma find_sheet_app (t : pystr) (b : Spreadsheet) (x : Worksheet) :
  find_sheet t (b ++ [x]) =
  match find_sheet t b with
  | Some s => Some s
  | None => if str_eqb t (title x) then Some x else None
  end.
Proof.
  induction b as [|y b IH]; simpl; [reflexivity|].
  destruct (str_eqb t (title y)); [reflexivity | assumption].
Qed.

Lemma find_sheet_alter (t : pystr) (f : Worksheet -> Worksheet)
    (b : Spreadsheet) (s : Worksheet) :
  find_sheet t b = Some s -> title (f s) = title s ->
  find_sheet t (alter_sheet t f b) = Some (f s).
Proof.
  induction b as [|x b IH]; simpl; [discriminate|].
  destruct (str_eqb t (title x)) eqn:E.
  - intros H Ht; injection H as <-. simpl. rewrite Ht, E. reflexivity.
  - intros H Ht. simpl. rewrite E. apply IH; assumption.
Qed.

Lemma on_sheet_found (t : pystr) (f : Worksheet -> Worksheet) (w : World)
    (s : Worksheet) :
  find_sheet t (book w) = Some s ->
  on_book (Sheets.on_sheet t f) w =
  (Ok tt, mkWorld (remote w) (disk w) (alter_sheet t f (book w))).
Proof. intros H. unfold on_book, Sheets.on_sheet. rewrite H. reflexivity. Qed.

Lemma consolidate_world (ws : list pystr) (acc : list (list pystr)) (w : World) :
  snd (consolidate ws acc w) = w.
Proof.
  revert acc; induction ws as [|t ws IH]; intros acc; [reflexivity|].
  cbn [consolidate].
  destruct (negb (str_in t [ALL_DATA; SUMMARY])); [|apply IH].
  unfold bindM, read_book.
  destruct (Sheets.get_all_values t (book w)); [apply IH | reflexivity].
Qed.

(** The end of the aggregation step when the aggregate tab exists and
    the second worksheet of the list has a first row with a cell in it:
    that row becomes the header of the aggregate. *)
Lemma write_aggregate_ok (all_data : pystr) (ws : list pystr)
    (cons : list (list pystr)) (w : World) (s0 s : Worksheet) (t : pystr)
    (hdr : list pystr) (rest : list (list pystr)) :
  find_sheet all_data (book w) = Some s0 ->
  nth_error ws 1 = Some t ->
  find_sheet t (book w) = Some s ->
  cells s = hdr :: rest -> hdr <> [] ->
  exists w',
    write_aggregate all_data ws cons w = (Ok tt, w')
    /\ option_map cells (find_sheet all_data (book w')) = Some (hdr :: cons).
Proof.
  intros H0 Ent Ef Ec Hh. unfold write_aggregate.
  rewrite (bindM_ok _ _ w w t)
    by (unfold lift, index; rewrite Ent; reflexivity).
  rewrite (bindM_ok _ _ w w (hdr :: rest))
    by (unfold read_book, Sheets.get_all_values; rewrite Ef, Ec; reflexivity).
  rewrite (bindM_ok _ _ w w hdr) by reflexivity.
  unfold Sheets.resize, Sheets.clear, Sheets.update, Sheets.set_frozen.
  destruct hdr as [|h hdr]; [congruence|]. cbn [List.length].
  set (f1 := Sheets.resized (List.length cons + 1) (S (List.length hdr))).
  set (f3 := Sheets.updated ((h :: hdr) :: cons)).
  pose proof (find_sheet_alter all_data f1 (book w) s0 H0 eq_refl) as H1.
  pose proof (find_sheet_alter all_data Sheets.cleared _ _ H1 eq_refl) as H2.
  pose proof (find_sheet_alter all_data f3 _ _ H2 eq_refl) as H3.
  pose proof (find_sheet_alter all_data (Sheets.frozen_at 1) _ _ H3 eq_refl) as H4.
  rewrite (bindM_ok _ _ w _ tt (on_sheet_found _ f1 _ _ H0)). cbv beta.
  rewrite (bindM_ok _ _ _ _ tt
             (on_sheet_found _ Sheets.cleared (mkWorld (remote w) (disk w) _) _ H1)).
  cbv beta. cbn [remote disk book].
  rewrite (bindM_ok _ _ _ _ tt
             (on_sheet_found _ f3 (mkWorld (remote w) (disk w) _) _ H2)).
  cbv beta. cbn [remote disk book].
  rewrite (on_sheet_found _ (Sheets.frozen_at 1)
             (mkWorld (remote w) (disk w) _) _ H3).
  cbn [remote disk book].
  eexists. split; [reflexivity|].
  cbn [book]. rewrite H4. unfold f3. reflexivity.
Qed.

(** What the end of the aggregation step does when the aggregate tab
    exists: it raises, with nothing written, when the list has no second
    worksheet or the first row of that worksheet has no cell; otherwise
    the first row of that worksheet becomes the header of the aggregate. *)
Lemma write_aggregate_cases (all_data : pystr) (ws : list pystr)
    (cons : list (list pystr)) (w : World) (s0 : Worksheet) :
  find_sheet all_data (book w) = Some s0 ->
  (exists e, write_aggregate all_data ws cons w = (Raise e, w))
  \/ (exists w' t s hdr rest,
        write_aggregate all_data ws cons w = (Ok tt, w')
        /\ nth_error ws 1 = Some t
        /\ find_sheet t (book w) = Some s
        /\ cells s = hdr :: rest
        /\ option_map cells (find_sheet all_data (book w')) = Some (hdr :: cons)).
Proof.
  intros H0.
  destruct (nth_error ws 1) as [t|] eqn:Ent.
  2:{ left. exists IndexError. unfold write_aggregate. apply bindM_raise.
      unfold lift, index. rewrite Ent. reflexivity. }
  destruct (find_sheet t (book w)) as [s|] eqn:Ef.
  2:{ left. exists APIError. unfold write_aggregate.
      rewrite (bindM_ok _ _ w w t)
        by (unfold lift, index; rewrite Ent; reflexivity).
      apply bindM_raise.
      unfold read_book, Sheets.get_all_values. rewrite Ef. reflexivity. }
  assert (Hno : forall values,
            Sheets.get_all_values t (book w) = Ok values ->
            hd_error values = Some [] ->
            write_aggregate all_data ws cons w = (Raise APIError, w)).
  { intros values Hv Hh. unfold write_aggregate.
    rewrite (bindM_ok _ _ w w t)
      by (unfold lift, index; rewrite Ent; reflexivity).
    rewrite (bindM_ok _ _ w w values)
      by (unfold read_book; rewrite Hv; reflexivity).
    destruct values as [|r values]; [discriminate Hh|].
    injection Hh as ->.
    rewrite (bindM_ok _ _ w w []) by reflexivity.
    apply bindM_raise. unfold on_book, Sheets.resize. cbn [List.length].
    destruct w; reflexivity. }
  destruct (cells s) as [|hdr rest] eqn:Ec.
  { left. exists APIError. apply (Hno [[]]); [|reflexivity].
    unfold Sheets.get_all_values. rewrite Ef, Ec. reflexivity. }
  destruct hdr as [|h hdr].
  { left. exists APIError. apply (Hno ([] :: rest)); [|reflexivity].
    unfold Sheets.get_all_values. rewrite Ef, Ec. reflexivity. }
  right.
  destruct (write_aggregate_ok all_data ws cons w s0 s t (h :: hdr) rest
              H0 Ent Ef Ec) as [w' [Hw Hp]]; [discriminate|].
  exists w', t, s, (h :: hdr), rest. auto.
Qed.

Lemma unpublished_refl (w : World) : unpublished w w.
Proof. unfold unpublished. auto. Qed.

(** The two ways the aggregation step can end. *)
Lemma aggregate_cases (ws : list pystr) (cols : option nat) (w : World) :
  (exists e w', aggregate ws cols w = (Raise e, w') /\ unpublished w w')
  \/ (exists w' t s hdr rest cons,
        aggregate ws cols w = (Ok tt, w')
        /\ consolidate ws [] w = (Ok cons, w)
        /\ nth_error (appended ws) 1 = Some t
        /\ find_sheet t (book w) = Some s
        /\ cells s = hdr :: rest
        /\ option_map cells (find_sheet ALL_DATA (book w')) = Some (hdr :: cons)).
Proof.
  unfold aggregate, appended.
  pose proof (consolidate_world ws [] w) as Hw.
  destruct (consolidate ws [] w) as [[cons|e] w0] eqn:Ec; simpl in Hw; subst w0.
  2:{ left. exists e, w. split; [|apply unpublished_refl].
      apply bindM_raise. exact Ec. }
  rewrite (bindM_ok _ _ w w cons Ec).
  destruct (str_in ALL_DATA ws) eqn:Ein; cbn [negb].
  - (* the aggregate tab is in the list *)
    destruct (find_sheet ALL_DATA (book w)) as [s0|] eqn:E0.
    2:{ left. exists WorksheetNotFound, w. split; [|apply unpublished_refl].
        apply bindM_raise. unfold read_book, Sheets.worksheet. rewrite E0.
        reflexivity. }
    rewrite (bindM_ok _ _ w w s0)
      by (unfold read_book, Sheets.worksheet; rewrite E0; reflexivity).
    rewrite (find_sheet_title _ _ _ E0).
    destruct (write_aggregate_cases ALL_DATA ws cons w s0 E0)
      as [[e He] | [w' [t [s [hdr [rest H]]]]]].
    + left. exists e, w. split; [assumption | apply unpublished_refl].
    + right. exists w', t, s, hdr, rest, cons.
      split; [exact (proj1 H)|]. split; [reflexivity | exact (proj2 H)].
  - (* the aggregate tab is created *)
    destruct cols as [c|].
    2:{ left. exists UnboundLocalError, w. split; [|apply unpublished_refl].
        apply bindM_raise. reflexivity. }
    rewrite (bindM_ok _ _ w w c) by reflexivity.
    destruct (find_sheet ALL_DATA (book w)) as [s0|] eqn:E0.
    { left. exists APIError, w. split; [|apply unpublished_refl].
      apply bindM_raise. unfold on_book, Sheets.add_worksheet. rewrite E0.
      destruct w; reflexivity. }
    set (new := mkWs ALL_DATA 1 c [] 0).
    set (w1 := mkWorld (remote w) (disk w) (book w ++ [new])).
    rewrite (bindM_ok _ _ w w1 ALL_DATA)
      by (unfold on_book, Sheets.add_worksheet; rewrite E0; reflexivity).
    assert (E1 : find_sheet ALL_DATA (book w1) = Some new).
    { unfold w1. cbn [book]. rewrite find_sheet_app, E0. reflexivity. }
    destruct (write_aggregate_cases ALL_DATA (ws ++ [ALL_DATA]) cons w1 new E1)
      as [[e He] | [w' [t [s [hdr [rest (Hr & Hn & Hf & Hc & Hp)]]]]]].
    + left. exists e, w1. split; [assumption|].
      unfold unpublished, w1. cbn [remote disk book].
      split; [reflexivity|]. split; [reflexivity|]. right. exists c. reflexivity.
    + right. exists w', t, s, hdr, rest, cons.
      repeat split; try assumption.
      unfold w1 in Hf. cbn [book] in Hf. rewrite find_sheet_app in Hf.
      destruct (find_sheet t (book w)) as [s'|]; [assumption|].
      destruct (str_eqb t (title new)); [|discriminate].
      injection Hf as <-. discriminate Hc.
Qed.

(** Every tab of the list being in the spreadsheet, the loop that
    gathers the rows ends and changes nothing. *)
Lemma consolidate_found (ws : list pystr) (acc : list (list pystr)) (w : World) :
  (forall x, In x ws -> find_sheet x (book w) <> None) ->
  exists cons, consolidate ws acc w = (Ok cons, w).
Proof.
  revert acc; induction ws as [|t ws IH]; intros acc H; cbn [consolidate].
  - eexists; reflexivity.
  - assert (Hws : forall x, In x ws -> find_sheet x (book w) <> None)
      by (intros; apply H; simpl; auto).
    destruct (negb (str_in t [ALL_DATA; SUMMARY])); [|apply IH; assumption].
    pose proof (H t (or_introl eq_refl)) as Ht.
    unfold bindM at 1, read_book, Sheets.get_all_values.
    destruct (find_sheet t (book w)); [|congruence].
    apply IH; assumption.
Qed.

(** When the aggregation step succeeds. *)
Lemma aggregate_ok (ws : list pystr) (cols : option nat) (w : World)
    (t : pystr) (s : Worksheet) (hdr : list pystr) (rest : list (list pystr)) :
  nth_error (appended ws) 1 = Some t ->
  find_sheet t (book w) = Some s ->
  cells s = hdr :: rest -> hdr <> [] ->
  (forall x, In x ws -> find_sheet x (book w) <> None) ->
  (str_in ALL_DATA ws = false ->
   find_sheet ALL_DATA (book w) = None /\ cols <> None) ->
  exists w' cons,
    aggregate ws cols w = (Ok tt, w')
    /\ option_map cells (find_sheet ALL_DATA (book w')) = Some (hdr :: cons).
Proof.
  intros Hn Hf Hc Hh Hall Hnew.
  destruct (consolidate_found ws [] w Hall) as [cons Hcons].
  unfold aggregate, appended in *.
  rewrite (bindM_ok _ _ w w cons Hcons).
  destruct (str_in ALL_DATA ws) eqn:Ein; cbn [negb].
  - apply str_in_In in Ein. pose proof (Hall _ Ein) as Ha.
    destruct (find_sheet ALL_DATA (book w)) as [s0|] eqn:E0; [|congruence].
    rewrite (bindM_ok _ _ w w s0)
      by (unfold read_book, Sheets.worksheet; rewrite E0; reflexivity).
    rewrite (find_sheet_title _ _ _ E0).
    destruct (write_aggregate_ok ALL_DATA ws cons w s0 s t hdr rest
                E0 Hn Hf Hc Hh) as [w' [Hw Hp]].
    exists w', cons. auto.
  - destruct (Hnew eq_refl) as [E0 Hcols].
    destruct cols as [c|]; [|congruence].
    rewrite (bindM_ok _ _ w w c) by reflexivity.
    set (new := mkWs ALL_DATA 1 c [] 0).
    set (w1 := mkWorld (remote w) (disk w) (book w ++ [new])).
    rewrite (bindM_ok _ _ w w1 ALL_DATA)
      by (unfold on_book, Sheets.add_worksheet; rewrite E0; reflexivity).
    assert (E1 : find_sheet ALL_DATA (book w1) = Some new).
    { unfold w1. cbn [book]. rewrite find_sheet_app, E0. reflexivity. }
    assert (Hf1 : find_sheet t (book w1) = Some s).
    { unfold w1. cbn [book]. rewrite find_sheet_app, Hf. reflexivity. }
    destruct (write_aggregate_ok ALL_DATA (ws ++ [ALL_DATA]) cons w1 new s t
                hdr rest E1 Hn Hf1 Hc Hh) as [w' [Hw Hp]].
    exists w', cons. auto.
Qed.

(** C10: the header row of the aggregate is the first row of the
    worksheet at index 1 of the list made at the start of the run (with
    the new aggregate tab appended when it has just been created).  When
    that worksheet has a first row with a cell in it, the tabs of the list
    are in the spreadsheet and the aggregate tab is there, or can be made,
    the step succeeds and that row is the first row of the aggregate;
    whenever the step succeeds the header is that row; and when the list
    has fewer than two entries, or the worksheet at index 1 has no values,
    the aggregation step raises and publishes nothing. *)
Theorem C10_header_from_index_1 (ws : list pystr) (cols : option nat) (w : World) :
  (forall t s hdr rest,
     nth_error (appended ws) 1 = Some t ->
     find_sheet t (book w) = Some s ->
     cells s = hdr :: rest -> hdr <> [] ->
     (forall x, In x ws -> find_sheet x (book w) <> None) ->
     (str_in ALL_DATA ws = false ->
      find_sheet ALL_DATA (book w) = None /\ cols <> None) ->
     exists w' cons,
       aggregate ws cols w = (Ok tt, w')
       /\ option_map cells (find_sheet ALL_DATA (book w')) = Some (hdr :: cons))
  /\ (forall w', aggregate ws cols w = (Ok tt, w') ->
      exists t s hdr rest cons,
        nth_error (appended ws) 1 = Some t
        /\ find_sheet t (book w) = Some s
        /\ cells s = hdr :: rest
        /\ option_map cells (find_sheet ALL_DATA (book w')) = Some (hdr :: cons))
  /\ (List.length (appended ws) < 2
      \/ (exists t, nth_error (appended ws) 1 = Some t
                    /\ tab_empty t (book w) = true) ->
      exists e w', aggregate ws cols w = (Raise e, w') /\ unpublished w w').
Proof.
  split; [intros t s hdr rest; apply aggregate_ok|].
  destruct (aggregate_cases ws cols w)
    as [[e [w1 [Hr Hu]]]
       | [w1 [t [s [hdr [rest [cons (Hr & _ & Hn & Hf & Hc & Hp)]]]]]]].
  - split.
    + intros w' H. rewrite Hr in H. discriminate.
    + intros _. exists e, w1. auto.
  - split.
    + intros w' H. rewrite Hr in H. injection H as <-.
      exists t, s, hdr, rest, cons. auto.
    + intros [Hlen | [t' [Hn' He]]].
      * assert (nth_error (appended ws) 1 <> None) by congruence.
        apply nth_error_Some in H. lia.
      * rewrite Hn in Hn'. injection Hn' as <-.
        unfold tab_empty in He. rewrite Hf, Hc in He. discriminate.
Qed.

(* ================================================================= *)
(** ** Failures in the loop over the data files *)

Lemma process_files_raise (pads : bool) (ws before : list pystr) (f : pystr)
    (rest : list pystr) (c : option nat) (w w1 w2 : World) (c1 : option nat)
    (e : exn) :
  process_files pads ws before c w = (Ok c1, w1) ->
  process_file pads ws f w1 = (Raise e, w2) ->
  process_files pads ws (before ++ f :: rest) c w = (Raise e, w2).
Proof.
  revert c w. induction before as [|g before IH]; simpl; intros c w Hb Hf.
  - injection Hb as <- <-. apply bindM_raise. assumption.
  - unfold bindM in Hb |- *.
    destruct (process_file pads ws g w) as [[n|e'] w'];
      [apply IH; assumption | discriminate].
Qed.

(** C4, as amended: a failure in the cleaning or the writing of one data
    file is not isolated.  The exception leaves the loop and ends [main]:
    the spreadsheet stays as the earlier files and the failed one left it,
    the files after it are not processed and the aggregation step does not
    run.  A failure of the cleaning, or of the tab-name derivation, leaves
    the world as it was when the file was reached. *)
Theorem C4_failure_ends_run (pads : bool) (bucket : pystr) :
  (forall w s3_objects w0 before f rest c1 w1 w2 e,
     S3Client.list_objects bucket (remote w) = Ok s3_objects ->
     for_each s3_objects (download_step bucket) w = (Ok tt, w0) ->
     listdir (data_dir w0) (disk w0) = Ok (before ++ f :: rest) ->
     process_files pads (Sheets.worksheets (book w)) before None w0 = (Ok c1, w1) ->
     process_file pads (Sheets.worksheets (book w)) f w1 = (Raise e, w2) ->
     main pads bucket w = (Raise e, w2))
  /\ (forall ws f w e,
        clean_dataframe pads (path_join (data_dir w) f) (disk w) = Raise e ->
        process_file pads ws f w = (Raise e, w))
  /\ (forall ws f w rows e,
        clean_dataframe pads (path_join (data_dir w) f) (disk w) = Ok rows ->
        get_sheet_name pads f = Raise e ->
        process_file pads ws f w = (Raise e, w)).
Proof.
  split; [|split].
  - intros w objs w0 before f rest c1 w1 w2 e Hl Hd Hls Hb Hf.
    rewrite main_steps, Hl, Hd, Hls.
    rewrite (process_files_raise pads _ before f rest None w0 w1 w2 c1 e Hb Hf).
    reflexivity.
  - intros ws f w e Hc. unfold process_file. apply bindM_raise.
    unfold read_disk. rewrite Hc. reflexivity.
  - intros ws f w rows e Hc Hg. unfold process_file.
    rewrite (bindM_ok _ _ w w rows) by (unfold read_disk; rewrite Hc; reflexivity).
    apply bindM_raise. unfold lift. rewrite Hg. reflexivity.
Qed.

(* ================================================================= *)
(** ** [S3Client.create_object] *)

(** C9: [create_object] returns [False] for every input and leaves the
    object store as it was: [put_object] is looked up on the context
    manager [get_s3_client] returns, which has no such attribute, and the
    [AttributeError] is caught by the handler of [Exception]. *)
Theorem C9_create_object_false (bucket_name object_name content : pystr) (s : S3) :
  S3Client.put_object S3Client.get_s3_client bucket_name object_name content s
  = (Raise AttributeError, s)
  /\ S3Client.create_object bucket_name object_name content s = (false, s).
Proof. split; reflexivity. Qed.

(** With a client entered through [with], as the other methods do, the
    object is stored. *)
Lemma put_object_on_client (bucket_name object_name content : pystr) (s : S3)
    (client : pyobj) :
  S3Client.enter S3Client.get_s3_client = Ok client ->
  str_in bucket_name (buckets s) = true ->
  exists s',
    S3Client.put_object client bucket_name object_name content s = (Ok tt, s')
    /\ lookup object_name (bucket_objects bucket_name s') = Some (Bytes content).
Proof.
  intros Hc Hb. injection Hc as <-. simpl. rewrite Hb.
  eexists. split; [reflexivity|].
  unfold bucket_objects. simpl.
  assert (Hst : forall (A : Type) k (v : A) m, lookup k (store k v m) = Some v).
  { intros A k v m. induction m as [|[k' v'] m IH]; simpl.
    - rewrite str_eqb_refl. reflexivity.
    - destruct (str_eqb k k') eqn:E; simpl; rewrite ?str_eqb_refl, ?E; auto. }
  rewrite Hst. apply Hst.
Qed.

(* ================================================================= *)
(** ** Where a download lands *)

Lemma until_sep_no_sep (a : pystr) : ~ In SEP a -> until_sep a = (a, []).
Proof.
  induction a as [|c a IH]; cbn [until_sep In]; intros Hn; [reflexivity|].
  assert (Hc : N.eqb c SEP = false) by (apply N.eqb_neq; intros ->; tauto).
  rewrite Hc, IH by tauto. reflexivity.
Qed.

Lemma until_sep_app (a b : pystr) :
  ~ In SEP a -> until_sep (a ++ SEP :: b) = (a, SEP :: b).
Proof.
  induction a as [|c a IH]; cbn [until_sep In app]; intros Hn.
  - rewrite N.eqb_refl. reflexivity.
  - assert (Hc : N.eqb c SEP = false) by (apply N.eqb_neq; intros ->; tauto).
    rewrite Hc, IH by tauto. reflexivity.
Qed.

Lemma drop_seps_length (s : pystr) : List.length (drop_seps s) <= List.length s.
Proof.
  induction s as [|c s IH]; cbn [drop_seps List.length]; [lia|].
  destruct (N.eqb c SEP); cbn [List.length]; lia.
Qed.

Lemma dirname_length (p a b : pystr) :
  until_sep (rev p) = (a, b) -> List.length (dirname p) <= List.length b.
Proof.
  intros H. unfold dirname. rewrite H. cbn [snd].
  destruct (forallb (N.eqb SEP) b); rewrite length_rev;
    [lia | apply drop_seps_length].
Qed.

(** A key with no separator is written in the base directory: the
    directory of its target path is at most as long as the base
    directory. *)
Lemma flat_key_dirname (base k : pystr) :
  ~ In SEP k ->
  List.length (dirname (path_join base k)) <= List.length base.
Proof.
  intros Hk.
  assert (Hr : ~ In SEP (rev k)) by (rewrite <- in_rev; assumption).
  unfold path_join.
  assert (Hs : startswith [SEP] k = false).
  { destruct k as [|c k]; [reflexivity|]. cbn [startswith].
    destruct (N.eqb SEP c) eqn:E; [|reflexivity].
    apply N.eqb_eq in E. subst c. cbn [In] in Hk. tauto. }
  rewrite Hs.
  destruct (rev base) as [|c r] eqn:Eb.
  - unfold dirname. rewrite (until_sep_no_sep _ Hr). cbn. lia.
  - assert (Hlen : List.length base = S (List.length r))
      by (rewrite <- (length_rev base), Eb; reflexivity).
    destruct (N.eqb c SEP) eqn:Ec.
    + apply N.eqb_eq in Ec. subst c.
      assert (Hu : until_sep (rev (base ++ k)) = (rev k, SEP :: r))
        by (rewrite rev_app_distr, Eb; apply until_sep_app; assumption).
      pose proof (dirname_length _ _ _ Hu) as H. cbn [List.length] in H. lia.
    + assert (Hu : until_sep (rev (base ++ SEP :: k)) = (rev k, SEP :: c :: r)).
      { rewrite rev_app_distr. cbn [rev]. rewrite <- app_assoc. cbn [app].
        rewrite Eb. apply until_sep_app; assumption. }
      unfold dirname. rewrite Hu. cbn [snd forallb].
      rewrite (N.eqb_sym SEP c), Ec, andb_false_r. cbn [andb drop_seps].
      rewrite N.eqb_refl, Ec. rewrite length_rev. cbn [List.length]. lia.
Qed.

Lemma data_dir_longer (base : pystr) :
  List.length base < List.length (path_join base (py "data")).
Proof.
  unfold path_join. change (startswith [SEP] (py "data")) with false.
  destruct (rev base) as [|c r] eqn:Eb.
  - apply (f_equal (@List.length N)) in Eb. rewrite length_rev in Eb.
    cbn [List.length] in Eb. rewrite Eb. cbn. lia.
  - destruct (N.eqb c SEP); rewrite length_app; cbn [List.length py]; lia.
Qed.

Lemma flat_key_not_in_data (base k : pystr) :
  ~ In SEP k ->
  str_eqb (dirname (path_join base k)) (path_join base (py "data")) = false.
Proof.
  intros Hk. apply str_eqb_neq. intros E.
  pose proof (flat_key_dirname base k Hk) as H1.
  pose proof (data_dir_longer base) as H2.
  rewrite E in H1. lia.
Qed.

Lemma store_keys {A} (k : pystr) (v : A) (m : list (pystr * A)) :
  map fst (store k v m) = map fst m \/ map fst (store k v m) = map fst m ++ [k].
Proof.
  induction m as [|[k' v'] m IH]; simpl; [right; reflexivity|].
  destruct (str_eqb k k') eqn:E; simpl.
  - apply str_eqb_eq in E. subst k'. left; reflexivity.
  - destruct IH as [-> | ->]; [left | right]; reflexivity.
Qed.

Lemma store_store_keys {A} (k : pystr) (v v' : A) (m : list (pystr * A)) :
  map fst (store k v (store k v' m)) = map fst (store k v' m).
Proof.
  induction m as [|[k' u] m IH]; simpl.
  - rewrite str_eqb_refl. reflexivity.
  - destruct (str_eqb k k') eqn:E; simpl.
    + rewrite str_eqb_refl. reflexivity.
    + rewrite E. simpl. rewrite IH. reflexivity.
Qed.

(** What a download changes on the disk: at most the file at the target
    path. *)
Lemma download_object_disk (bucket key target : pystr) (s : S3) (f : FS) :
  let f' := snd (S3Client.download_object bucket key target s f) in
  cwd f' = cwd f /\ dirs f' = dirs f
  /\ (map fst (files f') = map fst (files f)
      \/ map fst (files f') = map fst (files f) ++ [target]).
Proof.
  unfold S3Client.download_object, open_wb.
  cbn [S3Client.enter S3Client.get_s3_client].
  destruct (str_in target (dirs f)); [cbn; auto|].
  destruct (str_in (dirname target) (dirs f)); [|cbn; auto].
  assert (H0 : map fst (store target (Bytes []) (files f)) = map fst (files f)
               \/ map fst (store target (Bytes []) (files f))
                  = map fst (files f) ++ [target]) by apply store_keys.
  destruct (S3Client.download_fileobj BotoClient bucket key s) as [b|e].
  - cbn [snd write_file cwd dirs files]. rewrite store_store_keys. auto.
  - destruct e; cbn [snd cwd dirs files]; auto.
Qed.

Lemma listdir_same_keys (d target : pystr) (f f' : FS) :
  str_eqb (dirname target) d = false ->
  cwd f' = cwd f -> dirs f' = dirs f ->
  map fst (files f') = map fst (files f)
  \/ map fst (files f') = map fst (files f) ++ [target] ->
  listdir d f' = listdir d f.
Proof.
  intros Hd _ Hdirs Hk. unfold listdir. rewrite Hdirs.
  destruct (str_in d (dirs f)); [|reflexivity].
  destruct Hk as [-> | ->]; [reflexivity|].
  rewrite app_assoc, filter_app. cbn [filter]. rewrite Hd. cbn [andb].
  rewrite app_nil_r. reflexivity.
Qed.

(** For every key with no separator in it, whatever the bucket holds: the
    download leaves the listing of the data directory as it was. *)
Lemma download_leaves_data_dir (bucket k : pystr) (w : World) :
  ~ In SEP k ->
  listdir (data_dir (snd (download bucket k w))) (disk (snd (download bucket k w)))
  = listdir (data_dir w) (disk w).
Proof.
  intros Hk.
  pose proof (flat_key_not_in_data (cwd (disk w)) k Hk) as Hd.
  pose proof (download_object_disk bucket k (path_join (cwd (disk w)) k)
                (remote w) (disk w)) as H.
  cbv zeta in H. destruct H as (Hc & Hdirs & Hkeys).
  unfold download, data_dir.
  destruct (S3Client.download_object bucket k (path_join (cwd (disk w)) k)
              (remote w) (disk w)) as [r f'].
  cbn [snd disk] in *. rewrite Hc.
  apply (listdir_same_keys _ (path_join (cwd (disk w)) k)); assumption.
Qed.

(* ================================================================= *)
(** ** What the aggregation step gathers *)

Lemma consolidate_ok (ws : list pystr) (acc cons : list (list pystr)) (w : World) :
  consolidate ws acc w = (Ok cons, w) ->
  cons = acc ++ List.concat (map (fun t => tl (tab_values t (book w)))
                          (filter (fun t => negb (str_in t [ALL_DATA; SUMMARY])) ws)).
Proof.
  revert acc; induction ws as [|t ws IH]; intros acc; cbn [consolidate filter].
  - unfold ret. intros H; injection H as <-. cbn. rewrite app_nil_r. reflexivity.
  - destruct (negb (str_in t [ALL_DATA; SUMMARY])); [|apply IH].
    unfold bindM, read_book, Sheets.get_all_values, tab_values.
    cbn [map List.concat].
    destruct (find_sheet t (book w)) as [s|]; [|discriminate].
    intros H. rewrite (IH _ H), <- app_assoc.
    destruct (cells s); reflexivity.
Qed.

Lemma length_concat_tl (b : Spreadsheet) (ts : list pystr) :
  List.length (List.concat (map (fun t => tl (tab_values t b)) ts))
  = list_sum (map (fun t => tab_data_rows t b) ts).
Proof.
  induction ts as [|t ts IH]; [reflexivity|].
  cbn [map List.concat list_sum]. rewrite length_app, IH.
  assert (H : List.length (tl (tab_values t b)) = tab_data_rows t b).
  { unfold tab_values, tab_data_rows, data_rows.
    destruct (find_sheet t b) as [s|]; [|reflexivity].
    destruct (cells s); cbn [tl List.length]; lia. }
  rewrite H. reflexivity.
Qed.

(** When the aggregation step succeeds, the aggregate holds as many data
    rows as the tabs of the list made at the start of the run hold (the
    aggregate and the summary left out), read when the step runs. *)
Lemma aggregate_counts_start_list (ws : list pystr) (cols : option nat)
    (w w' : World) :
  aggregate ws cols w = (Ok tt, w') ->
  tab_data_rows ALL_DATA (book w')
  = list_sum (map (fun t => tab_data_rows t (book w))
                (filter (fun t => negb (str_in t [ALL_DATA; SUMMARY])) ws)).
Proof.
  intros Ha.
  destruct (aggregate_cases ws cols w)
    as [[e [w1 [Hr _]]]
       | [w1 [t [s [hdr [rest [cons (Hr & Hcons & _ & _ & _ & Hp)]]]]]]];
    rewrite Hr in Ha; [discriminate|]. injection Ha as <-.
  unfold tab_data_rows at 1, data_rows.
  destruct (find_sheet ALL_DATA (book w1)) as [a|]; [|discriminate].
  cbn [option_map] in Hp. injection Hp as ->.
  rewrite (consolidate_ok _ _ _ _ Hcons). cbn [app List.length].
  rewrite length_concat_tl. lia.
Qed.

(* ================================================================= *)
(** ** The properties at the sample data *)

Import Sample.

(** C1 fails as stated: the cleaner keeps a row whose YearCar is the text
    "99", and the year of the canonical row is that text, two characters
    long. *)
Lemma C1_year_of_two_characters :
  exists r,
    clean_dataframe false (path_join data jan) short_year_disk = Ok [r]
    /\ year_ r = Val (py "99")
    /\ List.length (py_str (year_ r)) <> 4.
Proof.
  eexists. split; [vm_compute; reflexivity|].
  split; [reflexivity | vm_compute; discriminate].
Qed.

Lemma C1_canonical_rows_witness :
  clean_dataframe false (path_join data jan) two_years_disk
  = Ok [jan_row; short_year_row]
  /\ In jan_row [jan_row; short_year_row]
  /\ nonempty (vin jan_row) = true
  /\ status jan_row <> Val ARCHIVE
  /\ model jan_row <> Val BATMOBILE.
Proof.
  assert (Hc : clean_dataframe false (path_join data jan) two_years_disk
               = Ok [jan_row; short_year_row]) by (vm_compute; reflexivity).
  assert (Hi : In jan_row [jan_row; short_year_row]) by (simpl; auto).
  pose proof (C1_canonical_rows false _ _ _ _ Hc Hi) as H.
  split; [exact Hc|]. split; [exact Hi|].
  split; [exact (proj1 H)|].
  split; [exact (proj1 (proj2 (proj2 (proj2 (proj2 (proj2 H))))))|].
  exact (proj1 (proj2 (proj2 (proj2 (proj2 (proj2 (proj2 (proj2 (proj2 H))))))))).
Defined.



(** C2 fails as stated: the name export_202401010300.csv has the day
    digits "01" and the data directory is empty, yet the name is not
    selected and nothing is downloaded, because it does not contain
    "cars". *)
Lemma C2_export_file_not_selected :
  listdir (data_dir export_in_bucket) (disk export_in_bucket) = Ok []
  /\ is_file_name_on_1st export = Ok true
  /\ selected export export_in_bucket = (Ok false, export_in_bucket)
  /\ fst (main false bucket export_in_bucket) = Ok tt
  /\ files (disk (snd (main false bucket export_in_bucket))) = [].
Proof. repeat split; vm_compute; reflexivity. Qed.

Lemma C2_selection_witness :
  ~ In (chr "_") (py "cars")
  /\ forallb is_digit (py "20240101030000") = true
  /\ listdir (data_dir month_in_bucket) (disk month_in_bucket) = Ok []
  /\ selected jan month_in_bucket = (Ok true, month_in_bucket).
Proof.
  assert (Hp : ~ In (chr "_") (py "cars"))
    by (simpl; intros H; repeat destruct H as [H|H]; try discriminate H; exact H).
  assert (Hd : forallb is_digit (py "20240101030000") = true) by reflexivity.
  assert (Hl : listdir (data_dir month_in_bucket) (disk month_in_bucket) = Ok [])
    by reflexivity.
  split; [exact Hp|]. split; [exact Hd|]. split; [exact Hl|].
  exact (proj1 (C2_selection bucket (py "cars") (py "20240101030000") (py "csv")
                  month_in_bucket [] Hp eq_refl Hd Hl)).
Defined.

(** C5 fails as stated: the key cars.csv has no date segment, and the
    selection step raises [IndexError] on it, which ends the run before
    the next key is looked at. *)
Lemma C5_key_without_underscore_raises :
  download_step bucket (py "cars.csv") odd_key_in_bucket
  = (Raise IndexError, odd_key_in_bucket)
  /\ main false bucket odd_key_in_bucket = (Raise IndexError, odd_key_in_bucket).
Proof. split; vm_compute; reflexivity. Qed.

Lemma C5_malformed_keys_witness :
  contains (py "cars") (py "cars.csv") = true
  /\ ~ In (chr "_") (py "cars.csv")
  /\ download_step bucket (py "cars.csv") odd_key_in_bucket
     = (Raise IndexError, odd_key_in_bucket).
Proof.
  assert (Hn : ~ In (chr "_") (py "cars.csv"))
    by (simpl; intros H; repeat destruct H as [H|H]; try discriminate H; exact H).
  split; [reflexivity|]. split; [exact Hn|].
  exact (proj1 (proj2 (C5_malformed_keys false bucket))
           (py "cars.csv") odd_key_in_bucket eq_refl Hn).
Defined.

(** C4 fails as stated: the first data file cannot be cleaned, and the
    run ends with its [ValueError]; the second file, which is processed
    without error when it is reached, is never reached: its tab does not
    exist after the run. *)
Lemma C4_next_file_not_processed :
  listdir (data_dir bad_then_good) (disk bad_then_good) = Ok [jan; feb]
  /\ fst (main false bucket bad_then_good) = Raise ValueError
  /\ find_sheet (py "2024-02-01") (book (snd (main false bucket bad_then_good)))
     = None
  /\ fst (process_file false (Sheets.worksheets (book bad_then_good)) feb
            bad_then_good) = Ok 8.
Proof. repeat split; vm_compute; reflexivity. Qed.

Lemma C4_failure_ends_run_witness :
  process_file false (Sheets.worksheets (book bad_then_good)) jan bad_then_good
  = (Raise ValueError, bad_then_good)
  /\ main false bucket bad_then_good = (Raise ValueError, bad_then_good).
Proof.
  assert (Hf : process_file false (Sheets.worksheets (book bad_then_good)) jan
                 bad_then_good = (Raise ValueError, bad_then_good))
    by (vm_compute; reflexivity).
  split; [exact Hf|].
  exact (proj1 (C4_failure_ends_run false bucket)
           bad_then_good [] bad_then_good [] jan [feb] None bad_then_good
           bad_then_good ValueError eq_refl eq_refl eq_refl eq_refl Hf).
Defined.

(** C8 fails as stated: the eight digits 09990101 are a calendar date,
    and where the C library does not pad the year (glibc) the tab name is
    "999-01-01", which is not of the form YYYY-MM-DD. *)
Lemma C8_year_below_1000 :
  valid_datetime (ymd (py "09990101")) = true
  /\ get_sheet_name false (py "cars_09990101030000.csv") = Ok (py "999-01-01").
Proof. split; vm_compute; reflexivity. Qed.

Lemma C8_sheet_name_witness :
  ~ In (chr "_") (py "export")
  /\ valid_datetime (ymd (py "20240101")) = true
  /\ get_sheet_name false (py "export_202401010300.csv") = Ok (py "2024-01-01").
Proof.
  assert (Hp : ~ In (chr "_") (py "export"))
    by (simpl; intros H; repeat destruct H as [H|H]; try discriminate H; exact H).
  assert (Hy : (1000 <= year (ymd (py "20240101")))%Z) by (vm_compute; discriminate).
  split; [exact Hp|]. split; [reflexivity|].
  exact (proj1 (C8_sheet_name false (py "export") (py "20240101") (py "0300.csv")
                  Hp eq_refl eq_refl) eq_refl Hy).
Defined.

Lemma C10_header_from_index_1_witness :
  nth_error (appended (Sheets.worksheets (book month_on_disk))) 1
  = Some (py "2023-12-01")
  /\ find_sheet (py "2023-12-01") (book january_written) = Some dec_tab
  /\ exists w' cons,
       aggregate (Sheets.worksheets (book month_on_disk)) (Some 8)
         january_written = (Ok tt, w')
       /\ option_map cells (find_sheet ALL_DATA (book w'))
          = Some (columns :: cons).
Proof.
  assert (Hall : forall x, In x (Sheets.worksheets (book month_on_disk)) ->
                   find_sheet x (book january_written) <> None).
  { intros x [<- | [<- | []]]; discriminate. }
  assert (Hnew : str_in ALL_DATA (Sheets.worksheets (book month_on_disk)) = false ->
                 find_sheet ALL_DATA (book january_written) = None
                 /\ Some 8 <> None)
    by (intros _; split; [reflexivity | discriminate]).
  assert (Hh : columns <> []) by discriminate.
  split; [reflexivity|]. split; [reflexivity|].
  exact (proj1 (C10_header_from_index_1
                  (Sheets.worksheets (book month_on_disk)) (Some 8)
                  january_written)
           (py "2023-12-01") dec_tab columns (tl (cells dec_tab))
           eq_refl eq_refl eq_refl Hh Hall Hnew).
Defined.

(** C3 does not hold of the code.  The aggregate gets the data rows of
    the tabs of the list of worksheets made at the start of the run, not
    of the tabs the spreadsheet has when the aggregation runs.  At the
    sample input the data directory holds one file of the 1st of January
    and the spreadsheet has the summary tab and the tab of December with
    two data rows: the run creates the tab of January with one data row,
    and the aggregate gets the two rows of December, while the tabs of the
    spreadsheet other than the aggregate and the summary hold three. *)
Theorem C3_new_tab_not_aggregated :
  (forall ws cols w w',
     aggregate ws cols w = (Ok tt, w') ->
     tab_data_rows ALL_DATA (book w')
     = list_sum (map (fun t => tab_data_rows t (book w))
                   (filter (fun t => negb (str_in t [ALL_DATA; SUMMARY])) ws)))
  /\ fst (main false bucket month_on_disk) = Ok tt
  /\ map title (book (snd (main false bucket month_on_disk)))
     = [SUMMARY; py "2023-12-01"; py "2024-01-01"; ALL_DATA]
  /\ tab_data_rows (py "2024-01-01") (book (snd (main false bucket month_on_disk))) = 1
  /\ tab_data_rows ALL_DATA (book (snd (main false bucket month_on_disk))) = 2
  /\ source_data_rows (book (snd (main false bucket month_on_disk))) = 3.
Proof.
  split; [exact aggregate_counts_start_list|].
  repeat split; vm_compute; reflexivity.
Qed.

Lemma C3_new_tab_not_aggregated_witness :
  aggregate (Sheets.worksheets (book month_on_disk)) (Some 8) january_written
  = (Ok tt, snd (main false bucket month_on_disk))
  /\ tab_data_rows ALL_DATA (book (snd (main false bucket month_on_disk)))
     = list_sum (map (fun t => tab_data_rows t (book january_written))
                   (filter (fun t => negb (str_in t [ALL_DATA; SUMMARY]))
                      (Sheets.worksheets (book month_on_disk)))).
Proof.
  assert (Ha : aggregate (Sheets.worksheets (book month_on_disk)) (Some 8)
                 january_written
               = (Ok tt, snd (main false bucket month_on_disk)))
    by (vm_compute; reflexivity).
  split; [exact Ha|].
  exact (proj1 C3_new_tab_not_aggregated _ _ _ _ Ha).
Defined.

(** C6 does not hold of the code.  A key with no separator in it is
    written under the base directory, and the listing of the data
    directory, which the selection and the cleaning read, stays as it was.
    At the sample input the bucket holds a file of the 1st of January and
    the data directory is empty: the file is selected and written under
    the base directory; after the run the data directory is still empty,
    no tab was made for the file, and the file is selected again. *)
Theorem C6_download_outside_data_dir :
  (forall bucket_name k w,
     ~ In SEP k ->
     listdir (data_dir (snd (download bucket_name k w)))
       (disk (snd (download bucket_name k w)))
     = listdir (data_dir w) (disk w))
  /\ selected jan month_in_bucket = (Ok true, month_in_bucket)
  /\ fst (main false bucket month_in_bucket) = Ok tt
  /\ files (disk (snd (main false bucket month_in_bucket)))
     = [(path_join base jan, Table [car1])]
  /\ listdir data (disk (snd (main false bucket month_in_bucket))) = Ok []
  /\ find_sheet (py "2024-01-01") (book (snd (main false bucket month_in_bucket)))
     = None
  /\ fst (selected jan (snd (main false bucket month_in_bucket))) = Ok true.
Proof.
  split; [exact download_leaves_data_dir|].
  repeat split; vm_compute; reflexivity.
Qed.

Lemma C6_download_outside_data_dir_witness :
  ~ In SEP jan
  /\ listdir (data_dir (snd (download bucket jan month_in_bucket)))
       (disk (snd (download bucket jan month_in_bucket)))
     = listdir (data_dir month_in_bucket) (disk month_in_bucket).
Proof.
  assert (Hk : ~ In SEP jan).
  { intros H. apply (In_nth_error jan SEP) in H. destruct H as [n H].
    do 24 (destruct n as [|n]; [discriminate H|]). destruct n; discriminate H. }
  split; [exact Hk|].
  exact (proj1 C6_download_outside_data_dir bucket jan month_in_bucket Hk).
Defined.

(* ================================================================= *)
(** ** The object store: the other methods of [S3Client] *)

Lemma lookup_store_same {A} (k : pystr) (v : A) (m : list (pystr * A)) :
  lookup k (store k v m) = Some v.
Proof.
  induction m as [|[k' v'] m IH]; simpl.
  - rewrite str_eqb_refl. reflexivity.
  - destruct (str_eqb k k') eqn:E; simpl; [rewrite str_eqb_refl | rewrite E]; auto.
Qed.

Lemma lookup_store_other {A} (k k' : pystr) (v : A) (m : list (pystr * A)) :
  k' <> k -> lookup k' (store k v m) = lookup k' m.
Proof.
  intros Hn. apply str_eqb_neq in Hn.
  induction m as [|[k0 v0] m IH]; simpl.
  - rewrite Hn. reflexivity.
  - destruct (str_eqb k k0) eqn:E; simpl.
    + apply str_eqb_eq in E. subst k0. rewrite Hn. reflexivity.
    + destruct (str_eqb k' k0); auto.
Qed.




(** Writing the objects [os] of the bucket [b] changes the object at
    [(b, k)] only, when [os] differs from the former objects at [k]
    only. *)
Lemma object_at_put (b k : pystr) (os : list (pystr * blob)) (s : S3) :
  (forall k', k' <> k -> lookup k' os = lookup k' (bucket_objects b s)) ->
  object_at b k (mkS3 (buckets s) (store b os (objects s))) = lookup k os
  /\ same_but_at b k s (mkS3 (buckets s) (store b os (objects s))).
Proof.
  intros Hos. unfold object_at, same_but_at, bucket_objects. cbn [objects buckets].
  rewrite lookup_store_same. split; [reflexivity|]. split; [reflexivity|].
  intros b' k' Hd. unfold object_at, bucket_objects. cbn [objects].
  destruct (str_eqb b' b) eqn:Eb.
  - apply str_eqb_eq in Eb. subst b'. rewrite lookup_store_same.
    destruct Hd as [Hd | Hd]; [congruence|].
    rewrite (Hos k' Hd). unfold bucket_objects. reflexivity.
  - apply str_eqb_neq in Eb. rewrite (lookup_store_other _ _ _ _ Eb). reflexivity.
Qed.

(** [upload_file] never raises.  It returns [False], and stores nothing,
    when the local file cannot be opened or the bucket does not exist;
    otherwise it returns [True] and the bucket holds what the file holds
    under the name made of the prefix and the last component of the path,
    every other object being as before. *)
Theorem upload_file_spec (bucket_name file_path prefix : pystr) (s : S3) (f : FS) :
  (forall e, open_rb file_path f = Raise e ->
     S3Client.upload_file bucket_name file_path prefix s f = (false, s))
  /\ (str_in bucket_name (buckets s) = false ->
      S3Client.upload_file bucket_name file_path prefix s f = (false, s))
  /\ (forall body, open_rb file_path f = Ok body ->
        str_in bucket_name (buckets s) = true ->
        exists s',
          S3Client.upload_file bucket_name file_path prefix s f = (true, s')
          /\ object_at bucket_name (prefix ++ basename file_path) s' = Some body
          /\ same_but_at bucket_name (prefix ++ basename file_path) s s').
Proof.
  assert (Hname : match prefix with
                  | [] => basename file_path
                  | _ :: _ => prefix ++ basename file_path
                  end = prefix ++ basename file_path)
    by (destruct prefix; reflexivity).
  unfold S3Client.upload_file. rewrite Hname.
  cbn [S3Client.enter S3Client.get_s3_client S3Client.upload_fileobj].
  split; [|split].
  - intros e He. rewrite He. reflexivity.
  - intros Hb. destruct (open_rb file_path f); [|reflexivity].
    rewrite Hb. reflexivity.
  - intros body Ho Hb. rewrite Ho, Hb. eexists. split; [reflexivity|].
    destruct (object_at_put bucket_name (prefix ++ basename file_path)
                (store (prefix ++ basename file_path) body
                   (bucket_objects bucket_name s)) s) as [H1 H2].
    + intros k' Hk. apply lookup_store_other. assumption.
    + rewrite H1, lookup_store_same. auto.
Qed.

(** What [download_object] does to the disk when the target can be
    opened: the target is the only file that changes. *)
Lemma lookup_write_other (target p : pystr) (b : blob) (f : FS) :
  p <> target -> lookup p (files (write_file target b f)) = lookup p (files f).
Proof. intros H. unfold write_file. cbn [files]. apply lookup_store_other, H. Qed.


(** [download_object] catches [ClientError] only, and the target is
    opened before the object is asked for: whatever the bucket holds, a
    target that is a directory raises [IsADirectoryError], a target below
    a regular file raises [NotADirectoryError], and a target whose
    directory is not there raises [FileNotFoundError], instead of
    returning [False]; the disk is unchanged. *)
Theorem download_object_bad_target (bucket_name object_key target_path : pystr)
    (s : S3) (f : FS) :
  normalised target_path = true ->
  (str_in target_path (dirs f) = true ->
   S3Client.download_object bucket_name object_key target_path s f
   = (Raise IsADirectoryError, f))
  /\ (str_in target_path (dirs f) = false ->
      str_in (dirname target_path) (dirs f) = false ->
      below_file target_path f = true ->
      S3Client.download_object bucket_name object_key target_path s f
      = (Raise NotADirectoryError, f))
  /\ (str_in target_path (dirs f) = false ->
      str_in (dirname target_path) (dirs f) = false ->
      below_file target_path f = false ->
      S3Client.download_object bucket_name object_key target_path s f
      = (Raise FileNotFoundError, f)).
Proof.
  intros _. unfold S3Client.download_object, open_wb, unreachable.
  cbn [S3Client.enter S3Client.get_s3_client].
  split; [|split].
  - intros Ht. rewrite Ht. reflexivity.
  - intros Ht Hd Hb. rewrite Ht, Hd, Hb. reflexivity.
  - intros Ht Hd Hb. rewrite Ht, Hd, Hb. reflexivity.
Qed.

(** A successful [upload_file] has read the file and stored what it
    holds. *)
Lemma upload_file_true (bucket_name file_path prefix : pystr) (s s' : S3) (f : FS) :
  S3Client.upload_file bucket_name file_path prefix s f = (true, s') ->
  exists body,
    open_rb file_path f = Ok body
    /\ object_at bucket_name (prefix ++ basename file_path) s' = Some body.
Proof.
  assert (Hname : match prefix with
                  | [] => basename file_path
                  | _ :: _ => prefix ++ basename file_path
                  end = prefix ++ basename file_path)
    by (destruct prefix; reflexivity).
  unfold S3Client.upload_file. rewrite Hname.
  cbn [S3Client.enter S3Client.get_s3_client S3Client.upload_fileobj].
  destruct (open_rb file_path f) as [body|e]; [|discriminate].
  destruct (str_in bucket_name (buckets s)) eqn:Hb; [|discriminate].
  intros H; injection H as <-. exists body. split; [reflexivity|].
  destruct (object_at_put bucket_name (prefix ++ basename file_path)
              (store (prefix ++ basename file_path) body
                 (bucket_objects bucket_name s)) s) as [H1 _].
  - intros k' Hk. apply lookup_store_other. assumption.
  - rewrite H1. apply lookup_store_same.
Qed.

(** Round trip: what [upload_file] has stored, [download_object] writes
    back under the object's name: the target file then holds what the
    uploaded file holds. *)
Theorem upload_download_round_trip (bucket_name file_path prefix target_path : pystr)
    (s s' : S3) (f : FS) :
  S3Client.upload_file bucket_name file_path prefix s f = (true, s') ->
  str_in target_path (dirs f) = false ->
  str_in (dirname target_path) (dirs f) = true ->
  exists f',
    S3Client.download_object bucket_name (prefix ++ basename file_path)
      target_path s' f = (Ok true, f')
    /\ open_rb target_path f' = open_rb file_path f
    /\ forall p, p <> target_path -> lookup p (files f') = lookup p (files f).
Proof.
  intros Hu Ht Hd.
  destruct (upload_file_true _ _ _ _ _ _ Hu) as [body [Ho Hob]].
  rewrite Ho.
  unfold S3Client.download_object, open_wb.
  cbn [S3Client.enter S3Client.get_s3_client S3Client.download_fileobj].
  rewrite Ht, Hd. unfold object_at in Hob. rewrite Hob.
  eexists. split; [reflexivity|]. split.
  - unfold open_rb, write_file. cbn [dirs files]. rewrite Ht, lookup_store_same.
    reflexivity.
  - intros p Hp. unfold write_file. cbn [files].
    rewrite !lookup_store_other by assumption. reflexivity.
Qed.










Lemma In_firstn_In {A} (n : nat) (x : A) (l : list A) :
  In x (firstn n l) -> In x l.
Proof.
  intros H. rewrite <- (firstn_skipn n l). apply in_or_app. left. exact H.
Qed.





(** [copy_object] catches [ClientError] only.  For a destination
    bucket name botocore accepts and a destination key that is not empty:
    when the source object and the destination bucket exist and the
    destination is another object than the source, it returns [True] and
    the destination holds what the source holds, every other object being
    as before; the copy of an object onto itself is refused and returns
    [False]; so does a source object or a destination bucket that is not
    there; nothing changes then.  A destination botocore refuses raises
    [ParamValidationError], which leaves the method. *)
Theorem copy_object_spec (source_bucket_name dest_bucket_name
    source_object_name dest_object_name : pystr) (s : S3) :
  (valid_bucket_name dest_bucket_name = true -> dest_object_name <> [] ->
   (forall body,
      object_at source_bucket_name source_object_name s = Some body ->
      str_in dest_bucket_name (buckets s) = true ->
      source_bucket_name <> dest_bucket_name
      \/ source_object_name <> dest_object_name ->
      exists s',
        S3Client.copy_object source_bucket_name dest_bucket_name
          source_object_name dest_object_name s = (Ok true, s')
        /\ object_at dest_bucket_name dest_object_name s' = Some body
        /\ same_but_at dest_bucket_name dest_object_name s s')
   /\ (source_bucket_name = dest_bucket_name ->
       source_object_name = dest_object_name ->
       S3Client.copy_object source_bucket_name dest_bucket_name
         source_object_name dest_object_name s = (Ok false, s))
   /\ (object_at source_bucket_name source_object_name s = None
       \/ str_in dest_bucket_name (buckets s) = false ->
       S3Client.copy_object source_bucket_name dest_bucket_name
         source_object_name dest_object_name s = (Ok false, s)))
  /\ ((valid_bucket_name dest_bucket_name = false
       /\ startswith (py "arn:") dest_bucket_name = false)
      \/ dest_object_name = [] ->
      S3Client.copy_object source_bucket_name dest_bucket_name
        source_object_name dest_object_name s = (Raise ParamValidationError, s)).
Proof.
  unfold S3Client.copy_object, S3Client.client_copy_object, object_at.
  cbn [S3Client.enter S3Client.get_s3_client fst snd].
  split.
  - intros Hv Hk. rewrite Hv.
    assert (Hk' : str_eqb dest_object_name [] = false)
      by (apply str_eqb_neq; exact Hk).
    rewrite Hk'. cbn [negb orb].
    split; [|split].
    + intros body Ho Hb Hne. rewrite Ho, Hb.
      assert (Hd : str_eqb source_bucket_name dest_bucket_name
                   && str_eqb source_object_name dest_object_name = false).
      { apply andb_false_iff.
        destruct Hne as [Hne | Hne]; [left | right]; apply str_eqb_neq; exact Hne. }
      rewrite Hd. cbn [negb andb]. eexists. split; [reflexivity|].
      destruct (object_at_put dest_bucket_name dest_object_name
                  (store dest_object_name body (bucket_objects dest_bucket_name s)) s)
        as [H1 H2].
      * intros k' Hk2. apply lookup_store_other. assumption.
      * unfold object_at in H1. rewrite H1, lookup_store_same. auto.
    + intros -> ->. rewrite !str_eqb_refl. cbn [negb andb].
      rewrite andb_false_r.
      destruct (lookup dest_object_name (bucket_objects dest_bucket_name s));
        reflexivity.
    + intros [Ho | Hb].
      * rewrite Ho. reflexivity.
      * destruct (lookup source_object_name (bucket_objects source_bucket_name s));
          [rewrite Hb|]; reflexivity.
  - intros [[Hv _] | ->].
    + rewrite Hv. reflexivity.
    + rewrite orb_true_r. reflexivity.
Qed.

(** [create_presigned_url] returns [None] for every input: it asks the
    context manager [get_s3_client] returns, not a client, for
    [generate_presigned_url], and the [AttributeError] is caught; a client
    entered through [with] would have signed the URL. *)
Theorem create_presigned_url_none (sign : pystr -> pystr -> Z -> pystr)
    (bucket_name object_name : pystr) (expiration_seconds : Z) :
  S3Client.create_presigned_url sign bucket_name object_name expiration_seconds
  = None
  /\ S3Client.enter S3Client.get_s3_client = Ok BotoClient
  /\ S3Client.generate_presigned_url sign BotoClient bucket_name object_name
       expiration_seconds
     = Ok (sign bucket_name object_name expiration_seconds).
Proof. repeat split. Qed.

(* ================================================================= *)
(** ** [strptime] on a text of digits, two for each field *)

Lemma first_some_some {A B} (f : A -> option B) (xs : list A) (b : B) :
  first_some f xs = Some b -> exists x, In x xs /\ f x = Some b.
Proof.
  induction xs as [|x xs IH]; simpl; [discriminate|].
  destruct (f x) as [b'|] eqn:E.
  - intros H; injection H as <-. eauto.
  - intros H. destruct (IH H) as [y [Hy Hf]]. eauto.
Qed.

Lemma match_alt_length (a : list (N -> bool)) (s g r : pystr) :
  match_alt a s = Some (g, r) ->
  List.length s = List.length a + List.length r /\ s = g ++ r
  /\ List.length g = List.length a.
Proof.
  revert s g r; induction a as [|p a IH]; intros s g r; simpl.
  - intros H; injection H as <- <-. auto.
  - destruct s as [|c s]; [discriminate|].
    destruct (p c); [|discriminate].
    destruct (match_alt a s) as [[g' r']|] eqn:E; [|discriminate].
    intros H; injection H as <- <-.
    destruct (IH _ _ _ E) as (H1 & H2 & H3). simpl. subst s. auto.
Qed.

Lemma alt_length (d : directive) (a : list (N -> bool)) :
  d <> dY -> In a (directive_regex d) -> 1 <= List.length a <= 2.
Proof.
  intros Hd Ha. destruct d; try congruence; simpl in Ha;
    repeat (destruct Ha as [<- | Ha]; [simpl; lia|]); destruct Ha.
Qed.

(** A match leaves at least what two characters for each directive
    leave. *)
Lemma re_match_length (fmt : list directive) (s : pystr) (gs : list pystr)
    (r : pystr) :
  no_year fmt -> re_match fmt s = Some (gs, r) ->
  List.length s <= List.length r + 2 * List.length fmt.
Proof.
  revert s gs r; induction fmt as [|d fmt IH]; intros s gs r Hn; simpl.
  - intros H; injection H as _ <-. lia.
  - intros H. apply first_some_some in H. destruct H as [a [Ha H]].
    destruct (match_alt a s) as [[g r1]|] eqn:Em; [|discriminate].
    destruct (re_match fmt r1) as [[gs' r']|] eqn:Er; [|discriminate].
    injection H as _ <-.
    assert (Hd : d <> dY) by (intros ->; apply Hn; simpl; auto).
    pose proof (alt_length d a Hd Ha) as Hal.
    destruct (match_alt_length _ _ _ _ Em) as (Hl & _ & _).
    assert (Hny : no_year fmt) by (intros Hin; apply Hn; simpl; auto).
    pose proof (IH _ _ _ Hny Er) as Hr. lia.
Qed.

Lemma check_two_all :
  forallb (fun d => forallb (fun a => forallb (fun b => check_two d a b)
    digits) digits) [dm; dd; dH; dM; dS] = true.
Proof. vm_compute. reflexivity. Qed.

Lemma in_five (d : directive) : d <> dY -> In d [dm; dd; dH; dM; dS].
Proof. destruct d; simpl; intuition congruence. Qed.

Lemma two_alt_ok (d : directive) (a b : N) (alt : list (N -> bool)) (s g r : pystr) :
  d <> dY -> is_digit a = true -> is_digit b = true ->
  In alt (directive_regex d) -> List.length alt = 2 ->
  match_alt alt (a :: b :: s) = Some (g, r) ->
  two_ok d a b = true /\ g = [a; b] /\ r = s.
Proof.
  intros Hd Ha Hb Hin Hl Hm.
  destruct alt as [|p [|q [|x alt]]]; try discriminate Hl.
  simpl in Hm.
  destruct (p a) eqn:Ep; [|discriminate]. destruct (q b) eqn:Eq; [|discriminate].
  injection Hm as <- <-.
  pose proof check_two_all as H.
  rewrite forallb_forall in H. specialize (H d (in_five d Hd)).
  rewrite forallb_forall in H. specialize (H a (is_digit_In _ Ha)).
  rewrite forallb_forall in H. specialize (H b (is_digit_In _ Hb)).
  unfold check_two in H. rewrite forallb_forall in H. specialize (H _ Hin).
  simpl in H. rewrite Ep, Eq in H. simpl in H. auto.
Qed.

(** The alternatives are tried in order: on two digits in the range of
    the directive, the one that matches first takes both. *)
Lemma re_match_two (d : directive) (fmt : list directive) (a b : N)
    (s : pystr) (gs : list pystr) (r : pystr) :
  is_digit a = true -> is_digit b = true -> two_ok d a b = true ->
  re_match fmt s = Some (gs, r) ->
  re_match (d :: fmt) (a :: b :: s) = Some ([a; b] :: gs, r).
Proof.
  intros Ha Hb Hok Hk.
  apply is_digit_In in Ha. apply is_digit_In in Hb.
  destruct d; try discriminate Hok;
    unfold digits in Ha, Hb; simpl in Ha, Hb;
    repeat (destruct Ha as [<- | Ha]; [|]); try (destruct Ha);
    repeat (destruct Hb as [<- | Hb]; [|]); try (destruct Hb);
    try discriminate Hok;
    simpl; rewrite ?Hk; reflexivity.
Qed.

(** On digits, two for each directive: the whole text is matched exactly
    when every pair is in the range of its directive, and the groups are
    then the pairs. *)
Lemma re_match_pairs (fmt : list directive) (s : pystr) :
  no_year fmt -> forallb is_digit s = true ->
  List.length s = 2 * List.length fmt ->
  (all_ok fmt s = true -> re_match fmt s = Some (pairs s, []))
  /\ (forall gs, re_match fmt s = Some (gs, []) -> all_ok fmt s = true).
Proof.
  revert s; induction fmt as [|d fmt IH]; intros s Hn Hd Hl.
  - destruct s; [|discriminate Hl]. split; reflexivity.
  - destruct s as [|a [|b s]]; try (simpl in Hl; lia).
    assert (Hny : no_year fmt) by (intros Hin; apply Hn; simpl; auto).
    assert (Hdy : d <> dY) by (intros ->; apply Hn; simpl; auto).
    simpl in Hd. repeat rewrite andb_true_iff in Hd. destruct Hd as (Ha & Hb & Hs).
    assert (Hls : List.length s = 2 * List.length fmt) by (simpl in Hl; lia).
    destruct (IH s Hny Hs Hls) as [IH1 IH2].
    cbn [all_ok pairs]. split.
    + intros Hok. apply andb_true_iff in Hok. destruct Hok as [H2 Hrest].
      apply re_match_two; auto.
    + intros gs H. simpl in H. apply first_some_some in H.
      destruct H as [alt [Hin H]].
      destruct (match_alt alt (a :: b :: s)) as [[g r1]|] eqn:Em; [|discriminate].
      destruct (re_match fmt r1) as [[gs' r']|] eqn:Er; [|discriminate].
      injection H as _ ->.
      pose proof (alt_length d alt Hdy Hin) as Hal.
      destruct (match_alt_length _ _ _ _ Em) as (Hlen & _ & _).
      pose proof (re_match_length _ _ _ _ Hny Er) as Hr.
      simpl in Hlen, Hr.
      assert (Hl2 : List.length alt = 2) by lia.
      destruct (two_alt_ok d a b alt s g r1 Hdy Ha Hb Hin Hl2 Em) as (Hok & _ & ->).
      rewrite Hok. simpl. apply (IH2 gs'). exact Er.
Qed.

Lemma valid_all_ok (y : Z) (ds : pystr) :
  List.length ds = 10 -> forallb is_digit ds = true ->
  valid_datetime (mkdt y (digits_num (slice 0 2 ds)) (digits_num (slice 2 4 ds))
                    (digits_num (slice 4 6 ds)) (digits_num (slice 6 8 ds))
                    (digits_num (slice 8 10 ds))) = true ->
  all_ok [dm; dd; dH; dM; dS] ds = true.
Proof.
  intros Hl Hd.
  destruct ds as [|m1 [|m2 [|d1 [|d2 [|h1 [|h2 [|i1 [|i2 [|s1 [|s2 [|x ds]]]]]]]]]]];
    try discriminate Hl.
  unfold valid_datetime, slice. cbn [firstn skipn Nat.sub year month day hour minute second].
  cbn [all_ok two_ok].
  set (Mo := digits_num [m1; m2]). set (Da := digits_num [d1; d2]).
  set (Ho := digits_num [h1; h2]). set (Mi := digits_num [i1; i2]).
  set (Se := digits_num [s1; s2]).
  rewrite !andb_true_iff, !Z.leb_le.
  pose proof (days_in_month_le y Mo). intuition lia.
Qed.

(** [strptime] with [%Y%m%d%H%M%S] on fourteen digits. *)
Lemma strptime_ymdhms (ds : pystr) :
  List.length ds = 14 -> forallb is_digit ds = true ->
  strptime [dY; dm; dd; dH; dM; dS] ds =
  if valid_datetime (ymdhms ds) then Ok (ymdhms ds) else Raise ValueError.
Proof.
  intros Hl Hd.
  destruct ds as [|y1 [|y2 [|y3 [|y4 rest]]]]; try discriminate Hl.
  assert (Hlr : List.length rest = 10) by (simpl in Hl; lia).
  cbn [forallb] in Hd. repeat rewrite andb_true_iff in Hd.
  destruct Hd as (Hy1 & Hy2 & Hy3 & Hy4 & Hr).
  assert (Hny : no_year [dm; dd; dH; dM; dS])
    by (unfold no_year; simpl; intuition discriminate).
  destruct (re_match_pairs [dm; dd; dH; dM; dS] rest Hny Hr) as [P1 P2];
    [rewrite Hlr; reflexivity|].
  pose proof (valid_all_ok (digits_num [y1; y2; y3; y4]) rest Hlr Hr) as Hv.
  unfold strptime. rewrite re_match_year by assumption.
  assert (Ey : ymdhms (y1 :: y2 :: y3 :: y4 :: rest)
               = mkdt (digits_num [y1; y2; y3; y4]) (digits_num (slice 0 2 rest))
                   (digits_num (slice 2 4 rest)) (digits_num (slice 4 6 rest))
                   (digits_num (slice 6 8 rest)) (digits_num (slice 8 10 rest)))
    by reflexivity.
  rewrite Ey.
  destruct (all_ok [dm; dd; dH; dM; dS] rest) eqn:Eok.
  - rewrite (P1 eq_refl).
    destruct rest as [|m1 [|m2 [|d1 [|d2 [|h1 [|h2 [|i1 [|i2 [|s1 [|s2 [|x r]]]]]]]]]]];
      try discriminate Hlr.
    cbn [forallb] in Hr. repeat rewrite andb_true_iff in Hr.
    destruct Hr as (Hm1 & Hm2 & Hd1 & Hd2 & Hh1 & Hh2 & Hi1 & Hi2 & Hs1 & Hs2 & _).
    pose proof (check4_digits _ _ _ _ Hy1 Hy2 Hy3 Hy4) as C4.
    unfold check4 in C4. repeat rewrite andb_true_iff in C4.
    destruct C4 as ((((Gy & _) & _) & _) & _). apply Z.eqb_eq in Gy.
    assert (G2 : forall a b, is_digit a = true -> is_digit b = true ->
                   group_val [a; b] = digits_num [a; b]).
    { intros a b Ha Hb. pose proof (check2_digits a b Ha Hb) as C.
      unfold check2 in C. repeat rewrite andb_true_iff in C.
      destruct C as (((_ & G) & _) & _). apply Z.eqb_eq in G. exact G. }
    cbn [pairs set_fields set_field year month day hour minute second].
    unfold slice. cbn [firstn skipn Nat.sub].
    rewrite Gy, !G2 by assumption. reflexivity.
  - destruct (valid_datetime _) eqn:V; [discriminate (Hv eq_refl)|].
    destruct (re_match [dm; dd; dH; dM; dS] rest) as [[gs r]|] eqn:Er;
      [|reflexivity].
    destruct r; [|reflexivity].
    discriminate (P2 gs eq_refl).
Qed.

(** The date of a row whose time stamp is a text of fourteen digits
    YYYYMMDDhhmmss: YYYY-MM-DD when the digits are a date and a time of
    day (for a year below 1000, where the C library pads the year);
    [ValueError] when they are not. *)
Theorem clean_timestamp_digits (pads : bool) (ds : pystr) :
  List.length ds = 14 -> forallb is_digit ds = true ->
  (valid_datetime (ymdhms ds) = true ->
   pads = true \/ (1000 <= year (ymdhms ds))%Z ->
   clean_timestamp pads (Val ds) = Ok (Val (dashed (firstn 8 ds))))
  /\ (valid_datetime (ymdhms ds) = false ->
      clean_timestamp pads (Val ds) = Raise ValueError).
Proof.
  intros Hl Hd. unfold clean_timestamp. cbn [py_str].
  rewrite (strptime_ymdhms ds Hl Hd).
  split; intros V; rewrite V; [|reflexivity].
  intros Hp. cbn [bind].
  assert (H8 : List.length (firstn 8 ds) = 8) by (rewrite length_firstn; lia).
  assert (Hd8 : forallb is_digit (firstn 8 ds) = true).
  { rewrite forallb_forall in Hd |- *. intros x Hx. apply Hd.
    apply (In_firstn_In 8). exact Hx. }
  assert (E : strftime_Y_m_d pads (ymdhms ds)
              = strftime_Y_m_d pads (ymd (firstn 8 ds))).
  { destruct ds as [|y1 [|y2 [|y3 [|y4 [|m1 [|m2 [|d1 [|d2 r]]]]]]]];
      try discriminate Hl. reflexivity. }
  rewrite E, (strftime_ymd pads (firstn 8 ds) H8 Hd8); [reflexivity|].
  destruct ds as [|y1 [|y2 [|y3 [|y4 [|m1 [|m2 [|d1 [|d2 r]]]]]]]];
    try discriminate Hl. exact Hp.
Qed.

(* ================================================================= *)
(** ** When the Record Cleaner raises *)

Lemma map_result_image {A B} (f : A -> result B) (xs : list A) (ys : list B)
    (x : A) :
  map_result f xs = Ok ys -> In x xs -> exists y, f x = Ok y /\ In y ys.
Proof.
  revert ys; induction xs as [|a xs IH]; simpl; intros ys H Hx; [destruct Hx|].
  destruct (f a) as [b|e] eqn:Ef; simpl in H; [|discriminate].
  destruct (map_result f xs) as [bs|e] eqn:Em; simpl in H; [|discriminate].
  injection H as <-. destruct Hx as [<- | Hx].
  - exists b. simpl. auto.
  - destruct (IH bs eq_refl Hx) as [y [Hy Hin]]. exists y. simpl. auto.
Qed.

Lemma map_result_raise {A B} (f : A -> result B) (xs : list A) (e : exn) :
  map_result f xs = Raise e -> exists x, In x xs /\ f x = Raise e.
Proof.
  induction xs as [|x xs IH]; simpl; [discriminate|].
  destruct (f x) as [b|e'] eqn:Ef; simpl.
  - destruct (map_result f xs) as [bs|e'] eqn:Em; simpl; [discriminate|].
    intros H; injection H as ->. destruct (IH eq_refl) as [y [Hy Hf]]. eauto.
  - intros H; injection H as ->. eauto.
Qed.

Lemma map_result_all {A B} (f : A -> result B) (xs : list A) :
  (forall x, In x xs -> exists b, f x = Ok b) ->
  exists ys, map_result f xs = Ok ys /\ List.length ys = List.length xs.
Proof.
  induction xs as [|x xs IH]; simpl; intros H; [eauto|].
  destruct (H x (or_introl eq_refl)) as [b Hb]. rewrite Hb. simpl.
  destruct IH as [ys [Hys Hl]]; [intros y Hy; apply H; auto|].
  rewrite Hys. simpl. exists (b :: ys). simpl. auto.
Qed.

Lemma clean_timestamp_raises (pads : bool) (c : cell) (e : exn) :
  clean_timestamp pads c = Raise e -> e = ValueError.
Proof.
  unfold clean_timestamp, strptime.
  destruct (re_match _ (py_str c)) as [[gs [|x r]]|]; simpl;
    try (intros H; injection H as <-; reflexivity).
  destruct (valid_datetime _); simpl; [discriminate|].
  intros H; injection H as <-; reflexivity.
Qed.

Lemma canonical_result (pads : bool) (r : RawRecord) :
  match clean_timestamp pads (timestamp r) with
  | Ok _ => exists c, canonical pads r = Ok c
  | Raise e => canonical pads r = Raise e
  end.
Proof.
  unfold canonical. destruct (clean_timestamp pads (timestamp r)); simpl; eauto.
Qed.

(** The characters [strptime] can match under the directives of the
    job: decimal digits, and the blank the day may start with. *)
Lemma class_stamp_char (d : directive) (alt : list (N -> bool)) (p : N -> bool)
    (c : N) :
  In alt (directive_regex d) -> In p alt -> p c = true -> stamp_char c = true.
Proof.
  assert (Hr : forall lo hi, (48 <=? lo)%N = true -> (hi <=? 57)%N = true ->
                 (lo <=? c)%N && (c <=? hi)%N = true -> stamp_char c = true).
  { intros lo hi Hlo Hhi H. apply andb_true_iff in H. destruct H as [H1 H2].
    apply N.leb_le in Hlo, Hhi, H1, H2. unfold stamp_char.
    rewrite (is_digit_decimal c); [reflexivity|].
    unfold is_digit. apply andb_true_iff. split; apply N.leb_le; lia. }
  assert (Hc : forall x, (x =? 32)%N || ((48 <=? x) && (x <=? 57))%N = true ->
                 (c =? x)%N = true -> stamp_char c = true).
  { intros x Hx H. apply N.eqb_eq in H. subst x. unfold stamp_char.
    apply orb_true_iff in Hx. destruct Hx as [Hx | Hx].
    - rewrite Hx. apply orb_true_r.
    - rewrite (is_digit_decimal c Hx). reflexivity. }
  intros Ha Hp H.
  destruct d; cbn [directive_regex In] in Ha;
    repeat (destruct Ha as [<- | Ha]; [|]); try destruct Ha;
    cbn [In] in Hp; repeat (destruct Hp as [<- | Hp]; [|]); try destruct Hp;
    try (unfold stamp_char; rewrite H; reflexivity);
    try (unfold in_range in H; eapply Hr; [| |exact H]; reflexivity);
    try (unfold is_chr in H; eapply Hc; [|exact H]; reflexivity).
Qed.

Lemma match_alt_chars (a : list (N -> bool)) (s g r : pystr) :
  (forall p c, In p a -> p c = true -> stamp_char c = true) ->
  match_alt a s = Some (g, r) ->
  s = g ++ r /\ forallb stamp_char g = true.
Proof.
  revert s g r; induction a as [|p a IH]; intros s g r Hcl; simpl.
  - intros H; injection H as <- <-. auto.
  - destruct s as [|c s]; [discriminate|].
    destruct (p c) eqn:Ep; [|discriminate].
    destruct (match_alt a s) as [[g' r']|] eqn:E; [|discriminate].
    intros H; injection H as <- <-.
    destruct (IH s g' r') as [H1 H2]; [intros; eapply Hcl; simpl; eauto | exact E |].
    subst s. simpl. rewrite (Hcl p c (or_introl eq_refl) Ep), H2. auto.
Qed.

Lemma re_match_chars (fmt : list directive) (s : pystr) (gs : list pystr)
    (r : pystr) :
  re_match fmt s = Some (gs, r) ->
  exists m, s = m ++ r /\ forallb stamp_char m = true.
Proof.
  revert s gs r; induction fmt as [|d fmt IH]; intros s gs r; simpl.
  - intros H; injection H as _ <-. exists []. auto.
  - intros H. apply first_some_some in H. destruct H as [a [Ha H]].
    destruct (match_alt a s) as [[g r1]|] eqn:Em; [|discriminate].
    destruct (re_match fmt r1) as [[gs' r']|] eqn:Er; [|discriminate].
    injection H as _ <-.
    destruct (match_alt_chars a s g r1) as [Hs Hg];
      [intros p c Hp; apply (class_stamp_char d a p c Ha Hp) | exact Em |].
    destruct (IH _ _ _ Er) as [m [Hm Hf]].
    exists (g ++ m). rewrite <- app_assoc, <- Hm. split; [exact Hs|].
    rewrite forallb_app, Hg, Hf. reflexivity.
Qed.

(** A time stamp with a character that is no decimal digit and no blank
    is not a date and time: so is the text of a float, with its point. *)
Lemma clean_timestamp_other_char (pads : bool) (x : cell) :
  forallb stamp_char (py_str x) = false ->
  clean_timestamp pads x = Raise ValueError.
Proof.
  intros H. unfold clean_timestamp, strptime.
  destruct (re_match [dY; dm; dd; dH; dM; dS] (py_str x)) as [[gs r]|] eqn:E;
    [|reflexivity].
  destruct r as [|c r]; [|reflexivity].
  destruct (re_match_chars _ _ _ _ E) as [m [Hm Hf]].
  rewrite app_nil_r in Hm. subst m. congruence.
Qed.

(** [clean_dataframe] on a file that holds a table of the export, with
    key columns of integers or of texts: it raises exactly when the time
    stamp of a row that passes the two filters is not a date and time, and
    then [ValueError]; the rows the filters drop are not looked at.
    Otherwise it returns one row for each row that passes the filters.  A
    time stamp that is missing, or that was read as a float, is not a
    date and time. *)
Theorem clean_dataframe_errors (pads : bool) (path : pystr) (f : FS)
    (table : DataFrame) :
  str_in path (dirs f) = false ->
  lookup path (files f) = Some (Table table) ->
  let df := map read_row table in
  plain_column (map Model df) = true ->
  plain_column (map Department df) = true ->
  plain_column (map Region df) = true ->
  (forall e, clean_dataframe pads path f = Raise e ->
     e = ValueError
     /\ exists r, In r (filter keep_row (dropna df))
                  /\ clean_timestamp pads (timestamp r) = Raise ValueError)
  /\ ((forall r, In r (filter keep_row (dropna df)) ->
         clean_timestamp pads (timestamp r) <> Raise ValueError) ->
      exists out, clean_dataframe pads path f = Ok out
                  /\ List.length out = List.length (filter keep_row (dropna df)))
  /\ (forall r, In r (filter keep_row (dropna df)) ->
        timestamp r = NaN \/ In (chr ".") (py_str (timestamp r)) ->
        clean_dataframe pads path f = Raise ValueError).
Proof.
  intros Hd Hl df _ _ _.
  assert (Hr : read_csv path f = Ok df)
    by (unfold read_csv; rewrite Hd, Hl; reflexivity).
  unfold clean_dataframe. rewrite Hr. cbn [bind]. unfold clean_frame.
  assert (Hraise : forall e,
            match map_result (canonical pads) (filter keep_row (dropna df)) with
            | Ok rows => Ok (sort_values (column_dtypes df) rows)
            | Raise e' => Raise e'
            end = Raise e ->
            e = ValueError
            /\ exists r, In r (filter keep_row (dropna df))
                         /\ clean_timestamp pads (timestamp r) = Raise ValueError).
  { intros e H.
    destruct (map_result (canonical pads) (filter keep_row (dropna df)))
      as [rows|e'] eqn:Em; [discriminate|]. injection H as ->.
    destruct (map_result_raise _ _ _ Em) as [r [Hin Hc]].
    pose proof (canonical_result pads r) as Hcr.
    destruct (clean_timestamp pads (timestamp r)) as [c|e'] eqn:Et.
    + destruct Hcr as [c' Hc']. congruence.
    + assert (e' = e) by congruence. subst e'.
      pose proof (clean_timestamp_raises _ _ _ Et). subst e. eauto. }
  split; [exact Hraise|]. split.
  - intros Hall.
    destruct (map_result_all (canonical pads) (filter keep_row (dropna df)))
      as [rows [Hrows Hlen]].
    + intros r Hin. pose proof (canonical_result pads r) as Hcr.
      destruct (clean_timestamp pads (timestamp r)) as [c|e'] eqn:Et; [exact Hcr|].
      pose proof (clean_timestamp_raises _ _ _ Et). subst e'.
      destruct (Hall r Hin Et).
    + rewrite Hrows. simpl. eexists. split; [reflexivity|].
      rewrite <- Hlen. symmetry. apply Permutation_length, sort_values_perm.
  - intros r Hin Hbad.
    assert (Ht : clean_timestamp pads (timestamp r) = Raise ValueError).
    { apply clean_timestamp_other_char.
      destruct Hbad as [-> | Hdot]; [reflexivity|].
      destruct (forallb stamp_char (py_str (timestamp r))) eqn:E; [|reflexivity].
      rewrite forallb_forall in E. specialize (E _ Hdot). discriminate E. }
    destruct (map_result (canonical pads) (filter keep_row (dropna df)))
      as [rows|e] eqn:Em.
    + destruct (map_result_image _ _ _ _ Em Hin) as [c [Hc _]].
      unfold canonical in Hc. rewrite Ht in Hc. discriminate.
    + destruct (Hraise e) as [-> _]; [|reflexivity].
      unfold bind. reflexivity.
Qed.

(* ================================================================= *)
(** ** The Sheet Synchronizer *)

Lemma world_eta (w : World) : mkWorld (remote w) (disk w) (book w) = w.
Proof. destruct w; reflexivity. Qed.

Lemma alter_sheet_app_new (t : pystr) (f : Worksheet -> Worksheet)
    (b : Spreadsheet) (x : Worksheet) :
  find_sheet t b = None -> title x = t ->
  alter_sheet t f (b ++ [x]) = b ++ [f x].
Proof.
  intros Hn Hx. induction b as [|y b IH]; simpl in *.
  - rewrite Hx, str_eqb_refl. reflexivity.
  - destruct (str_eqb t (title y)); [discriminate|]. rewrite IH by assumption.
    reflexivity.
Qed.

Lemma alter_sheet_titles (t : pystr) (f : Worksheet -> Worksheet) (b : Spreadsheet) :
  (forall x, title (f x) = title x) ->
  map title (alter_sheet t f b) = map title b.
Proof.
  intros Hf. induction b as [|y b IH]; simpl; [reflexivity|].
  destruct (str_eqb t (title y)); simpl; [rewrite Hf | rewrite IH]; reflexivity.
Qed.

Lemma row_values_length (r : CanonicalRecord) : List.length (row_values r) = 8.
Proof. reflexivity. Qed.

Lemma width_cons (r : list pystr) (rows : list (list pystr)) :
  width (r :: rows) = Nat.max (List.length r) (width rows).
Proof. reflexivity. Qed.

Lemma width_rows (rows : list CanonicalRecord) :
  width (columns :: map row_values rows) = 8.
Proof.
  assert (H : width (map row_values rows) <= 8).
  { induction rows as [|r rows IH]; [unfold width; simpl; lia|].
    cbn [map]. rewrite width_cons, row_values_length. apply Nat.max_lub; lia. }
  rewrite width_cons. change (List.length columns) with 8.
  apply Nat.max_l. exact H.
Qed.

Lemma overlay_row_full (new old : list pystr) :
  List.length old <= List.length new -> overlay_row new old = new.
Proof.
  revert old; induction new as [|x new IH]; intros [|y old]; simpl; intros H;
    try reflexivity; try lia.
  rewrite IH by lia. reflexivity.
Qed.

(** Writing rows of [n] cells over rows of at most [n] cells: the rows
    written are there as written, the rows below them are as before. *)
Lemma overlay_over (n : nat) (new old : list (list pystr)) :
  Forall (fun r => List.length r = n) new ->
  Forall (fun r => List.length r <= n) old ->
  firstn (List.length new) (overlay new old) = new
  /\ skipn (List.length new) (overlay new old) = skipn (List.length new) old.
Proof.
  intros Hn. revert old. induction Hn as [|r new Hr Hnew IH]; intros old Ho.
  - destruct old; simpl; auto.
  - destruct old as [|o old]; simpl.
    + rewrite firstn_all. rewrite skipn_all. auto.
    + inversion Ho as [|? ? Hlo Hold]; subst.
      destruct (IH old Hold) as [H1 H2].
      rewrite overlay_row_full by lia. rewrite H1, H2. auto.
Qed.

Lemma values_width (rows : list CanonicalRecord) :
  Forall (fun r => List.length r = 8) (columns :: map row_values rows).
Proof.
  constructor; [reflexivity|]. apply Forall_forall. intros r Hr.
  apply in_map_iff in Hr. destruct Hr as [c [<- _]]. reflexivity.
Qed.

Lemma cropped_width (n m : nat) (cs : list (list pystr)) :
  Forall (fun r => List.length r <= n) (map (firstn n) (firstn m cs)).
Proof.
  apply Forall_forall. intros r Hr. apply in_map_iff in Hr.
  destruct Hr as [c [<- _]]. rewrite length_firstn. lia.
Qed.

(** The steps of [process_file] once the file is cleaned and named. *)
Lemma process_file_steps (pads : bool) (ws : list pystr) (f : pystr) (w : World)
    (rows : list CanonicalRecord) (t : pystr) :
  clean_dataframe pads (path_join (data_dir w) f) (disk w) = Ok rows ->
  get_sheet_name pads f = Ok t ->
  process_file pads ws f w =
  bindM (if negb (str_in t ws) then
           on_book (Sheets.add_worksheet t (List.length rows) 8)
         else
           bindM (read_book (Sheets.worksheet t)) (fun s =>
           bindM (on_book (Sheets.resize (title s)
                             (row_count s + List.length rows) 8)) (fun _ =>
           ret (title s))))
    (fun worksheet =>
       bindM (on_book (Sheets.update worksheet (columns :: map row_values rows)))
         (fun _ => bindM (on_book (Sheets.set_frozen worksheet 1))
                     (fun _ => ret 8))) w.
Proof.
  intros Hc Hg. unfold process_file.
  rewrite (bindM_ok _ _ w w rows) by (unfold read_disk; rewrite Hc; reflexivity).
  rewrite (bindM_ok _ _ w w t) by (unfold lift; rewrite Hg; reflexivity).
  reflexivity.
Qed.

(** The run of [process_file] on a file whose tab is to be made. *)
Lemma process_file_adds_tab (pads : bool) (ws : list pystr) (f : pystr)
    (w : World) (rows : list CanonicalRecord) (t : pystr) :
  clean_dataframe pads (path_join (data_dir w) f) (disk w) = Ok rows ->
  get_sheet_name pads f = Ok t ->
  str_in t ws = false ->
  find_sheet t (book w) = None ->
  process_file pads ws f w
  = (Ok 8, mkWorld (remote w) (disk w)
             (book w ++ [mkWs t (S (List.length rows)) 8
                           (columns :: map row_values rows) 1])).
Proof.
  intros Hc Hg Hin Hf.
  set (values := columns :: map row_values rows).
  assert (Hfind : forall x, title x = t -> find_sheet t (book w ++ [x]) = Some x).
  { intros x Hx. rewrite find_sheet_app, Hf, Hx, str_eqb_refl. reflexivity. }
  rewrite (process_file_steps pads ws f w rows t Hc Hg). rewrite Hin. cbn [negb].
  set (new0 := mkWs t (List.length rows) 8 [] 0).
  rewrite (bindM_ok _ _ w (mkWorld (remote w) (disk w) (book w ++ [new0])) t)
    by (unfold on_book, Sheets.add_worksheet; rewrite Hf; reflexivity).
  unfold Sheets.update, Sheets.set_frozen.
  rewrite (bindM_ok _ _ _ _ tt
             (on_sheet_found t (Sheets.updated values)
                (mkWorld (remote w) (disk w) (book w ++ [new0])) new0
                (Hfind new0 eq_refl))).
  cbv beta. cbn [remote disk book].
  rewrite (alter_sheet_app_new t _ (book w) new0 Hf eq_refl).
  rewrite (bindM_ok _ _ _ _ tt
             (on_sheet_found t (Sheets.frozen_at 1)
                (mkWorld (remote w) (disk w)
                   (book w ++ [Sheets.updated values new0]))
                (Sheets.updated values new0)
                (Hfind (Sheets.updated values new0) eq_refl))).
  cbv beta. cbn [remote disk book].
  rewrite (alter_sheet_app_new t _ (book w) (Sheets.updated values new0)
             Hf eq_refl).
  unfold ret. do 3 f_equal.
  unfold Sheets.frozen_at, Sheets.updated, new0.
  cbn [title row_count col_count cells frozen].
  unfold values at 2. rewrite width_rows.
  assert (Hlen : Nat.max (List.length rows) (List.length values)
                 = S (List.length rows))
    by (unfold values; simpl List.length; rewrite length_map; lia).
  rewrite Hlen. reflexivity.
Qed.

(** A data file whose tab name is neither in the list made at the start
    of the run nor in the spreadsheet: a tab of that name is added at the
    end, with the header row and the cleaned rows as its values and one
    frozen row, and reading the tab back gives what was written; the
    other tabs, the disk and the bucket are as before. *)
Theorem process_file_new_tab (pads : bool) (ws : list pystr) (f : pystr)
    (w : World) (rows : list CanonicalRecord) (t : pystr) :
  clean_dataframe pads (path_join (data_dir w) f) (disk w) = Ok rows ->
  get_sheet_name pads f = Ok t ->
  str_in t ws = false ->
  find_sheet t (book w) = None ->
  let values := columns :: map row_values rows in
  let w' := mkWorld (remote w) (disk w)
              (book w ++ [mkWs t (S (List.length rows)) 8 values 1]) in
  process_file pads ws f w = (Ok 8, w')
  /\ Sheets.get_all_values t (book w') = Ok values.
Proof.
  intros Hc Hg Hin Hf values w'. split.
  - exact (process_file_adds_tab pads ws f w rows t Hc Hg Hin Hf).
  - unfold Sheets.get_all_values, w'. cbn [book].
    rewrite find_sheet_app, Hf. cbn [find_sheet title].
    rewrite str_eqb_refl. reflexivity.
Qed.

(** A data file whose tab name is in the list made at the start of the
    run, the tab being there: the tab keeps its place and its title, its
    grid is made as high as it was plus the number of cleaned rows, its
    first rows become the header row and the cleaned rows, and the rows it
    had below those stay (cut to eight columns): nothing is cleared. *)
Theorem process_file_existing_tab (pads : bool) (ws : list pystr) (f : pystr)
    (w : World) (rows : list CanonicalRecord) (t : pystr) (s : Worksheet) :
  clean_dataframe pads (path_join (data_dir w) f) (disk w) = Ok rows ->
  get_sheet_name pads f = Ok t ->
  str_in t ws = true ->
  find_sheet t (book w) = Some s ->
  let n := List.length rows in
  exists w' s',
    process_file pads ws f w = (Ok 8, w')
    /\ remote w' = remote w /\ disk w' = disk w
    /\ map title (book w') = map title (book w)
    /\ find_sheet t (book w') = Some s'
    /\ row_count s' = Nat.max (row_count s + n) (S n)
    /\ col_count s' = 8 /\ frozen s' = 1
    /\ firstn (S n) (cells s') = columns :: map row_values rows
    /\ skipn (S n) (cells s')
       = skipn (S n) (map (firstn 8) (firstn (row_count s + n) (cells s))).
Proof.
  intros Hc Hg Hin Hf n.
  pose proof (find_sheet_title _ _ _ Hf) as Ht.
  set (values := columns :: map row_values rows).
  set (f1 := Sheets.resized (row_count s + n) 8).
  set (f2 := Sheets.updated values).
  set (f3 := Sheets.frozen_at 1).
  pose proof (find_sheet_alter t f1 (book w) s Hf eq_refl) as H1.
  pose proof (find_sheet_alter t f2 _ _ H1 eq_refl) as H2.
  pose proof (find_sheet_alter t f3 _ _ H2 eq_refl) as H3.
  exists (mkWorld (remote w) (disk w)
            (alter_sheet t f3 (alter_sheet t f2 (alter_sheet t f1 (book w))))),
         (f3 (f2 (f1 s))).
  split.
  - rewrite (process_file_steps pads ws f w rows t Hc Hg). rewrite Hin. cbn [negb].
    rewrite (bindM_ok _ _ w
               (mkWorld (remote w) (disk w) (alter_sheet t f1 (book w))) t).
    2:{ rewrite (bindM_ok _ _ w w s)
          by (unfold read_book, Sheets.worksheet; rewrite Hf; reflexivity).
        rewrite Ht. unfold Sheets.resize.
        rewrite (bindM_ok _ _ w _ tt (on_sheet_found t f1 w s Hf)).
        reflexivity. }
    unfold Sheets.update, Sheets.set_frozen.
    rewrite (bindM_ok _ _ _ _ tt
               (on_sheet_found t f2 (mkWorld (remote w) (disk w) _) _ H1)).
    cbv beta. cbn [remote disk book].
    rewrite (bindM_ok _ _ _ _ tt
               (on_sheet_found t f3 (mkWorld (remote w) (disk w) _) _ H2)).
    reflexivity.
  - cbn [remote disk book].
    split; [reflexivity|]. split; [reflexivity|].
    split. { rewrite !alter_sheet_titles by reflexivity. reflexivity. }
    split; [exact H3|].
    unfold f3, f2, f1, Sheets.frozen_at, Sheets.updated, Sheets.resized.
    cbn [title row_count col_count cells frozen].
    assert (Hlen : List.length values = S n)
      by (unfold values, n; simpl; rewrite length_map; reflexivity).
    rewrite Hlen. unfold values at 1. rewrite width_rows.
    split; [reflexivity|]. split; [reflexivity|]. split; [reflexivity|].
    destruct (overlay_over 8 values
                (map (firstn 8) (firstn (row_count s + n) (cells s)))
                (values_width rows) (cropped_width _ _ _)) as [O1 O2].
    rewrite Hlen in O1, O2. auto.
Qed.

(** Two data files of one run with the same tab name, the name not being
    in the list made at the start of the run: the first makes the tab, and
    the second, looked up in the same list, asks for the tab to be made
    again and raises [APIError]; nothing is written for it. *)
Theorem process_file_same_tab_twice (pads : bool) (ws : list pystr)
    (f1 f2 : pystr) (w w1 : World) (c : nat) (t : pystr)
    (rows2 : list CanonicalRecord) :
  process_file pads ws f1 w = (Ok c, w1) ->
  get_sheet_name pads f1 = Ok t ->
  str_in t ws = false ->
  get_sheet_name pads f2 = Ok t ->
  clean_dataframe pads (path_join (data_dir w1) f2) (disk w1) = Ok rows2 ->
  process_file pads ws f2 w1 = (Raise APIError, w1).
Proof.
  intros H1 Hg1 Hin Hg2 Hc2.
  assert (Hfound : find_sheet t (book w1) <> None).
  { destruct (clean_dataframe pads (path_join (data_dir w) f1) (disk w))
      as [rows1|e] eqn:Hc1.
    2:{ unfold process_file in H1.
        rewrite (bindM_raise _ _ w w e) in H1
          by (unfold read_disk; rewrite Hc1; reflexivity).
        discriminate. }
    destruct (find_sheet t (book w)) as [s|] eqn:Hf.
    - rewrite (process_file_steps pads ws f1 w rows1 t Hc1 Hg1) in H1.
      rewrite Hin in H1. cbn [negb] in H1.
      rewrite (bindM_raise _ _ w w APIError) in H1; [discriminate|].
      unfold on_book, Sheets.add_worksheet. rewrite Hf, world_eta. reflexivity.
    - rewrite (process_file_adds_tab pads ws f1 w rows1 t Hc1 Hg1 Hin Hf) in H1. injection H1 as _ <-. cbn [book].
      rewrite find_sheet_app, Hf, str_eqb_refl. discriminate. }
  rewrite (process_file_steps pads ws f2 w1 rows2 t Hc2 Hg2). rewrite Hin.
  cbn [negb]. apply bindM_raise.
  unfold on_book, Sheets.add_worksheet.
  destruct (find_sheet t (book w1)); [|congruence].
  rewrite world_eta. reflexivity.
Qed.

(* ================================================================= *)
(** ** What a run keeps *)

Lemma extends_refl {A} (l : list A) : extends l l.
Proof. exists []. symmetry. apply app_nil_r. Qed.

Lemma extends_trans {A} (a b c : list A) : extends a b -> extends b c -> extends a c.
Proof.
  intros [x ->] [y ->]. exists (x ++ y). rewrite app_assoc. reflexivity.
Qed.

Lemma kept_refl (w : World) : kept w w.
Proof. unfold kept. auto using extends_refl. Qed.

Lemma kept_trans (a b c : World) : kept a b -> kept b c -> kept a c.
Proof.
  unfold kept. intros (R1 & C1 & D1 & F1 & T1) (R2 & C2 & D2 & F2 & T2).
  repeat split; try congruence; eapply extends_trans; eassumption.
Qed.

Lemma keeps_ret {A} (a : A) : keeps (ret a).
Proof. intros w. apply kept_refl. Qed.

Lemma keeps_raise {A} (e : exn) : keeps (@raise A e).
Proof. intros w. apply kept_refl. Qed.

Lemma keeps_lift {A} (r : result A) : keeps (lift r).
Proof. intros w. apply kept_refl. Qed.

Lemma keeps_read_book {A} (op : Spreadsheet -> result A) : keeps (read_book op).
Proof. intros w. apply kept_refl. Qed.

Lemma keeps_read_disk {A} (op : FS -> result A) : keeps (read_disk op).
Proof. intros w. apply kept_refl. Qed.

Lemma keeps_dep {A} (F : World -> M A) :
  (forall w0, keeps (F w0)) -> keeps (fun w => F w w).
Proof. intros H w. apply (H w w). Qed.

Lemma keeps_bind {A B} (m : M A) (k : A -> M B) :
  keeps m -> (forall a, keeps (k a)) -> keeps (bindM m k).
Proof.
  intros Hm Hk w. unfold bindM. specialize (Hm w).
  destruct (m w) as [[a|e] w1]; cbn [snd] in *; [|assumption].
  eapply kept_trans; [eassumption | apply Hk].
Qed.

Lemma keeps_on_sheet (t : pystr) (f : Worksheet -> Worksheet) :
  (forall x, title (f x) = title x) -> keeps (on_book (Sheets.on_sheet t f)).
Proof.
  intros Hf w. unfold on_book, Sheets.on_sheet.
  destruct (find_sheet t (book w)); cbn [snd]; unfold kept; cbn [remote disk book];
    repeat split; try apply extends_refl.
  rewrite alter_sheet_titles by assumption. apply extends_refl.
Qed.

Lemma keeps_resize (t : pystr) (rows cols : nat) :
  keeps (on_book (Sheets.resize t rows cols)).
Proof.
  destruct cols as [|c].
  - intros w. unfold on_book, Sheets.resize. cbn [snd]. destruct w.
    apply kept_refl.
  - apply (keeps_on_sheet t (Sheets.resized rows (S c))). reflexivity.
Qed.

Lemma keeps_add_worksheet (t : pystr) (rows cols : nat) :
  keeps (on_book (Sheets.add_worksheet t rows cols)).
Proof.
  intros w. unfold on_book, Sheets.add_worksheet.
  destruct (find_sheet t (book w)); cbn [snd]; unfold kept; cbn [remote disk book];
    repeat split; try apply extends_refl.
  rewrite map_app. eexists. reflexivity.
Qed.

Lemma keeps_download (bucket k : pystr) : keeps (download bucket k).
Proof.
  intros w. unfold download.
  pose proof (download_object_disk bucket k (path_join (cwd (disk w)) k)
                (remote w) (disk w)) as H.
  cbv zeta in H.
  destruct (S3Client.download_object bucket k (path_join (cwd (disk w)) k)
              (remote w) (disk w)) as [r f'].
  cbn [snd] in *. destruct H as (Hc & Hd & Hk).
  unfold kept. cbn [remote disk book].
  repeat split; try assumption; try apply extends_refl.
  destruct Hk as [-> | ->]; [apply extends_refl | eexists; reflexivity].
Qed.

Lemma keeps_for_each {A} (xs : list A) (body : A -> M unit) :
  (forall x, keeps (body x)) -> keeps (for_each xs body).
Proof.
  intros H. induction xs as [|x xs IH]; cbn [for_each].
  - apply keeps_ret.
  - apply keeps_bind; auto.
Qed.

Lemma keeps_selected (k : pystr) : keeps (selected k).
Proof.
  unfold selected. destruct (contains (py "cars") k); [|apply keeps_ret].
  apply keeps_bind; [apply keeps_lift|]. intros [|]; [|apply keeps_ret].
  apply (keeps_dep (fun w0 => bindM (read_disk (listdir (data_dir w0))) _)).
  intros w0. apply keeps_bind; [apply keeps_read_disk | intros; apply keeps_ret].
Qed.

Lemma keeps_download_step (bucket k : pystr) : keeps (download_step bucket k).
Proof.
  unfold download_step. apply keeps_bind; [apply keeps_selected|].
  intros [|]; [apply keeps_download | apply keeps_ret].
Qed.

Lemma keeps_process_file (pads : bool) (ws : list pystr) (f : pystr) :
  keeps (process_file pads ws f).
Proof.
  unfold process_file.
  apply keeps_bind.
  { apply (keeps_dep (fun w0 => read_disk _)). intros w0. apply keeps_read_disk. }
  intros rows. apply keeps_bind; [apply keeps_lift|]. intros t.
  apply keeps_bind.
  { destruct (negb (str_in t ws)); [apply keeps_add_worksheet|].
    apply keeps_bind; [apply keeps_read_book|]. intros s.
    apply keeps_bind; [apply keeps_on_sheet; reflexivity|].
    intros; apply keeps_ret. }
  intros h. apply keeps_bind; [apply keeps_on_sheet; reflexivity|]. intros _.
  apply keeps_bind; [apply keeps_on_sheet; reflexivity|]. intros _.
  apply keeps_ret.
Qed.

Lemma keeps_process_files (pads : bool) (ws fs : list pystr) (c : option nat) :
  keeps (process_files pads ws fs c).
Proof.
  revert c; induction fs as [|f fs IH]; intros c; cbn [process_files].
  - apply keeps_ret.
  - apply keeps_bind; [apply keeps_process_file | intros; apply IH].
Qed.

Lemma keeps_consolidate (ws : list pystr) (acc : list (list pystr)) :
  keeps (consolidate ws acc).
Proof.
  revert acc; induction ws as [|t ws IH]; intros acc; cbn [consolidate].
  - apply keeps_ret.
  - destruct (negb (str_in t [ALL_DATA; SUMMARY])); [|apply IH].
    apply keeps_bind; [apply keeps_read_book | intros; apply IH].
Qed.

Lemma keeps_write_aggregate (a : pystr) (ws : list pystr) (cons : list (list pystr)) :
  keeps (write_aggregate a ws cons).
Proof.
  unfold write_aggregate.
  apply keeps_bind; [apply keeps_lift|]. intros t.
  apply keeps_bind; [apply keeps_read_book|]. intros vs.
  apply keeps_bind; [apply keeps_lift|]. intros hdr.
  apply keeps_bind; [apply keeps_resize|]. intros _.
  apply keeps_bind; [apply keeps_on_sheet; reflexivity|]. intros _.
  apply keeps_bind; [apply keeps_on_sheet; reflexivity|]. intros _.
  apply keeps_on_sheet; reflexivity.
Qed.

Lemma keeps_aggregate (ws : list pystr) (cols : option nat) :
  keeps (aggregate ws cols).
Proof.
  unfold aggregate. apply keeps_bind; [apply keeps_consolidate|]. intros cons.
  destruct (negb (str_in ALL_DATA ws)).
  - apply keeps_bind; [destruct cols; [apply keeps_ret | apply keeps_raise]|].
    intros c. apply keeps_bind; [apply keeps_add_worksheet|]. intros a.
    apply keeps_write_aggregate.
  - apply keeps_bind; [apply keeps_read_book|]. intros s.
    apply keeps_write_aggregate.
Qed.

(** Whether [main] returns or raises, it loses nothing: the bucket is as
    it was, no directory and no file of the disk is removed, and no tab of
    the spreadsheet is removed, moved or renamed (tabs are only added at
    the end). *)
Theorem main_keeps (pads : bool) (bucket : pystr) (w : World) :
  kept w (snd (main pads bucket w)).
Proof.
  revert w. change (keeps (main pads bucket)). unfold main.
  apply keeps_bind; [apply keeps_read_book|]. intros ws.
  apply keeps_bind.
  { apply (keeps_dep (fun w0 => lift _)). intros w0. apply keeps_lift. }
  intros objs.
  apply keeps_bind; [apply keeps_for_each; intros; apply keeps_download_step|].
  intros _.
  apply keeps_bind.
  { apply (keeps_dep (fun w0 => read_disk _)). intros w0. apply keeps_read_disk. }
  intros fs. apply keeps_bind; [apply keeps_process_files|]. intros c.
  apply keeps_aggregate.
Qed.

(* ================================================================= *)
(** ** A run with nothing to process *)

Lemma selected_world (k : pystr) (w : World) : snd (selected k w) = w.
Proof.
  unfold selected. destruct (contains (py "cars") k); [|reflexivity].
  unfold bindM, lift. destruct (is_file_name_on_1st k) as [[|]|e]; try reflexivity.
  unfold read_disk. destruct (listdir (data_dir w) (disk w)); reflexivity.
Qed.

Lemma download_step_book (bucket k : pystr) (w : World) :
  book (snd (download_step bucket k w)) = book w.
Proof.
  unfold download_step, bindM. pose proof (selected_world k w) as H.
  destruct (selected k w) as [[[|]|e] w1]; cbn [snd] in *; subst w1; try reflexivity.
  unfold download.
  destruct (S3Client.download_object _ _ _ _ _) as [r f']. reflexivity.
Qed.

Lemma for_each_download_book (bucket : pystr) (ks : list pystr) (w : World) :
  book (snd (for_each ks (download_step bucket) w)) = book w.
Proof.
  revert w; induction ks as [|k ks IH]; intros w; cbn [for_each]; [reflexivity|].
  unfold bindM. pose proof (download_step_book bucket k w) as H.
  destruct (download_step bucket k w) as [[u|e] w1]; cbn [snd] in *;
    [rewrite IH|]; assumption.
Qed.

Lemma find_sheet_In (t : pystr) (b : Spreadsheet) :
  In t (map title b) -> exists s, find_sheet t b = Some s.
Proof.
  induction b as [|x b IH]; simpl; [tauto|].
  destruct (str_eqb t (title x)) eqn:E; [eauto|].
  intros [H | H]; [|auto]. subst t. rewrite str_eqb_refl in E. discriminate.
Qed.

Lemma consolidate_total (ws : list pystr) (acc : list (list pystr)) (w : World) :
  (forall t, In t ws -> In t (map title (book w))) ->
  exists cons, consolidate ws acc w = (Ok cons, w).
Proof.
  revert acc; induction ws as [|t ws IH]; intros acc H; cbn [consolidate].
  - eexists; reflexivity.
  - assert (Hws : forall t0, In t0 ws -> In t0 (map title (book w)))
      by (intros; apply H; simpl; auto).
    destruct (negb (str_in t [ALL_DATA; SUMMARY])); [|apply IH; assumption].
    destruct (find_sheet_In t (book w) (H t (or_introl eq_refl))) as [s Hs].
    unfold bindM at 1, read_book, Sheets.get_all_values. rewrite Hs.
    apply IH; assumption.
Qed.

(** A run that finds no file in the data directory while the spreadsheet
    has no aggregate tab raises [UnboundLocalError]: the number of
    columns for the new tab is a variable of the loop over the data files,
    which did not run. *)
Theorem main_nothing_to_process (pads : bool) (bucket : pystr) (w w0 : World)
    (s3_objects : list pystr) :
  S3Client.list_objects bucket (remote w) = Ok s3_objects ->
  for_each s3_objects (download_step bucket) w = (Ok tt, w0) ->
  listdir (data_dir w0) (disk w0) = Ok [] ->
  str_in ALL_DATA (Sheets.worksheets (book w)) = false ->
  main pads bucket w = (Raise UnboundLocalError, w0).
Proof.
  intros Hl Hd Hls Hno. rewrite main_steps, Hl, Hd, Hls.
  cbn [process_files]. unfold ret at 1.
  pose proof (for_each_download_book bucket s3_objects w) as Hb.
  rewrite Hd in Hb. cbn [snd] in Hb.
  destruct (consolidate_total (Sheets.worksheets (book w)) [] w0) as [cons Hc].
  { intros t Ht. rewrite Hb. exact Ht. }
  unfold aggregate. rewrite (bindM_ok _ _ w0 w0 cons Hc). rewrite Hno. cbn [negb].
  apply bindM_raise. reflexivity.
Qed.

(* ================================================================= *)
(** ** Names with more than one underscore *)

(** Both name functions read the text between the first and the second
    underscore and nothing after it: a name with an underscore in its
    prefix is read by what follows its first underscore. *)
Theorem names_read_second_segment (pads : bool) (pre seg rest : pystr) :
  ~ In (chr "_") pre -> ~ In (chr "_") seg ->
  is_file_name_on_1st (pre ++ chr "_" :: seg ++ chr "_" :: rest)
  = is_file_name_on_1st (pre ++ chr "_" :: seg)
  /\ get_sheet_name pads (pre ++ chr "_" :: seg ++ chr "_" :: rest)
     = get_sheet_name pads (pre ++ chr "_" :: seg).
Proof.
  intros Hp Hs.
  assert (H1 : index (split (chr "_") (pre ++ chr "_" :: seg ++ chr "_" :: rest)) 1
               = Ok seg).
  { rewrite (split_app_sep _ pre _ Hp), (split_app_sep _ seg _ Hs). reflexivity. }
  assert (H2 : index (split (chr "_") (pre ++ chr "_" :: seg)) 1 = Ok seg).
  { rewrite (split_app_sep _ pre _ Hp), (split_no_sep _ seg Hs). reflexivity. }
  unfold is_file_name_on_1st, get_sheet_name. rewrite H1, H2. auto.
Qed.

(* ================================================================= *)
(** ** The rows the Record Cleaner keeps, and what the aggregate holds *)

(** Every row of the file that has the five required fields and is not
    excluded by status, department, model or year is in the output, as its
    canonical row. *)
Theorem clean_dataframe_retains (pads : bool) (path : pystr) (f : FS)
    (df : DataFrame) (out : list CanonicalRecord) (r : RawRecord) :
  read_csv path f = Ok df ->
  clean_dataframe pads path f = Ok out ->
  In r df ->
  isna (VIN r) = false -> isna (Number r) = false -> isna (Status r) = false ->
  isna (Region r) = false -> isna (Department r) = false ->
  keep_row r = true ->
  exists c, canonical pads r = Ok c /\ In c out.
Proof.
  intros Hr Hc Hin Hv Hn Hs Hg Hd Hk.
  destruct (clean_dataframe_frame _ _ _ _ Hc) as [df' [Hr' Hf]].
  assert (df' = df) by congruence. subst df'.
  destruct (clean_frame_rows _ _ _ Hf) as [rows [Hrows ->]].
  assert (Hkept : In r (filter keep_row (dropna df))).
  { apply filter_In. split; [|assumption]. unfold dropna. apply filter_In.
    split; [assumption|]. rewrite Hv, Hn, Hs, Hg, Hd. reflexivity. }
  destruct (map_result_image _ _ _ _ Hrows Hkept) as [c [Hcan Hc']].
  exists c. split; [assumption|].
  apply (Permutation_in _ (sort_values_perm _ rows)). exact Hc'.
Qed.

(** When the aggregation step succeeds, the aggregate tab holds the
    first row of the worksheet at index 1 of the list, followed by the
    rows below the first of every tab of the list but the aggregate and
    the summary, in the order of the list and of the tabs: nothing of what
    the aggregate held before is left, and nothing is sorted again. *)
Theorem aggregate_content (ws : list pystr) (cols : option nat) (w w' : World) :
  aggregate ws cols w = (Ok tt, w') ->
  exists t hdr,
    nth_error (appended ws) 1 = Some t
    /\ nth_error (tab_values t (book w)) 0 = Some hdr
    /\ tab_values ALL_DATA (book w')
       = hdr :: List.concat
                  (map (fun t => tl (tab_values t (book w)))
                     (filter (fun t => negb (str_in t [ALL_DATA; SUMMARY])) ws)).
Proof.
  intros Ha.
  destruct (aggregate_cases ws cols w)
    as [[e [w1 [Hr _]]]
       | [w1 [t [s [hdr [rest [cons (Hr & Hcons & Hn & Hf & Hc & Hp)]]]]]]];
    rewrite Hr in Ha; [discriminate|]. injection Ha as <-.
  exists t, hdr. split; [assumption|]. split.
  - unfold tab_values. rewrite Hf, Hc. reflexivity.
  - unfold tab_values at 1.
    destruct (find_sheet ALL_DATA (book w1)) as [a|]; [|discriminate].
    cbn [option_map] in Hp. injection Hp as ->.
    rewrite (consolidate_ok _ _ _ _ Hcons). reflexivity.
Qed.

(* ================================================================= *)
(** ** The further properties at the sample data *)

Import Cases.

Lemma upload_file_spec_witness :
  open_rb jan_path month_disk = Ok (Table [car1])
  /\ str_in bucket (buckets no_objects) = true
  /\ exists s',
       S3Client.upload_file bucket jan_path prefix_2024 no_objects month_disk
       = (true, s')
       /\ object_at bucket (prefix_2024 ++ basename jan_path) s'
          = Some (Table [car1]).
Proof.
  split; [reflexivity|]. split; [reflexivity|].
  destruct (proj2 (proj2 (upload_file_spec bucket jan_path prefix_2024
                            no_objects month_disk))
              (Table [car1]) eq_refl eq_refl) as [s' (H1 & H2 & _)].
  exists s'. auto.
Defined.


Lemma download_object_bad_target_witness :
  below_file (path_join jan_path (py "copy.csv")) month_disk = true
  /\ S3Client.download_object bucket jan (path_join jan_path (py "copy.csv"))
       (remote month_in_bucket) month_disk
     = (Raise NotADirectoryError, month_disk)
  /\ S3Client.download_object bucket jan data (remote month_in_bucket) month_disk
     = (Raise IsADirectoryError, month_disk)
  /\ S3Client.download_object bucket jan (py "/tmp/new/cars.csv")
       (remote month_in_bucket) month_disk
     = (Raise FileNotFoundError, month_disk).
Proof.
  split; [reflexivity|]. split; [|split].
  - exact (proj1 (proj2 (download_object_bad_target bucket jan
                           (path_join jan_path (py "copy.csv"))
                           (remote month_in_bucket) month_disk eq_refl))
             eq_refl eq_refl eq_refl).
  - exact (proj1 (download_object_bad_target bucket jan data
                    (remote month_in_bucket) month_disk eq_refl) eq_refl).
  - exact (proj2 (proj2 (download_object_bad_target bucket jan
                           (py "/tmp/new/cars.csv")
                           (remote month_in_bucket) month_disk eq_refl))
             eq_refl eq_refl eq_refl).
Defined.

Lemma upload_download_round_trip_witness :
  S3Client.upload_file bucket jan_path prefix_2024 no_objects month_disk
  = (true, uploaded)
  /\ exists f',
       S3Client.download_object bucket (prefix_2024 ++ basename jan_path)
         (path_join base jan) uploaded month_disk = (Ok true, f')
       /\ open_rb (path_join base jan) f' = open_rb jan_path month_disk.
Proof.
  assert (Hu : S3Client.upload_file bucket jan_path prefix_2024 no_objects
                 month_disk = (true, uploaded)) by reflexivity.
  split; [exact Hu|].
  destruct (upload_download_round_trip bucket jan_path prefix_2024
              (path_join base jan) no_objects uploaded month_disk Hu
              eq_refl eq_refl) as [f' (H1 & H2 & _)].
  exists f'. auto.
Defined.



Lemma copy_object_spec_witness :
  object_at bucket jan (remote month_in_bucket) = Some (Table [car1])
  /\ (exists s',
        S3Client.copy_object bucket bucket jan (py "backup/january.csv")
          (remote month_in_bucket) = (Ok true, s')
        /\ object_at bucket (py "backup/january.csv") s' = Some (Table [car1]))
  /\ S3Client.copy_object bucket bucket jan jan (remote month_in_bucket)
     = (Ok false, remote month_in_bucket).
Proof.
  assert (Hk : py "backup/january.csv" <> []) by discriminate.
  assert (Hj : jan <> []) by discriminate.
  assert (Hne : bucket <> bucket \/ jan <> py "backup/january.csv")
    by (right; discriminate).
  split; [reflexivity|]. split.
  - destruct (proj1 (proj1 (copy_object_spec bucket bucket jan
                              (py "backup/january.csv")
                              (remote month_in_bucket)) eq_refl Hk)
                (Table [car1]) eq_refl eq_refl Hne)
      as [s' (H1 & H2 & _)].
    exists s'. auto.
  - exact (proj1 (proj2 (proj1 (copy_object_spec bucket bucket jan jan
                                  (remote month_in_bucket)) eq_refl Hj))
             eq_refl eq_refl).
Defined.

Lemma clean_timestamp_digits_witness :
  valid_datetime (ymdhms (py "20240101030000")) = true
  /\ clean_timestamp false (Val (py "20240101030000")) = Ok (Val (py "2024-01-01")).
Proof.
  assert (Hy : (1000 <= year (ymdhms (py "20240101030000")))%Z)
    by (vm_compute; discriminate).
  split; [reflexivity|].
  exact (proj1 (clean_timestamp_digits false (py "20240101030000") eq_refl eq_refl)
           eq_refl (or_intror Hy)).
Defined.

Lemma clean_dataframe_errors_witness :
  lookup jan_path (files (disk bad_then_good)) = Some (Table [car3])
  /\ clean_dataframe false jan_path (disk bad_then_good) = Raise ValueError
  /\ exists r, In r (filter keep_row (dropna [read_row car3]))
               /\ clean_timestamp false (timestamp r) = Raise ValueError.
Proof.
  assert (Hl : lookup jan_path (files (disk bad_then_good)) = Some (Table [car3]))
    by reflexivity.
  assert (He : clean_dataframe false jan_path (disk bad_then_good)
               = Raise ValueError) by (vm_compute; reflexivity).
  split; [exact Hl|]. split; [exact He|].
  exact (proj2 (proj1 (clean_dataframe_errors false jan_path (disk bad_then_good)
                         [car3] eq_refl Hl eq_refl eq_refl eq_refl)
                  ValueError He)).
Defined.

Lemma clean_dataframe_retains_witness :
  clean_dataframe false jan_path two_years_disk = Ok [jan_row; short_year_row]
  /\ keep_row (read_row car2) = true
  /\ exists c, canonical false (read_row car2) = Ok c
               /\ In c [jan_row; short_year_row].
Proof.
  assert (Hc : clean_dataframe false jan_path two_years_disk
               = Ok [jan_row; short_year_row]) by (vm_compute; reflexivity).
  split; [exact Hc|]. split; [reflexivity|].
  exact (clean_dataframe_retains false jan_path two_years_disk
           [read_row car1; read_row car2] [jan_row; short_year_row]
           (read_row car2) eq_refl Hc (or_intror (or_introl eq_refl))
           eq_refl eq_refl eq_refl eq_refl eq_refl eq_refl).
Defined.

Lemma process_file_new_tab_witness :
  find_sheet (py "2024-01-01") (book month_on_disk) = None
  /\ process_file false (Sheets.worksheets (book month_on_disk)) jan month_on_disk
     = (Ok 8, january_written)
  /\ Sheets.get_all_values (py "2024-01-01") (book january_written)
     = Ok [columns; row_values jan_row].
Proof.
  assert (Hc : clean_dataframe false (path_join (data_dir month_on_disk) jan)
                 (disk month_on_disk) = Ok [jan_row]) by (vm_compute; reflexivity).
  assert (Hg : get_sheet_name false jan = Ok (py "2024-01-01"))
    by (vm_compute; reflexivity).
  split; [reflexivity|].
  exact (process_file_new_tab false (Sheets.worksheets (book month_on_disk)) jan
           month_on_disk [jan_row] (py "2024-01-01") Hc Hg eq_refl eq_refl).
Defined.

Lemma process_file_existing_tab_witness :
  find_sheet (py "2024-01-01") (book january_written) = Some january_tab
  /\ exists w' s',
       process_file false (Sheets.worksheets (book january_written)) jan
         january_written = (Ok 8, w')
       /\ find_sheet (py "2024-01-01") (book w') = Some s'
       /\ row_count s' = 3.
Proof.
  assert (Hc : clean_dataframe false (path_join (data_dir january_written) jan)
                 (disk january_written) = Ok [jan_row]) by (vm_compute; reflexivity).
  assert (Hg : get_sheet_name false jan = Ok (py "2024-01-01"))
    by (vm_compute; reflexivity).
  split; [reflexivity|].
  destruct (process_file_existing_tab false
              (Sheets.worksheets (book january_written)) jan january_written
              [jan_row] (py "2024-01-01") january_tab Hc Hg eq_refl eq_refl)
    as [w' [s' (H1 & _ & _ & _ & H5 & H6 & _)]].
  exists w', s'. auto.
Defined.

Lemma process_file_same_tab_twice_witness :
  process_file false (Sheets.worksheets (book same_day)) jan same_day
  = (Ok 8, snd (process_file false (Sheets.worksheets (book same_day)) jan same_day))
  /\ process_file false (Sheets.worksheets (book same_day)) jan_later
       (snd (process_file false (Sheets.worksheets (book same_day)) jan same_day))
     = (Raise APIError,
        snd (process_file false (Sheets.worksheets (book same_day)) jan same_day)).
Proof.
  assert (H1 : process_file false (Sheets.worksheets (book same_day)) jan same_day
               = (Ok 8, snd (process_file false (Sheets.worksheets (book same_day))
                               jan same_day))) by (vm_compute; reflexivity).
  assert (Hg1 : get_sheet_name false jan = Ok (py "2024-01-01"))
    by (vm_compute; reflexivity).
  assert (Hg2 : get_sheet_name false jan_later = Ok (py "2024-01-01"))
    by (vm_compute; reflexivity).
  assert (Hc2 : clean_dataframe false
                  (path_join
                     (data_dir (snd (process_file false
                                       (Sheets.worksheets (book same_day)) jan
                                       same_day))) jan_later)
                  (disk (snd (process_file false
                                (Sheets.worksheets (book same_day)) jan same_day)))
                = Ok [jan_row]) by (vm_compute; reflexivity).
  split; [exact H1|].
  exact (process_file_same_tab_twice false (Sheets.worksheets (book same_day))
           jan jan_later same_day _ 8 (py "2024-01-01") [jan_row]
           H1 Hg1 eq_refl Hg2 Hc2).
Defined.

Lemma main_nothing_to_process_witness :
  listdir (data_dir nothing_to_do) (disk nothing_to_do) = Ok []
  /\ main false bucket nothing_to_do = (Raise UnboundLocalError, nothing_to_do).
Proof.
  split; [reflexivity|].
  exact (main_nothing_to_process false bucket nothing_to_do nothing_to_do []
           eq_refl eq_refl eq_refl eq_refl).
Defined.

Lemma names_read_second_segment_witness :
  ~ In (chr "_") (py "cars") /\ ~ In (chr "_") (py "monthly")
  /\ is_file_name_on_1st (py "cars_monthly_20240101030000.csv")
     = is_file_name_on_1st (py "cars_monthly")
  /\ is_file_name_on_1st (py "cars_monthly") = Raise ValueError.
Proof.
  assert (Hp : ~ In (chr "_") (py "cars"))
    by (simpl; intros H; repeat destruct H as [H|H]; try discriminate H; exact H).
  assert (Hs : ~ In (chr "_") (py "monthly"))
    by (simpl; intros H; repeat destruct H as [H|H]; try discriminate H; exact H).
  split; [exact Hp|]. split; [exact Hs|]. split; [|reflexivity].
  exact (proj1 (names_read_second_segment false (py "cars") (py "monthly")
                  (py "20240101030000.csv") Hp Hs)).
Defined.

Lemma aggregate_content_witness :
  aggregate (Sheets.worksheets (book month_on_disk)) (Some 8) january_written
  = (Ok tt, snd (main false bucket month_on_disk))
  /\ exists t hdr,
       nth_error (appended (Sheets.worksheets (book month_on_disk))) 1 = Some t
       /\ nth_error (tab_values t (book january_written)) 0 = Some hdr.
Proof.
  assert (Ha : aggregate (Sheets.worksheets (book month_on_disk)) (Some 8)
                 january_written
               = (Ok tt, snd (main false bucket month_on_disk)))
    by (vm_compute; reflexivity).
  split; [exact Ha|].
  destruct (aggregate_content _ _ _ _ Ha) as [t [hdr (H1 & H2 & _)]].
  exists t, hdr. auto.
Defined.
